(** * trcli: suite resolution, reconciliation and batch upload

    A shallow embedding of [trcli/api/api_request_handler.py] and
    [trcli/api/results_uploader.py].  The client, the prompter, the data
    provider and the thread pool are collaborators of these two modules;
    they appear here as oracles that read the history of the run. *)

From Stdlib Require Import ZArith Lia.
From stdpp Require Import base option list strings gmap sets.

Local Open Scope Z_scope.
Local Open Scope string_scope.
Local Open Scope list_scope.

(** ** Python values *)

(** Decoded JSON bodies and request payloads.  A Python [dict] with string
    keys is a [gmap string PyVal]. *)
#[local] Set Warnings "-register-all".
Inductive PyVal : Type :=
| PNone
| PBool (b : bool)
| PInt (z : Z)
| PStr (s : string)
| PList (l : list PyVal)
| PDict (d : gmap string PyVal).

#[local] Set Warnings "register-all".

Inductive Exn : Type :=
| KeyError (k : string)
| TypeError
| IndexError
| AttributeError
| ValueError
| KeyboardInterrupt
| SystemExit (code : Z).

(** [bool(s)] for a [str]: the empty string is the only falsy one. *)
Definition str_truthy (s : string) : bool :=
  if decide (s = "") then false else true.

(** [bool(x)] for an [Optional[int]]: [None] and [0] are falsy. *)
Definition optint_truthy (o : option Z) : bool :=
  match o with
  | None => false
  | Some z => if decide (z = 0) then false else true
  end.

(** [bool(l)] for a list. *)
Definition list_truthy {A : Type} (l : list A) : bool :=
  match l with [] => false | _ :: _ => true end.

(** [v[k]] for a string key: only a dict holding the key answers. *)
Definition py_getitem (v : PyVal) (k : string) : Exn + PyVal :=
  match v with
  | PDict d => match d !! k with Some x => inr x | None => inl (KeyError k) end
  | _ => inl TypeError
  end.

(** [d.get(k)] on a dict. *)
Definition py_get (d : gmap string PyVal) (k : string) : PyVal :=
  default PNone (d !! k).

(** [int(v)] as far as the handler needs it. *)
Definition py_int (v : PyVal) : Exn + Z :=
  match v with
  | PInt z => inr z
  | PBool b => inr (if b then 1 else 0)
  | _ => inl TypeError
  end.

(** ** Data of the two modules *)

(** [APIClientResult]: what one request gives back.  A request failed
    exactly when [error_message] is truthy. *)
Record APIClientResult (T : Type) : Type := mkResult {
  status_code : Z;
  response_text : T;
  error_message : string;
}.
Arguments mkResult {T} _ _ _.
Arguments status_code {T} _.
Arguments response_text {T} _.
Arguments error_message {T} _.

Record ProjectData : Type := mkProjectData {
  project_id : Z;
  suite_mode : Z;
  pd_error_message : string;
}.

(** Entries of the remote listings, with the keys the handler reads:
    id, name and suite_mode of a project; id and name of a suite.  Sections
    and cases are read with [.get] on the id key, which gives [None] for an
    entry without it, so their listings are lists of optional ids. *)
Record Project : Type := mkProject {
  p_id : Z;
  p_name : string;
  p_suite_mode : Z;
}.

Record Suite : Type := mkSuite {
  s_id : Z;
  s_name : string;
}.

(** The parsed input held by the data provider ([suites_input]). *)
Record TestRailCase : Type := mkCase {
  case_id : option Z;
}.

Record TestRailSection : Type := mkSection {
  section_id : option Z;
  testcases : list TestRailCase;
}.

Record TestRailSuite : Type := mkTestRailSuite {
  suite_id : option Z;
  name : string;
  testsections : list TestRailSection;
}.

(** Request paths, kept structured: the path get_suites/{project_id} is
    [get_suites project_id], and so on. *)
Inductive Endpoint : Type :=
| get_projects
| get_suites (project : Z)
| get_sections (project : Z) (suite : option Z)
| get_cases (project : Z) (suite : option Z)
| add_suite (project : Z)
| add_section (project : Z)
| add_case (section : PyVal)
| add_run_ep (project : Z)
| add_results_for_cases (run : PyVal)
| close_run_ep (run : PyVal).

(** User-facing text.  The templates live in [trcli.constants]; a message
    built with [str.format] is kept as template and keyword arguments. *)
Inductive Message : Type :=
| Text (s : string)
| Format (template : string) (args : list (string * PyVal)).

Inductive UpdateKind : Type := suite_data | section_data | case_data.

Inductive FutureState : Type := PENDING | RUNNING | CANCELLED | FINISHED.

#[global] Instance FutureState_eq_dec : EqDecision FutureState.
Proof. solve_decision. Defined.

(** What the run does to the outside, in the order it happens. *)
Inductive Event : Type :=
| EvGet (e : Endpoint)
| EvPost (e : Endpoint) (body : gmap string PyVal)
| EvLog (m : Message)
| EvPrompt (m : Message)
| EvUpdateData (k : UpdateKind) (resources : list (gmap string PyVal))
| EvProgress (n : nat)
| EvProgressDone
| EvCancel (unit : nat).

(** A unit of a batch: the call handed to [executor.submit], the state of
    its future, and the response its call produced once it has started. *)
Record Future : Type := mkFuture {
  fut_path : Endpoint;
  fut_body : gmap string PyVal;
  fut_state : FutureState;
  fut_result : option (APIClientResult PyVal);
}.

(** What the thread pool and the terminal do while the main thread drains
    [as_completed]: a worker picks unit [i] up, the call of unit [i]
    returns, or the user interrupts. *)
Inductive PoolEvent : Type :=
| Start (i : nat)
| Finish (i : nat)
| Sigint.

Record Environment : Type := mkEnvironment {
  project : string;
  title : string;
  run_id : option Z;
  batch_size : Z;
}.

(** ** Collaborators *)

(** [trcli.constants], which the two modules import. *)
Record Constants : Type := mkConstants {
  FAULT_MAPPING : string → string;
  PROMPT_MESSAGES : string → string;
  multiple_project_same_name : Z;
  not_existing_project : Z;
  other_error : Z;
  single_suite : Z;
  single_suite_baselines : Z;
  multiple_suites : Z;
  MAX_WORKERS_ADD_RESULTS : nat;
  MAX_WORKERS_ADD_CASE : nat;
}.

(** [APIClient], the prompter and [ApiDataProvider].  Each answer may depend
    on everything the run has done so far. *)
Record Runtime : Type := mkRuntime {
  send_get_projects : list Event → APIClientResult (list Project);
  send_get_suites : list Event → Z → APIClientResult (list Suite);
  send_get_sections : list Event → Z → option Z → APIClientResult (list (option Z));
  send_get_cases : list Event → Z → option Z → APIClientResult (list (option Z));
  send_post : list Event → Endpoint → gmap string PyVal → APIClientResult PyVal;
  get_prompt_response_for_auto_creation : list Event → Message → bool;
  add_suites_data : TestRailSuite → list (gmap string PyVal);
  add_sections_data : TestRailSuite → list (gmap string PyVal);
  add_cases_data : TestRailSuite → list (gmap string PyVal);
  add_results_for_cases_data : TestRailSuite → Z → list (gmap string PyVal);
  add_run_data : TestRailSuite → string → gmap string PyVal;
  update_data : UpdateKind → list (gmap string PyVal) → TestRailSuite → TestRailSuite;
}.

(** ** The state of a run and its monad *)

Record World : Type := mkWorld {
  w_trace : list Event;
  w_provider : TestRailSuite;
  w_futures : list Future;
}.

Inductive Outcome (A : Type) : Type :=
| Ret (a : A)
| Raise (e : Exn).
Arguments Ret {A} _.
Arguments Raise {A} _.

Definition M (A : Type) : Type := World → Outcome A * World.

#[global] Instance M_ret : MRet M := λ A a w, (Ret a, w).
#[global] Instance M_bind : MBind M := λ A B f m w,
  match m w with
  | (Ret a, w') => f a w'
  | (Raise e, w') => (Raise e, w')
  end.

Definition raise {A : Type} (e : Exn) : M A := λ w, (Raise e, w).

Definition lift {A : Type} (x : Exn + A) : M A :=
  match x with inl e => raise e | inr a => mret a end.

Definition emit (e : Event) : M unit := λ w,
  (Ret tt, mkWorld (w_trace w ++ [e]) (w_provider w) (w_futures w)).

Definition get_trace : M (list Event) := λ w, (Ret (w_trace w), w).
Definition get_provider : M TestRailSuite := λ w, (Ret (w_provider w), w).
Definition get_futures : M (list Future) := λ w, (Ret (w_futures w), w).

Definition set_provider (p : TestRailSuite) : M unit := λ w,
  (Ret tt, mkWorld (w_trace w) p (w_futures w)).
Definition set_futures (fs : list Future) : M unit := λ w,
  (Ret tt, mkWorld (w_trace w) (w_provider w) fs).

(** [try: body except KeyboardInterrupt: handler]. *)
Definition try_except_KeyboardInterrupt {A : Type} (body handler : M A) : M A := λ w,
  match body w with
  | (Raise KeyboardInterrupt, w') => handler w'
  | r => r
  end.

(** Expressions that may raise: [Exn + A], with [inl] the exception. *)
#[global] Instance Exn_ret : MRet (sum Exn) := λ A a, inr a.
#[global] Instance Exn_bind : MBind (sum Exn) := λ A B f x,
  match x with inl e => inl e | inr a => f a end.

(** [x.get(k)]: a dict answers, with [None] for a missing key. *)
Definition py_dot_get (v : PyVal) (k : string) : Exn + PyVal :=
  match v with
  | PDict d => inr (py_get d k)
  | _ => inl AttributeError
  end.

(** [len(v)]. *)
Definition py_len (v : PyVal) : Exn + nat :=
  match v with
  | PStr s => inr (String.length s)
  | PList l => inr (length l)
  | PDict d => inr (size d)
  | _ => inl TypeError
  end.

(** [bool(t)] for a tuple of two: only the empty tuple is falsy. *)
Definition tuple2_truthy {A B : Type} (t : A * B) : bool := true.

(** [l[0]]. *)
Definition list_first {A : Type} (l : list A) : Exn + A :=
  match l with
  | [] => inl IndexError
  | x :: _ => inr x
  end.

Abbreviation Response := (APIClientResult PyVal).
Abbreviation Dict := (gmap string PyVal).

(** ** [ApiRequestHandler] *)

Section ApiRequestHandler.
Variable K : Constants.
Variable R : Runtime.
Variable environment : Environment.

(** [self.client.send_get(path)]: the request is recorded, the answer is
    the client's for the history up to the request. *)
Definition send_get {T : Type} (path : Endpoint)
    (answer : list Event → APIClientResult T) : M (APIClientResult T) :=
  tr ← get_trace;
  emit (EvGet path);;
  mret (answer tr).

(** [self.client.send_post(path, body)]. *)
Definition client_send_post (path : Endpoint) (body : Dict) : M Response :=
  tr ← get_trace;
  emit (EvPost path body);;
  mret (send_post R tr path body).

(** [self.data_provider.update_data(...) if len(returned_resources) > 0
    else ...]. *)
Definition update_data_if_any (k : UpdateKind) (returned_resources : list Dict) : M unit :=
  if decide (0 < length returned_resources)%nat then
    emit (EvUpdateData k returned_resources);;
    provider ← get_provider;
    set_provider (update_data R k returned_resources provider)
  else mret tt.

Definition get_project_id (project_name : string) : M ProjectData :=
  response ← send_get get_projects (send_get_projects R);
  if negb (str_truthy (error_message response)) then
    let available_projects :=
      filter (λ project, p_name project = project_name) (response_text response) in
    if decide (length available_projects = 1%nat) then
      first ← lift (list_first available_projects);
      mret (mkProjectData (p_id first) (p_suite_mode first) (error_message response))
    else if decide (1 < length available_projects)%nat then
      mret (mkProjectData (multiple_project_same_name K) (-1)
              (FAULT_MAPPING K "more_than_one_project"))
    else
      mret (mkProjectData (not_existing_project K) (-1)
              (project_name ++ " " ++ FAULT_MAPPING K "project_doesnt_exists"))
  else
    mret (mkProjectData (other_error K) (-1) (error_message response)).

Definition check_suite_id (project_id : Z) : M (option bool * string) :=
  provider ← get_provider;
  let suite_id := suite_id provider in
  response ← send_get (get_suites project_id) (λ tr, send_get_suites R tr project_id);
  if negb (str_truthy (error_message response)) then
    let available_suites := map s_id (response_text response) in
    mret (if decide (suite_id ∈ map Some available_suites)
          then (Some true, "") else (Some false, ""))
  else
    mret (None, error_message response).

Definition get_suite_ids (project_id : Z) : M (list Z * string) :=
  response ← send_get (get_suites project_id) (λ tr, send_get_suites R tr project_id);
  let '(available_suites, returned_resources, error_message) :=
    if negb (str_truthy (error_message response)) then
      (map s_id (response_text response),
       map (λ suite, ({[ "suite_id" := PInt (s_id suite);
                         "name" := PStr (s_name suite) ]} : Dict))
           (response_text response),
       "")
    else ([], [], error_message response) in
  update_data_if_any suite_data returned_resources;;
  mret (available_suites, error_message).

(** The loop shared by [add_suites] and [add_sections]:
    [for body in bodies: response = send_post(path, body)], appending the
    response or recording the error and leaving the loop. *)
Fixpoint post_bodies (path : Endpoint) (bodies : list Dict) (responses : list Response)
    : M (list Response * string) :=
  match bodies with
  | [] => mret (responses, "")
  | body :: bodies' =>
      response ← client_send_post path body;
      if negb (str_truthy (error_message response)) then
        post_bodies path bodies' (responses ++ [response])
      else
        mret (responses, error_message response)
  end.

Definition suite_resource (response : Response) : Exn + Dict :=
  id ← py_getitem (response_text response) "id";
  name ← py_getitem (response_text response) "name";
  mret ({[ "suite_id" := id; "name" := name ]} : Dict).

Definition add_suites (project_id : Z) : M (list Dict * string) :=
  provider ← get_provider;
  let add_suite_data := add_suites_data R provider in
  '(responses, error_message) ← post_bodies (add_suite project_id) add_suite_data [];
  returned_resources ← lift (mapM suite_resource responses);
  update_data_if_any suite_data returned_resources;;
  mret (returned_resources, error_message).

Definition check_missing_section_ids (project_id : Z) : M (list (option Z) * string) :=
  provider ← get_provider;
  let suite_id := suite_id provider in
  let sections := map section_id (testsections provider) in
  response ← send_get (get_sections project_id suite_id)
               (λ tr, send_get_sections R tr project_id suite_id);
  if negb (str_truthy (error_message response)) then
    mret (elements ((list_to_set sections : gset (option Z))
                      ∖ list_to_set (response_text response)),
          error_message response)
  else
    mret ([], error_message response).

Definition section_resource (response : Response) : Exn + Dict :=
  id ← py_getitem (response_text response) "id";
  suite ← py_getitem (response_text response) "suite_id";
  name ← py_getitem (response_text response) "name";
  mret ({[ "section_id" := id; "suite_id" := suite; "name" := name ]} : Dict).

Definition add_sections (project_id : Z) : M (list Dict * string) :=
  provider ← get_provider;
  let add_sections_data := add_sections_data R provider in
  '(responses, error_message) ← post_bodies (add_section project_id) add_sections_data [];
  returned_resources ← lift (mapM section_resource responses);
  update_data_if_any section_data returned_resources;;
  mret (returned_resources, error_message).

Definition check_missing_test_cases_ids (project_id : Z) : M (list (option Z) * string) :=
  provider ← get_provider;
  let suite_id := suite_id provider in
  let test_cases :=
    flat_map (λ sections, map case_id (testcases sections)) (testsections provider) in
  response ← send_get (get_cases project_id suite_id)
               (λ tr, send_get_cases R tr project_id suite_id);
  if negb (str_truthy (error_message response)) then
    mret (elements ((list_to_set test_cases : gset (option Z))
                      ∖ list_to_set (response_text response)),
          error_message response)
  else
    mret ([], error_message response).

(** *** The thread pool *)

(** [executor.submit(self.client.send_post, path, body)]: a new future,
    not yet picked up by a worker. *)
Definition submit (path : Endpoint) (body : Dict) : M unit :=
  futures ← get_futures;
  set_futures (futures ++ [mkFuture path body PENDING None]).

Definition running (futures : list Future) : nat :=
  length (filter (λ future, fut_state future = RUNNING) futures).

(** A worker picks unit [i] up, if it is still waiting and a worker is
    free: the call is made, and its response is held until it returns. *)
Definition pool_start (max_workers : nat) (i : nat) : M unit :=
  futures ← get_futures;
  match futures !! i with
  | Some future =>
      if decide (fut_state future = PENDING ∧ (running futures < max_workers)%nat) then
        response ← client_send_post (fut_path future) (fut_body future);
        futures ← get_futures;
        set_futures (<[i := mkFuture (fut_path future) (fut_body future) RUNNING (Some response)]>
                       futures)
      else mret tt
  | None => mret tt
  end.

(** The call of unit [i] returns: its future is done, and [as_completed]
    has it to hand out. *)
Definition pool_finish (i : nat) : M (option Future) :=
  futures ← get_futures;
  match futures !! i with
  | Some future =>
      if decide (fut_state future = RUNNING) then
        let done := mkFuture (fut_path future) (fut_body future) FINISHED (fut_result future) in
        set_futures (<[i := done]> futures);;
        mret (Some done)
      else mret None
  | None => mret None
  end.

(** [future.cancel()]: only a future no worker has picked up is cancelled;
    a running or finished one stays as it is. *)
Definition cancel (future : Future) : Future :=
  match fut_state future with
  | PENDING => mkFuture (fut_path future) (fut_body future) CANCELLED (fut_result future)
  | _ => future
  end.

Definition cancelled (future : Future) : bool :=
  bool_decide (fut_state future = CANCELLED).

(** What the pool does when nobody schedules it any further: calls in
    flight return, then the waiting units run one after the other. *)
Definition drain_rest (n : nat) : list PoolEvent :=
  map Finish (seq 0 n) ++ flat_map (λ i, [Start i; Finish i]) (seq 0 n).

Fixpoint run_pool (max_workers : nat) (events : list PoolEvent) : M unit :=
  match events with
  | [] => mret tt
  | Start i :: events' => pool_start max_workers i;; run_pool max_workers events'
  | Finish i :: events' => pool_finish i;; run_pool max_workers events'
  | Sigint :: events' => run_pool max_workers events'
  end.

(** [with ThreadPoolExecutor(max_workers=n) as executor: body].  Leaving the
    block, normally or by an exception, waits for every future that was not
    cancelled. *)
Definition with_executor {A : Type} (max_workers : nat) (body : M A) : M A := λ w,
  if decide (max_workers = 0%nat) then (Raise ValueError, w)
  else
    let '(r, w1) := (set_futures [];; body) w in
    let '(_, w2) := run_pool max_workers (drain_rest (length (w_futures w1))) w1 in
    (r, w2).

Definition _ApiRequestHandler__cancel_running_futures (action_string : string) : M unit :=
  emit (EvLog (Format "\nAborting: {action_string}. Trying to cancel scheduled tasks."
                 [("action_string", PStr action_string)]));;
  futures ← get_futures;
  set_futures (map cancel futures).

(** [progress_bar.update(len(arguments["results"]))] for a chunk of
    results, [progress_bar.update(1)] otherwise. *)
Definition progress_weight (action_string : string) (arguments : Dict) : Exn + nat :=
  if decide (action_string = "add_results") then
    results ← py_getitem (PDict arguments) "results";
    py_len results
  else mret 1%nat.

(** How one round of [for future in as_completed(futures)] leaves the
    loop: still running, or left by [break]. *)
Inductive LoopState : Type :=
| Continue (responses : list Response)
| Break (responses : list Response) (error_message : string).

(** One thing the pool does while the main thread is in the loop.  A call
    that returns is handed to the loop body at once; an interrupt raises in
    the main thread. *)
Definition loop_body (max_workers : nat) (action_string : string)
    (event : PoolEvent) (responses : list Response) : M LoopState :=
  match event with
  | Start i =>
      pool_start max_workers i;;
      mret (Continue responses)
  | Sigint => raise KeyboardInterrupt
  | Finish i =>
      done ← pool_finish i;
      match done with
      | None => mret (Continue responses)
      | Some future =>
          let arguments := fut_body future in
          response ← lift (from_option inr (inl ValueError) (fut_result future));
          if negb (str_truthy (error_message response)) then
            n ← lift (progress_weight action_string arguments);
            emit (EvProgress n);;
            mret (Continue (responses ++ [response]))
          else
            emit (EvLog (Format
                    "\nError during {action_string}. Trying to cancel scheduled tasks."
                    [("action_string", PStr action_string)]));;
            _ApiRequestHandler__cancel_running_futures action_string;;
            mret (Break responses (error_message response))
      end
  end.

Fixpoint as_completed_loop (max_workers : nat) (action_string : string)
    (schedule : list PoolEvent) (responses : list Response) : M LoopState :=
  match schedule with
  | [] => mret (Continue responses)
  | event :: schedule' =>
      state ← loop_body max_workers action_string event responses;
      match state with
      | Continue responses' =>
          as_completed_loop max_workers action_string schedule' responses'
      | Break _ _ => mret state
      end
  end.

(** [schedule] is what the pool does as long as it is told; after it the
    pool runs what is left on its own, so the loop sees every future.  The
    [else] of the loop runs when [as_completed] is exhausted. *)
Definition handle_futures (max_workers : nat) (action_string : string)
    (schedule : list PoolEvent) : M (list Response * string) :=
  futures ← get_futures;
  try_except_KeyboardInterrupt
    (state ← as_completed_loop max_workers action_string
               (schedule ++ drain_rest (length futures)) [];
     match state with
     | Continue responses =>
         emit EvProgressDone;;
         mret (responses, "")
     | Break responses error_message => mret (responses, error_message)
     end)
    (_ApiRequestHandler__cancel_running_futures action_string;;
     raise KeyboardInterrupt).

(** Called once the pool is shut down, so every future is finished or
    cancelled; [as_completed] hands them out in an order of its own, taken
    here to be the order of submission. *)
Definition retrieve_results_after_cancelling (futures : list Future) : list Response :=
  flat_map (λ future,
    if negb (cancelled future) then from_option (λ r, [r]) [] (fut_result future) else [])
    futures.

(** [executor.submit(send_post, f"add_case/{body.pop('section_id')}", body)]. *)
Definition submit_case (body : Dict) : M unit :=
  match body !! "section_id" with
  | Some section => submit (add_case section) (delete "section_id" body)
  | None => raise (KeyError "section_id")
  end.

Definition case_resource (response : Response) : Exn + Dict :=
  id ← py_getitem (response_text response) "id";
  section ← py_getitem (response_text response) "section_id";
  title ← py_getitem (response_text response) "title";
  mret ({[ "case_id" := id; "section_id" := section; "title" := title ]} : Dict).

Definition add_cases (schedule : list PoolEvent) : M (list Dict * string) :=
  provider ← get_provider;
  let add_case_data := add_cases_data R provider in
  '(responses, error_message) ←
    with_executor (MAX_WORKERS_ADD_CASE K)
      (mapM submit_case add_case_data;;
       handle_futures (MAX_WORKERS_ADD_CASE K) "add_case" schedule);
  responses ←
    (if str_truthy error_message then
       futures ← get_futures;
       mret (retrieve_results_after_cancelling futures)
     else mret responses);
  returned_resources ← lift (mapM case_resource responses);
  update_data_if_any case_data returned_resources;;
  mret (returned_resources, error_message).

Definition add_run (project_id : Z) (run_name : string) : M (PyVal * string) :=
  provider ← get_provider;
  let add_run_data := add_run_data R provider run_name in
  response ← client_send_post (add_run_ep project_id) add_run_data;
  id ← lift (py_dot_get (response_text response) "id");
  mret (id, error_message response).

Definition add_results (run_id : PyVal) (schedule : list PoolEvent) : M (list PyVal * string) :=
  provider ← get_provider;
  let add_results_data_chunks :=
    add_results_for_cases_data R provider (batch_size environment) in
  results_amount ←
    lift (mapM (λ results, r ← py_getitem (PDict results) "results"; py_len r)
            add_results_data_chunks);
  '(responses, error_message) ←
    with_executor (MAX_WORKERS_ADD_RESULTS K)
      (mapM (submit (add_results_for_cases run_id)) add_results_data_chunks;;
       handle_futures (MAX_WORKERS_ADD_RESULTS K) "add_results" schedule);
  responses ←
    (if str_truthy error_message then
       futures ← get_futures;
       mret (retrieve_results_after_cancelling futures)
     else mret responses);
  mret (map response_text responses, error_message).

Definition close_run (run_id : PyVal) : M (PyVal * string) :=
  let body : Dict := {[ "run_id" := run_id ]} in
  response ← client_send_post (close_run_ep run_id) body;
  mret (response_text response, error_message response).

End ApiRequestHandler.

(** ** [ResultsUploader] *)

Section ResultsUploader.
Variable K : Constants.
Variable R : Runtime.
Variable environment : Environment.

Definition log (m : Message) : M unit := emit (EvLog m).

(** [self.environment.get_prompt_response_for_auto_creation(message)]. *)
Definition prompt (m : Message) : M bool :=
  tr ← get_trace;
  emit (EvPrompt m);;
  mret (get_prompt_response_for_auto_creation R tr m).

(** [exit(code)]. *)
Definition exit {A : Type} (code : Z) : M A := raise (SystemExit code).

Definition optint_val (o : option Z) : PyVal := from_option PInt PNone o.

(** A bound method of the handler passed as [add_function]: [add_suites] and
    [add_sections] take [project_id], [add_cases] takes nothing. *)
Definition with_project_id {A : Type} (f : Z → M A) (arg : option Z) : M A :=
  match arg with Some project_id => f project_id | None => raise TypeError end.

Definition without_arguments {A : Type} (f : M A) (arg : option Z) : M A :=
  match arg with Some _ => raise TypeError | None => f end.

Definition _ResultsUploader__prompt_user_and_add_items
    (prompt_message adding_message fault_message : Message)
    (add_function : option Z → M (list Dict * string))
    (project_id : option Z) : M (list Dict * Z) :=
  agreed ← prompt prompt_message;
  if (agreed : bool) then
    log adding_message;;
    '(added_items, error_message) ←
      (if optint_truthy project_id then add_function project_id else add_function None);
    if str_truthy error_message then
      log (Text error_message);;
      mret (added_items, -1)
    else
      mret (added_items, 1)
  else
    log fault_message;;
    mret ([], -1).

Definition _ResultsUploader__check_suite_id (suite_id : option Z) (project_id : Z)
    : M (PyVal * Z) :=
  checked ← check_suite_id R project_id;
  if tuple2_truthy checked then
    mret (optint_val suite_id, 1)
  else
    log (Format (FAULT_MAPPING K "missing_suite") [("suite_id", optint_val suite_id)]);;
    mret (optint_val suite_id, -1).

Definition _ResultsUploader__get_suite_id (project_id suite_mode : Z) : M (PyVal * Z) :=
  provider ← get_provider;
  if negb (optint_truthy (suite_id provider)) then
    if decide (suite_mode = multiple_suites K) then
      let prompt_message :=
        Format (PROMPT_MESSAGES K "create_new_suite")
          [("suite_name", PStr (name provider));
           ("project_name", PStr (project environment))] in
      let adding_message :=
        Format "Adding missing suites to project {self.environment.project}."
          [("self.environment.project", PStr (project environment))] in
      let fault_message :=
        Format (FAULT_MAPPING K "no_user_agreement") [("type", PStr "suite")] in
      '(added_suites, result_code) ←
        _ResultsUploader__prompt_user_and_add_items
          prompt_message adding_message fault_message
          (with_project_id (add_suites R)) (Some project_id);
      if list_truthy added_suites then
        first ← lift (list_first added_suites);
        suite_id ← lift (py_getitem (PDict first) "suite_id");
        mret (suite_id, result_code)
      else
        mret (PInt (-1), result_code)
    else if decide (suite_mode = single_suite_baselines K) then
      '(suite_ids, error_message) ← get_suite_ids R project_id;
      if str_truthy error_message then
        log (Text error_message);;
        mret (PInt (-1), -1)
      else if decide (1 < length suite_ids)%nat then
        log (Format (FAULT_MAPPING K "not_unique_suite_id_single_suite_baselines")
               [("project_name", PStr (project environment))]);;
        mret (PInt (-1), -1)
      else
        suite_id ← lift (list_first suite_ids);
        mret (PInt suite_id, 1)
    else if decide (suite_mode = single_suite K) then
      '(suite_ids, error_message) ← get_suite_ids R project_id;
      if str_truthy error_message then
        log (Text error_message);;
        mret (PInt (-1), -1)
      else
        suite_id ← lift (list_first suite_ids);
        mret (PInt suite_id, 1)
    else
      log (Format (FAULT_MAPPING K "unknown_suite_mode") [("suite_mode", PInt suite_mode)]);;
      mret (PInt (-1), -1)
  else
    _ResultsUploader__check_suite_id (suite_id provider) project_id.

Definition _ResultsUploader__add_missing_sections (project_id : Z) : M (list Dict * Z) :=
  '(missing_sections, error_message) ← check_missing_section_ids R project_id;
  if list_truthy missing_sections then
    let prompt_message :=
      Format (PROMPT_MESSAGES K "create_missing_sections")
        [("project_name", PStr (project environment))] in
    let adding_message := Text "Adding missing sections to the suite." in
    let fault_message :=
      Format (FAULT_MAPPING K "no_user_agreement") [("type", PStr "sections")] in
    _ResultsUploader__prompt_user_and_add_items
      prompt_message adding_message fault_message
      (with_project_id (add_sections R)) (Some project_id)
  else if str_truthy error_message then
    log (Format (FAULT_MAPPING K "error_checking_missing_item")
           [("missing_item", PStr "missing sections");
            ("error_message", PStr error_message)]);;
    mret ([], -1)
  else
    mret ([], 1).

Definition _ResultsUploader__add_missing_test_cases (project_id : Z)
    (schedule : list PoolEvent) : M (list Dict * Z) :=
  '(missing_test_cases, error_message) ← check_missing_test_cases_ids R project_id;
  if list_truthy missing_test_cases then
    let prompt_message :=
      Format (PROMPT_MESSAGES K "create_missing_test_cases")
        [("project_name", PStr (project environment))] in
    let adding_message := Text "Adding missing test cases to the suite." in
    let fault_message :=
      Format (FAULT_MAPPING K "no_user_agreement") [("type", PStr "test cases")] in
    _ResultsUploader__prompt_user_and_add_items
      prompt_message adding_message fault_message
      (without_arguments (add_cases K R schedule)) None
  else if str_truthy error_message then
    log (Format (FAULT_MAPPING K "error_checking_missing_item")
           [("missing_item", PStr "missing test cases");
            ("error_message", PStr error_message)]);;
    mret ([], -1)
  else
    mret ([], 1).

(** [upload_results], given what the pool does during the two batches. *)
Definition upload_results (schedule_cases schedule_results : list PoolEvent) : M unit :=
  project_data ← get_project_id K R (project environment);
  if decide (project_id project_data = not_existing_project K) then
    log (Text (pd_error_message project_data));;
    exit 1
  else if decide (project_id project_data = other_error K) then
    log (Format (FAULT_MAPPING K "error_checking_project")
           [("error_message", PStr (pd_error_message project_data))]);;
    exit 1
  else
    '(suite_id, result_code) ←
      _ResultsUploader__get_suite_id (project_id project_data) (suite_mode project_data);
    (if decide (result_code = -1) then exit 1 else mret tt);;
    '(added_sections, result_code) ←
      _ResultsUploader__add_missing_sections (project_id project_data);
    (if decide (result_code = -1) then exit 1 else mret tt);;
    '(added_test_cases, result_code) ←
      _ResultsUploader__add_missing_test_cases (project_id project_data) schedule_cases;
    (if decide (result_code = -1) then exit 1 else mret tt);;
    run_id ←
      (if negb (optint_truthy (run_id environment)) then
         log (Text "Creating test run. ");;
         '(added_run, error_message) ←
           add_run R (project_id project_data) (title environment);
         (if str_truthy error_message then log (Text error_message);; exit 1 else mret tt);;
         log (Text "Done.");;
         mret added_run
       else mret (optint_val (run_id environment)));
    '(added_results, error_message) ← add_results K R environment run_id schedule_results;
    (if str_truthy error_message then log (Text error_message);; exit 1 else mret tt);;
    log (Text "Closing test run. ");;
    '(response, error_message) ← close_run R run_id;
    (if str_truthy error_message then log (Text error_message);; exit 1 else mret tt);;
    log (Text "Done.");;
    log (Text "Executed in: {stop - start}");;
    log (Text "Adding test cases in: {stop_adding_test_cases - start_adding_test_cases}");;
    log (Text "Adding results in: {stop_adding_results - start_adding_results}").

End ResultsUploader.

(** ** Reading a run *)

(** The world after some more events. *)
Definition after (w : World) (events : list Event) : World :=
  mkWorld (w_trace w ++ events) (w_provider w) (w_futures w).

Definition is_post (e : Event) : bool :=
  match e with EvPost _ _ => true | _ => false end.

Definition is_prompt (e : Event) : bool :=
  match e with EvPrompt _ => true | _ => false end.

Definition is_update (e : Event) : bool :=
  match e with EvUpdateData _ _ => true | _ => false end.

(** What the client answers to [bodies] posted to [path] one after the
    other, the first of them after the history [tr]. *)
Fixpoint answers (R : Runtime) (path : Endpoint) (tr : list Event) (bodies : list Dict)
    : list Response :=
  match bodies with
  | [] => []
  | body :: bodies' =>
      send_post R tr path body :: answers R path (tr ++ [EvPost path body]) bodies'
  end.

(** The world once [resources] are merged into the data provider; nothing
    is merged when there are none. *)
Definition merged (R : Runtime) (k : UpdateKind) (resources : list Dict) (w : World) : World :=
  match resources with
  | [] => w
  | _ :: _ =>
      mkWorld (w_trace w ++ [EvUpdateData k resources])
        (update_data R k resources (w_provider w)) (w_futures w)
  end.

(** The id a create call answered with, if its body is a dict holding one. *)
Definition returned_id (response : Response) : option PyVal :=
  match response_text response with
  | PDict d => d !! "id"
  | _ => None
  end.

(** The future [executor.submit] makes for a case body, which must hold
    the id of its section, and for a chunk of results. *)
Definition case_future (body : Dict) : option Future :=
  section ← body !! "section_id";
  Some (mkFuture (add_case section) (delete "section_id" body) PENDING None).

Definition results_future (run_id : PyVal) (body : Dict) : Future :=
  mkFuture (add_results_for_cases run_id) body PENDING None.

(** [w'] differs from [w] by nothing the data provider sees: its input is
    the same and no [update_data] call was added. *)
Definition quiet (w w' : World) : Prop :=
  w_provider w' = w_provider w
  ∧ filter is_update (w_trace w') = filter is_update (w_trace w).

Definition quiet_op {A : Type} (m : M A) : Prop :=
  ∀ w : World, quiet w (snd (m w)).

(** Running [m] asks the user the questions [asked], one after the other,
    and no other. *)
Definition asks {A : Type} (asked : list Event) (m : M A) : Prop :=
  ∀ w : World,
    filter is_prompt (w_trace (snd (m w))) = filter is_prompt (w_trace w) ++ asked.


(** The resource [get_suite_ids] makes of a listed suite. *)
Definition listed_suite (suite : Suite) : Dict :=
  {[ "suite_id" := PInt (s_id suite); "name" := PStr (s_name suite) ]}.

(** *** A batch seen from outside *)

(** The call behind a future. *)
Definition unit_of (future : Future) : Endpoint * Dict :=
  (fut_path future, fut_body future).

(** The calls a stretch of the trace holds, and the steps by which it
    advanced the progress bar. *)
Definition posts_of (events : list Event) : list (Endpoint * Dict) :=
  flat_map (λ e, match e with EvPost path body => [(path, body)] | _ => [] end) events.

Definition progress_of (events : list Event) : list nat :=
  flat_map (λ e, match e with EvProgress n => [n] | _ => [] end) events.

Definition batch_event (e : Event) : Prop :=
  match e with EvPost _ _ | EvProgress _ => True | _ => False end.

(** What a future accounts for: its call once a worker picked it up, its
    response and its share of the progress bar once the loop has seen it. *)
Definition started (future : Future) : list (Endpoint * Dict) :=
  if decide (fut_state future = PENDING) then [] else [unit_of future].

Definition finished_result (future : Future) : list Response :=
  if decide (fut_state future = FINISHED) then option_list (fut_result future) else [].

Definition advanced (action_string : string) (future : Future) : list nat :=
  if decide (fut_state future = FINISHED) then
    match progress_weight action_string (fut_body future) with
    | inr n => [n]
    | inl _ => []
    end
  else [].

(** A future that is no longer waiting holds the client's answer to its
    call, for the history at the moment of the call. *)
Definition answered (R : Runtime) (tr : list Event) (future : Future) : Prop :=
  match fut_state future with
  | PENDING => True
  | CANCELLED => False
  | RUNNING | FINISHED =>
      ∃ pre rest,
        tr = pre ++ EvPost (fut_path future) (fut_body future) :: rest
        ∧ fut_result future = Some (send_post R pre (fut_path future) (fut_body future))
  end.

(** The states of the futures after one thing the pool does. *)
Definition running_states (states : list FutureState) : nat :=
  length (filter (λ state, state = RUNNING) states).

Definition pool_step (max_workers : nat) (states : list FutureState) (event : PoolEvent)
    : list FutureState :=
  match event with
  | Start i =>
      match states !! i with
      | Some PENDING =>
          if decide (running_states states < max_workers)%nat
          then <[i := RUNNING]> states else states
      | _ => states
      end
  | Finish i =>
      match states !! i with
      | Some RUNNING => <[i := FINISHED]> states
      | _ => states
      end
  | Sigint => states
  end.

(** What holds of a batch as long as no call has failed: [events] is what
    the batch has added to the trace [before], [futures] is the pool and
    [responses] what the loop has gathered.  The futures are those of
    [units]; each one a worker picked up holds the answer to its call; the
    loop has gathered the responses of the finished ones; the trace holds one
    call for each future picked up and one step of the progress bar for each
    finished one, and nothing else. *)
Definition batch_invariant (R : Runtime) (action_string : string) (before : list Event)
    (units : list (Endpoint * Dict)) (events : list Event) (futures : list Future)
    (responses : list Response) : Prop :=
  unit_of <$> futures = units
  ∧ Forall (answered R (before ++ events)) futures
  ∧ responses ≡ₚ flat_map finished_result futures
  ∧ Forall batch_event events
  ∧ posts_of events ≡ₚ flat_map started futures
  ∧ progress_of events ≡ₚ flat_map (advanced action_string) futures.

(** The two lines [handle_futures] logs when a call has failed: its own,
    and that of [__cancel_running_futures]. *)
Definition failure_lines (action_string : string) : list Event :=
  [EvLog (Format "\nError during {action_string}. Trying to cancel scheduled tasks."
            [("action_string", PStr action_string)]);
   EvLog (Format "\nAborting: {action_string}. Trying to cancel scheduled tasks."
            [("action_string", PStr action_string)])].

(** An upload that finds nothing to create: the project list holds the
    configured name once, as [found], whose id is none of the error codes; the
    suite [suite] is pinned; and the remote, whenever it is asked, lists
    every section and every case of the parsed input. *)
Definition nothing_to_create (K : Constants) (R : Runtime) (environment : Environment)
    (w : World) (found : Project) (suite : Z) : Prop :=
  let listed := send_get_projects R (w_trace w) in
  error_message listed = ""
  ∧ filter (λ candidate, p_name candidate = project environment) (response_text listed)
    = [found]
  ∧ p_id found ≠ not_existing_project K
  ∧ p_id found ≠ other_error K
  ∧ suite_id (w_provider w) = Some suite
  ∧ suite ≠ 0
  ∧ (∀ tr, let remote := send_get_sections R tr (p_id found) (Some suite) in
           error_message remote = ""
           ∧ ∀ id, id ∈ map section_id (testsections (w_provider w)) →
                   id ∈ response_text remote)
  ∧ (∀ tr, let remote := send_get_cases R tr (p_id found) (Some suite) in
           error_message remote = ""
           ∧ ∀ id, id ∈ flat_map (λ sections, map case_id (testcases sections))
                          (testsections (w_provider w)) →
                   id ∈ response_text remote).

(** What such an upload has done when it reaches the run: the four
    listing requests. *)
Definition reconciled (w : World) (found : Project) (suite : Z) : World :=
  after w [EvGet get_projects; EvGet (get_suites (p_id found));
           EvGet (get_sections (p_id found) (Some suite));
           EvGet (get_cases (p_id found) (Some suite))].

(** The last lines of [upload_results]. *)
Definition closing_lines (run : PyVal) : list Event :=
  [EvLog (Text "Closing test run. ");
   EvPost (close_run_ep run) {[ "run_id" := run ]};
   EvLog (Text "Done.");
   EvLog (Text "Executed in: {stop - start}");
   EvLog (Text "Adding test cases in: {stop_adding_test_cases - start_adding_test_cases}");
   EvLog (Text "Adding results in: {stop_adding_results - start_adding_results}")].

Definition finish_running (state : FutureState) : FutureState :=
  match state with RUNNING => FINISHED | _ => state end.

Definition run_waiting (state : FutureState) : FutureState :=
  match state with PENDING => FINISHED | _ => state end.

(** ** A sample installation

    Concrete collaborators to run the model on: the constants with the
    values TestRail uses, a server that creates what it is asked to unless
    the body is titled broken, and a data provider with fixed bodies. *)

Module Sample.

Definition constants : Constants :=
  mkConstants (λ key, key) (λ key, key) (-1) (-2) (-3) 1 2 3 10%nat 5%nat.

Definition ok {T : Type} (text : T) : APIClientResult T := mkResult 200 text "".

Definition failed {T : Type} (text : T) (message : string) : APIClientResult T :=
  mkResult 400 text message.

(** The server's answer to a create call: an error for a body titled
    broken, otherwise the body with a fresh id. *)
Definition post (tr : list Event) (path : Endpoint) (body : Dict) : Response :=
  match body !! "title" with
  | Some (PStr "broken") =>
      failed (PDict {[ "error" := PStr "Field :title is a required field." ]})
        "Field :title is a required field."
  | _ =>
      ok (PDict (<["id" := PInt (100 + Z.of_nat (length tr))]>
                 (<["suite_id" := PInt 4]>
                  (<["section_id" := PInt 7]> body))))
  end.

Definition item (title : string) : Dict :=
  {[ "name" := PStr title; "title" := PStr title; "section_id" := PInt 7 ]}.

Definition chunk (title : string) : Dict :=
  {[ "title" := PStr title; "results" := PList [PInt 1; PInt 2] ]}.

Definition runtime (projects : APIClientResult (list Project))
    (suites : APIClientResult (list Suite))
    (sections cases : APIClientResult (list (option Z)))
    (consent : bool) (bodies : list Dict) : Runtime :=
  mkRuntime
    (λ _, projects) (λ _ _, suites) (λ _ _ _, sections) (λ _ _ _, cases)
    post
    (λ _ _, consent)
    (λ _, bodies) (λ _, bodies) (λ _, bodies) (λ _ _, bodies)
    (λ _ run_name, {[ "name" := PStr run_name ]})
    (λ kind resources provider,
       mkTestRailSuite (suite_id provider) (name provider)
         (testsections provider ++ [mkSection (Some (Z.of_nat (length resources))) []])).

Definition environment : Environment := mkEnvironment "Demo" "Nightly" None 2.

Definition provider (suite : option Z) : TestRailSuite :=
  mkTestRailSuite suite "Parsed suite"
    [mkSection (Some 7) [mkCase (Some 70); mkCase (Some 71)];
     mkSection (Some 8) []].

Definition world (suite : option Z) : World := mkWorld [] (provider suite) [].

(** A server that lists nothing, with [bodies] to create. *)
Definition serving (bodies : list Dict) : Runtime :=
  runtime (ok []) (ok []) (ok []) (ok []) true bodies.

(** The remote holds sections 7, 8 and 9 and cases 70 and 71, which covers
    the sample provider. *)
Definition synced : Runtime :=
  runtime (ok []) (ok []) (ok [Some 7; Some 8; Some 9]) (ok [Some 70; Some 71]) true [].

Definition listings_time_out : Runtime :=
  runtime (ok []) (ok []) (failed [] "Timed out") (failed [] "Timed out") true [item "a"].

Definition two_suites : Runtime :=
  runtime (ok []) (ok [mkSuite 1 "Master"; mkSuite 2 "Other"]) (ok []) (ok []) true [].

Definition suites_time_out : Runtime :=
  runtime (ok []) (failed [] "Timed out") (ok []) (ok []) true [].

(** Project Demo, in single-suite mode, without a suite. *)
Definition no_suites : Runtime :=
  runtime (ok [mkProject 1 "Demo" 1]) (ok []) (ok []) (ok []) true [].

Definition refused_bodies : list Dict := [item "a"; item "broken"; item "c"].
Definition accepted_bodies : list Dict := [item "a"; item "b"].
Definition three_bodies : list Dict := [item "a"; item "b"; item "c"].
Definition refused_chunks : list Dict := [chunk "a"; chunk "broken"; chunk "c"].
Definition three_chunks : list Dict := [chunk "a"; chunk "b"; chunk "c"].

(** The remote lacks section 8 and case 71; the user agrees or not. *)
Definition behind (consent : bool) : Runtime :=
  runtime (ok []) (ok []) (ok [Some 7]) (ok [Some 70; Some 99]) consent accepted_bodies.

Definition projects_time_out : Runtime :=
  runtime (failed [] "Timed out") (ok []) (ok []) (ok []) true [].

(** Project Demo with suite 4, which holds every section and case of the
    sample provider; [chunks] are the results to upload. *)
Definition ready (chunks : list Dict) : Runtime :=
  runtime (ok [mkProject 1 "Demo" 1]) (ok [mkSuite 4 "Master"])
    (ok [Some 7; Some 8]) (ok [Some 70; Some 71]) true chunks.

(** The same, but the server refuses to create a run and answers [body]. *)
Definition refusing_runs (body : PyVal) : Runtime :=
  let served := ready three_chunks in
  mkRuntime
    (send_get_projects served) (send_get_suites served) (send_get_sections served)
    (send_get_cases served)
    (λ tr path payload,
       match path with
       | add_run_ep _ => failed body "No permission"
       | _ => post tr path payload
       end)
    (get_prompt_response_for_auto_creation served)
    (add_suites_data served) (add_sections_data served) (add_cases_data served)
    (add_results_for_cases_data served) (add_run_data served) (update_data served).

(** The same, but the server refuses to close a run. *)
Definition refusing_to_close : Runtime :=
  let served := ready three_chunks in
  mkRuntime
    (send_get_projects served) (send_get_suites served) (send_get_sections served)
    (send_get_cases served)
    (λ tr path payload,
       match path with
       | close_run_ep _ => failed (PStr "Locked") "The run is locked"
       | _ => post tr path payload
       end)
    (get_prompt_response_for_auto_creation served)
    (add_suites_data served) (add_sections_data served) (add_cases_data served)
    (add_results_for_cases_data served) (add_run_data served) (update_data served).

(** Two projects are called Demo. *)
Definition twins : Runtime :=
  runtime (ok [mkProject 1 "Demo" 1; mkProject 2 "Demo" 3])
    (ok [mkSuite 1 "Master"]) (ok []) (ok []) true [].

End Sample.

(** * Properties *)

Ltac unfold_monad :=
  unfold mbind, M_bind, mret, M_ret, lift, raise, emit, get_trace, get_provider,
    get_futures, set_provider, set_futures in *.

Lemma str_truthy_false (s : string) : str_truthy s = false ↔ s = "".
Proof. unfold str_truthy. case_decide; split; congruence. Qed.

Lemma str_truthy_true (s : string) : str_truthy s = true ↔ s ≠ "".
Proof. unfold str_truthy. case_decide; split; congruence. Qed.

Lemma send_get_run {T : Type} (path : Endpoint) (answer : list Event → APIClientResult T)
    (w : World) :
  send_get path answer w = (Ret (answer (w_trace w)), after w [EvGet path]).
Proof. reflexivity. Qed.

Lemma client_send_post_run (R : Runtime) (path : Endpoint) (body : Dict) (w : World) :
  client_send_post R path body w
  = (Ret (send_post R (w_trace w) path body), after w [EvPost path body]).
Proof. reflexivity. Qed.

(** ** Project resolution *)

(** C6.  [get_project_id] asks for the project list once and keeps the
    projects whose name equals [project_name].  If the request failed, the
    result carries [other_error] and the client's error message; otherwise
    no match gives [not_existing_project], more than one match gives
    [multiple_project_same_name], and exactly one match gives that project's
    id and suite mode with an empty error message.  The four cases exclude
    each other and leave no input out. *)
Theorem get_project_id_four_outcomes (K : Constants) (R : Runtime)
    (project_name : string) (w : World) :
  let response := send_get_projects R (w_trace w) in
  let matching := filter (λ project, p_name project = project_name) (response_text response) in
  ∃ data : ProjectData,
    get_project_id K R project_name w = (Ret data, after w [EvGet get_projects])
    ∧ ((error_message response ≠ ""
        ∧ data = mkProjectData (other_error K) (-1) (error_message response))
       ∨ (error_message response = "" ∧ length matching = 0%nat
          ∧ data = mkProjectData (not_existing_project K) (-1)
                     (project_name ++ " " ++ FAULT_MAPPING K "project_doesnt_exists"))
       ∨ (error_message response = "" ∧ (1 < length matching)%nat
          ∧ data = mkProjectData (multiple_project_same_name K) (-1)
                     (FAULT_MAPPING K "more_than_one_project"))
       ∨ (error_message response = ""
          ∧ ∃ found : Project,
              matching = [found] ∧ found ∈ response_text response
              ∧ p_name found = project_name
              ∧ data = mkProjectData (p_id found) (p_suite_mode found) "")).
Proof.
  intros response matching.
  unfold get_project_id. unfold_monad. rewrite send_get_run.
  fold response. destruct (str_truthy (error_message response)) eqn:Herr; simpl.
  - apply str_truthy_true in Herr. eexists. split; [reflexivity|]. left. done.
  - apply str_truthy_false in Herr. fold matching.
    destruct matching as [|found [|second rest]] eqn:Hm; simpl.
    + eexists. split; [reflexivity|]. right. left. done.
    + eexists. split; [reflexivity|]. right. right. right. split; [done|].
      exists found.
      assert (Hin : found ∈ matching) by (rewrite Hm; apply list_elem_of_here).
      unfold matching in Hin. apply list_elem_of_filter in Hin as [Hname Hin].
      rewrite Herr. done.
    + eexists. split; [reflexivity|]. right. right. left.
      repeat split; [done | lia].
Qed.

(** ** Reconciliation of sections and test cases *)

Lemma difference_empty_of_subset (local remote : list (option Z)) :
  (∀ x, x ∈ local → x ∈ remote) →
  (list_to_set local : gset (option Z)) ∖ list_to_set remote = ∅.
Proof.
  intros Hsub. apply set_eq. intros x.
  rewrite elem_of_difference, !elem_of_list_to_set, elem_of_empty.
  split; [intros [Hl Hr]; apply Hr, Hsub, Hl | intros []].
Qed.

Lemma add_missing_sections_empty_diff (K : Constants) (R : Runtime)
    (environment : Environment) (project_id : Z) (w : World) :
  let suite := suite_id (w_provider w) in
  let remote := send_get_sections R (w_trace w) project_id suite in
  error_message remote = "" →
  (list_to_set (map section_id (testsections (w_provider w))) : gset (option Z))
    ∖ list_to_set (response_text remote) = ∅ →
  _ResultsUploader__add_missing_sections K R environment project_id w
  = (Ret ([], 1), after w [EvGet (get_sections project_id suite)]).
Proof.
  intros suite remote Herr Hdiff.
  unfold _ResultsUploader__add_missing_sections, check_missing_section_ids.
  unfold_monad. rewrite send_get_run. fold suite remote.
  rewrite Herr. simpl. rewrite Hdiff, elements_empty. reflexivity.
Qed.

Lemma add_missing_test_cases_empty_diff (K : Constants) (R : Runtime)
    (environment : Environment) (project_id : Z) (schedule : list PoolEvent) (w : World) :
  let suite := suite_id (w_provider w) in
  let remote := send_get_cases R (w_trace w) project_id suite in
  error_message remote = "" →
  (list_to_set (flat_map (λ sections, map case_id (testcases sections))
                  (testsections (w_provider w))) : gset (option Z))
    ∖ list_to_set (response_text remote) = ∅ →
  _ResultsUploader__add_missing_test_cases K R environment project_id schedule w
  = (Ret ([], 1), after w [EvGet (get_cases project_id suite)]).
Proof.
  intros suite remote Herr Hdiff.
  unfold _ResultsUploader__add_missing_test_cases, check_missing_test_cases_ids.
  unfold_monad. rewrite send_get_run. fold suite remote.
  rewrite Herr. simpl. rewrite Hdiff, elements_empty. reflexivity.
Qed.

(** C7.  When the check succeeded and the local ids minus the remote ids
    leave nothing, [__add_missing_sections] and [__add_missing_test_cases]
    each do one thing to the outside, the listing request: nobody is
    prompted, nothing is created, and the stage returns no added items with
    result code 1.  So against a remote that already holds every local
    section and case id, running both stages issues the two listing requests
    and no create call. *)
Theorem reconciliation_with_empty_diff_creates_nothing (K : Constants) (R : Runtime)
    (environment : Environment) (project_id : Z) (schedule : list PoolEvent) (w : World) :
  let suite := suite_id (w_provider w) in
  let local_sections := map section_id (testsections (w_provider w)) in
  let local_cases :=
    flat_map (λ sections, map case_id (testcases sections)) (testsections (w_provider w)) in
  let sections_request := EvGet (get_sections project_id suite) in
  let cases_request := EvGet (get_cases project_id suite) in
  (error_message (send_get_sections R (w_trace w) project_id suite) = "" →
   (list_to_set local_sections : gset (option Z))
     ∖ list_to_set (response_text (send_get_sections R (w_trace w) project_id suite)) = ∅ →
   _ResultsUploader__add_missing_sections K R environment project_id w
   = (Ret ([], 1), after w [sections_request]))
  ∧ (error_message (send_get_cases R (w_trace w) project_id suite) = "" →
     (list_to_set local_cases : gset (option Z))
       ∖ list_to_set (response_text (send_get_cases R (w_trace w) project_id suite)) = ∅ →
     _ResultsUploader__add_missing_test_cases K R environment project_id schedule w
     = (Ret ([], 1), after w [cases_request]))
  ∧ (let remote_sections := send_get_sections R (w_trace w) project_id suite in
     let remote_cases :=
       send_get_cases R (w_trace w ++ [sections_request]) project_id suite in
     error_message remote_sections = "" →
     error_message remote_cases = "" →
     (∀ id, id ∈ local_sections → id ∈ response_text remote_sections) →
     (∀ id, id ∈ local_cases → id ∈ response_text remote_cases) →
     (_ResultsUploader__add_missing_sections K R environment project_id;;
      _ResultsUploader__add_missing_test_cases K R environment project_id schedule) w
     = (Ret ([], 1), after w [sections_request; cases_request])
     ∧ filter is_post [sections_request; cases_request] = []
     ∧ filter is_prompt [sections_request; cases_request] = []).
Proof.
  intros suite local_sections local_cases sections_request cases_request.
  split; [| split].
  - apply add_missing_sections_empty_diff.
  - apply add_missing_test_cases_empty_diff.
  - intros remote_sections remote_cases Hs Hc Hsub_s Hsub_c.
    split; [| split; reflexivity].
    unfold mbind at 1. unfold M_bind.
    rewrite add_missing_sections_empty_diff
      by (try apply difference_empty_of_subset; assumption).
    rewrite add_missing_test_cases_empty_diff
      by (try apply difference_empty_of_subset; assumption).
    unfold after. simpl. rewrite <- app_assoc. reflexivity.
Qed.

(** Membership of every element of a concrete list in another one. *)
Ltac all_members :=
  let id := fresh "id" in
  let Hid := fresh "Hid" in
  intros id Hid; revert id Hid; apply Forall_forall;
  repeat constructor; apply bool_decide_unpack; vm_compute; exact I.

(** A run of C7 against [Sample.synced]. *)
Lemma reconciliation_with_empty_diff_witness :
  _ResultsUploader__add_missing_sections Sample.constants Sample.synced Sample.environment 1
    (Sample.world (Some 4))
  = (Ret ([], 1), after (Sample.world (Some 4)) [EvGet (get_sections 1 (Some 4))])
  ∧ _ResultsUploader__add_missing_test_cases Sample.constants Sample.synced
      Sample.environment 1 [] (Sample.world (Some 4))
    = (Ret ([], 1), after (Sample.world (Some 4)) [EvGet (get_cases 1 (Some 4))])
  ∧ (_ResultsUploader__add_missing_sections Sample.constants Sample.synced
       Sample.environment 1;;
     _ResultsUploader__add_missing_test_cases Sample.constants Sample.synced
       Sample.environment 1 []) (Sample.world (Some 4))
    = (Ret ([], 1),
       after (Sample.world (Some 4))
         [EvGet (get_sections 1 (Some 4)); EvGet (get_cases 1 (Some 4))]).
Proof.
  pose proof (reconciliation_with_empty_diff_creates_nothing
                Sample.constants Sample.synced Sample.environment 1 []
                (Sample.world (Some 4))) as (Hs & Hc & Hboth).
  split; [| split].
  - apply Hs; [reflexivity | vm_compute; reflexivity].
  - apply Hc; [reflexivity | vm_compute; reflexivity].
  - apply Hboth; [reflexivity | reflexivity | all_members | all_members].
Defined.

(** C8.  When the listing request of the check fails, the check hands back
    no missing ids with the client's error, and the stage logs the
    error_checking_missing_item fault with that error and returns no added
    items with result code -1.  The listing request and the log line are all
    that happens: nobody is prompted and nothing is created. *)
Theorem reconciliation_check_error_is_propagated (K : Constants) (R : Runtime)
    (environment : Environment) (project_id : Z) (schedule : list PoolEvent) (w : World) :
  let suite := suite_id (w_provider w) in
  let fault (item error : string) :=
    EvLog (Format (FAULT_MAPPING K "error_checking_missing_item")
             [("missing_item", PStr item); ("error_message", PStr error)]) in
  (let error := error_message (send_get_sections R (w_trace w) project_id suite) in
   error ≠ "" →
   check_missing_section_ids R project_id w
   = (Ret ([], error), after w [EvGet (get_sections project_id suite)])
   ∧ _ResultsUploader__add_missing_sections K R environment project_id w
     = (Ret ([], -1),
        after w [EvGet (get_sections project_id suite); fault "missing sections" error]))
  ∧ (let error := error_message (send_get_cases R (w_trace w) project_id suite) in
     error ≠ "" →
     check_missing_test_cases_ids R project_id w
     = (Ret ([], error), after w [EvGet (get_cases project_id suite)])
     ∧ _ResultsUploader__add_missing_test_cases K R environment project_id schedule w
       = (Ret ([], -1),
          after w [EvGet (get_cases project_id suite); fault "missing test cases" error])).
Proof.
  intros suite fault. split; intros error Herr; apply str_truthy_true in Herr.
  - unfold _ResultsUploader__add_missing_sections, check_missing_section_ids.
    unfold_monad. rewrite send_get_run. fold suite error. rewrite Herr. simpl.
    rewrite Herr. unfold after. simpl. rewrite <- app_assoc. done.
  - unfold _ResultsUploader__add_missing_test_cases, check_missing_test_cases_ids.
    unfold_monad. rewrite send_get_run. fold suite error. rewrite Herr. simpl.
    rewrite Herr. unfold after. simpl. rewrite <- app_assoc. done.
Qed.

(** A run of C8 against [Sample.listings_time_out]. *)
Lemma reconciliation_check_error_witness :
  _ResultsUploader__add_missing_sections Sample.constants Sample.listings_time_out
    Sample.environment 1 (Sample.world (Some 4))
  = (Ret ([], -1),
     after (Sample.world (Some 4))
       [EvGet (get_sections 1 (Some 4));
        EvLog (Format "error_checking_missing_item"
                 [("missing_item", PStr "missing sections");
                  ("error_message", PStr "Timed out")])])
  ∧ _ResultsUploader__add_missing_test_cases Sample.constants Sample.listings_time_out
      Sample.environment 1 [] (Sample.world (Some 4))
    = (Ret ([], -1),
       after (Sample.world (Some 4))
         [EvGet (get_cases 1 (Some 4));
          EvLog (Format "error_checking_missing_item"
                   [("missing_item", PStr "missing test cases");
                    ("error_message", PStr "Timed out")])]).
Proof.
  pose proof (reconciliation_check_error_is_propagated
                Sample.constants Sample.listings_time_out Sample.environment 1 []
                (Sample.world (Some 4))) as [Hs Hc].
  split.
  - apply Hs. discriminate.
  - apply Hc. discriminate.
Defined.

(** ** Sequential creation of suites and sections *)

Lemma after_after (w : World) (l1 l2 : list Event) : after (after w l1) l2 = after w (l1 ++ l2).
Proof. unfold after. simpl. by rewrite app_assoc. Qed.

Lemma after_nil (w : World) : after w [] = w.
Proof. destruct w. unfold after. simpl. by rewrite app_nil_r. Qed.

Lemma answers_app (R : Runtime) (path : Endpoint) (pre rest : list Dict) (tr : list Event) :
  answers R path tr (pre ++ rest)
  = answers R path tr pre ++ answers R path (tr ++ map (EvPost path) pre) rest.
Proof.
  revert tr. induction pre as [|body pre IH]; intros tr; simpl.
  - by rewrite app_nil_r.
  - rewrite IH. by rewrite <- app_assoc.
Qed.

(** The loop posts the bodies in order for as long as the answers carry no
    error, and keeps the answers in that order. *)
Lemma post_bodies_all_succeed (R : Runtime) (path : Endpoint) (bodies : list Dict) :
  ∀ (responses : list Response) (w : World),
    Forall (λ r, error_message r = "") (answers R path (w_trace w) bodies) →
    post_bodies R path bodies responses w
    = (Ret (responses ++ answers R path (w_trace w) bodies, ""),
       after w (map (EvPost path) bodies)).
Proof.
  induction bodies as [|body bodies IH]; intros responses w Hok; simpl.
  - by rewrite app_nil_r, after_nil.
  - apply Forall_cons in Hok as [Hhead Hrest].
    unfold mbind at 1. unfold M_bind. rewrite client_send_post_run.
    rewrite Hhead. simpl.
    rewrite IH by exact Hrest.
    rewrite after_after. simpl. by rewrite <- app_assoc.
Qed.

(** The loop stops at the first answer with an error: that body is the last
    one posted, and its error is the one handed back. *)
Lemma post_bodies_first_failure (R : Runtime) (path : Endpoint)
    (pre : list Dict) (body : Dict) (rest : list Dict) :
  ∀ (responses : list Response) (w : World),
    Forall (λ r, error_message r = "") (answers R path (w_trace w) pre) →
    error_message (send_post R (w_trace w ++ map (EvPost path) pre) path body) ≠ "" →
    post_bodies R path (pre ++ body :: rest) responses w
    = (Ret (responses ++ answers R path (w_trace w) pre,
            error_message (send_post R (w_trace w ++ map (EvPost path) pre) path body)),
       after w (map (EvPost path) (pre ++ [body]))).
Proof.
  induction pre as [|first pre IH]; intros responses w Hok Hfail; simpl.
  - unfold mbind. unfold M_bind. rewrite client_send_post_run.
    rewrite app_nil_r in *. apply str_truthy_true in Hfail. rewrite Hfail. simpl.
    by rewrite app_nil_r.
  - apply Forall_cons in Hok as [Hhead Hrest].
    unfold mbind at 1. unfold M_bind. rewrite client_send_post_run.
    rewrite Hhead. simpl.
    rewrite IH; simpl.
    + rewrite after_after. simpl. by rewrite <- !app_assoc.
    + exact Hrest.
    + by rewrite <- app_assoc.
Qed.

Lemma update_data_if_any_run (R : Runtime) (k : UpdateKind) (resources : list Dict)
    (w : World) :
  update_data_if_any R k resources w = (Ret tt, merged R k resources w).
Proof.
  unfold update_data_if_any, merged. destruct resources as [|first resources]; simpl.
  - by destruct w.
  - reflexivity.
Qed.

Lemma mapM_inr {A B : Type} (f : A → Exn + B) (l : list A) (k : list B) :
  mapM f l = inr k → Forall2 (λ x y, f x = inr y) l k.
Proof.
  revert k. induction l as [|x l IH]; intros k; simpl.
  - intros [= <-]. constructor.
  - unfold mbind, Exn_bind, mret, Exn_ret.
    destruct (f x) as [e|y] eqn:Hx; [discriminate|].
    destruct (mapM f l) as [e|ys] eqn:Hl; [discriminate|].
    intros [= <-]. constructor; [exact Hx | by apply IH].
Qed.

Lemma suite_resource_id (response : Response) (resource : Dict) :
  suite_resource response = inr resource →
  is_Some (returned_id response) ∧ resource !! "suite_id" = returned_id response.
Proof.
  unfold suite_resource, returned_id, py_getitem.
  destruct (response_text response) as [| | | | |d]; try discriminate.
  unfold mbind, Exn_bind, mret, Exn_ret.
  destruct (d !! "id") as [id|]; [|discriminate].
  destruct (d !! "name") as [name|]; [|discriminate].
  intros [= <-]. split; [by eexists|].
  by simplify_map_eq.
Qed.

Lemma section_resource_id (response : Response) (resource : Dict) :
  section_resource response = inr resource →
  is_Some (returned_id response) ∧ resource !! "section_id" = returned_id response.
Proof.
  unfold section_resource, returned_id, py_getitem.
  destruct (response_text response) as [| | | | |d]; try discriminate.
  unfold mbind, Exn_bind, mret, Exn_ret.
  destruct (d !! "id") as [id|]; [|discriminate].
  destruct (d !! "suite_id") as [suite|]; [|discriminate].
  destruct (d !! "name") as [name|]; [|discriminate].
  intros [= <-]. split; [by eexists|].
  by simplify_map_eq.
Qed.

Lemma add_suites_run (R : Runtime) (project_id : Z) (w w' : World)
    (responses : list Response) (error : string) (resources : list Dict) :
  post_bodies R (add_suite project_id) (add_suites_data R (w_provider w)) [] w
  = (Ret (responses, error), w') →
  mapM suite_resource responses = inr resources →
  add_suites R project_id w = (Ret (resources, error), merged R suite_data resources w').
Proof.
  intros Hloop Hres. unfold add_suites.
  unfold mbind at 1. unfold M_bind, get_provider.
  unfold mbind at 1. unfold M_bind. rewrite Hloop.
  rewrite Hres. unfold lift. unfold mbind, M_bind, mret, M_ret.
  by rewrite update_data_if_any_run.
Qed.

Lemma add_sections_run (R : Runtime) (project_id : Z) (w w' : World)
    (responses : list Response) (error : string) (resources : list Dict) :
  post_bodies R (add_section project_id) (add_sections_data R (w_provider w)) [] w
  = (Ret (responses, error), w') →
  mapM section_resource responses = inr resources →
  add_sections R project_id w = (Ret (resources, error), merged R section_data resources w').
Proof.
  intros Hloop Hres. unfold add_sections.
  unfold mbind at 1. unfold M_bind, get_provider.
  unfold mbind at 1. unfold M_bind. rewrite Hloop.
  rewrite Hres. unfold lift. unfold mbind, M_bind, mret, M_ret.
  by rewrite update_data_if_any_run.
Qed.

(** C10.  [add_suites] and [add_sections] post the bodies of the data
    provider one after the other, in list order.  If the answer to [body] is
    the first one with an error, the bodies before it and [body] itself are
    the calls made, in that order, and none after it; the error handed back
    is that answer's; the resources handed back are those of the bodies
    before it, each carrying the id its call answered with, and they are
    merged into the data provider.  If no answer has an error, every body is
    posted, the error is empty, and every resource is merged.  The answers
    without an error are taken to hold the fields a resource is built from
    (id and name, and suite_id for a section), which is what [resources]
    being read from them says. *)
Theorem add_suites_and_add_sections_stop_at_first_failure (R : Runtime)
    (project_id : Z) (w : World) :
  let ok := Forall (λ r : Response, error_message r = "") in
  let posts path bodies := map (EvPost path) bodies in
  (∀ (pre : list Dict) (body : Dict) (rest : list Dict) (resources : list Dict),
     let path := add_suite project_id in
     let failure := send_post R (w_trace w ++ posts path pre) path body in
     add_suites_data R (w_provider w) = pre ++ body :: rest →
     ok (answers R path (w_trace w) pre) →
     error_message failure ≠ "" →
     mapM suite_resource (answers R path (w_trace w) pre) = inr resources →
     add_suites R project_id w
     = (Ret (resources, error_message failure),
        merged R suite_data resources (after w (posts path (pre ++ [body]))))
     ∧ Forall2 (λ response resource,
                  is_Some (returned_id response)
                  ∧ resource !! "suite_id" = returned_id response)
         (answers R path (w_trace w) pre) resources)
  ∧ (∀ resources : list Dict,
       let path := add_suite project_id in
       let bodies := add_suites_data R (w_provider w) in
       ok (answers R path (w_trace w) bodies) →
       mapM suite_resource (answers R path (w_trace w) bodies) = inr resources →
       add_suites R project_id w
       = (Ret (resources, ""), merged R suite_data resources (after w (posts path bodies)))
       ∧ Forall2 (λ response resource,
                    is_Some (returned_id response)
                    ∧ resource !! "suite_id" = returned_id response)
           (answers R path (w_trace w) bodies) resources)
  ∧ (∀ (pre : list Dict) (body : Dict) (rest : list Dict) (resources : list Dict),
       let path := add_section project_id in
       let failure := send_post R (w_trace w ++ posts path pre) path body in
       add_sections_data R (w_provider w) = pre ++ body :: rest →
       ok (answers R path (w_trace w) pre) →
       error_message failure ≠ "" →
       mapM section_resource (answers R path (w_trace w) pre) = inr resources →
       add_sections R project_id w
       = (Ret (resources, error_message failure),
          merged R section_data resources (after w (posts path (pre ++ [body]))))
       ∧ Forall2 (λ response resource,
                    is_Some (returned_id response)
                    ∧ resource !! "section_id" = returned_id response)
           (answers R path (w_trace w) pre) resources)
  ∧ (∀ resources : list Dict,
       let path := add_section project_id in
       let bodies := add_sections_data R (w_provider w) in
       ok (answers R path (w_trace w) bodies) →
       mapM section_resource (answers R path (w_trace w) bodies) = inr resources →
       add_sections R project_id w
       = (Ret (resources, ""), merged R section_data resources (after w (posts path bodies)))
       ∧ Forall2 (λ response resource,
                    is_Some (returned_id response)
                    ∧ resource !! "section_id" = returned_id response)
           (answers R path (w_trace w) bodies) resources).
Proof.
  intros ok posts. split; [| split; [| split]].
  - intros pre body rest resources path failure Hbodies Hok Hfail Hresources. split.
    + eapply add_suites_run; [| exact Hresources].
      rewrite Hbodies. by apply post_bodies_first_failure.
    + eapply Forall2_impl; [by apply mapM_inr | apply suite_resource_id].
  - intros resources path bodies Hok Hresources. split.
    + eapply add_suites_run; [| exact Hresources].
      by apply post_bodies_all_succeed.
    + eapply Forall2_impl; [by apply mapM_inr | apply suite_resource_id].
  - intros pre body rest resources path failure Hbodies Hok Hfail Hresources. split.
    + eapply add_sections_run; [| exact Hresources].
      rewrite Hbodies. by apply post_bodies_first_failure.
    + eapply Forall2_impl; [by apply mapM_inr | apply section_resource_id].
  - intros resources path bodies Hok Hresources. split.
    + eapply add_sections_run; [| exact Hresources].
      by apply post_bodies_all_succeed.
    + eapply Forall2_impl; [by apply mapM_inr | apply section_resource_id].
Qed.

(** A run of C10: three bodies, the second of which the server refuses,
    and two bodies the server accepts. *)
Lemma add_suites_and_add_sections_witness :
  (fst (add_suites (Sample.serving Sample.refused_bodies) 1 (Sample.world None))
   = Ret ([ ({[ "suite_id" := PInt 100; "name" := PStr "a" ]} : Dict) ],
          "Field :title is a required field.")
   ∧ filter is_post
       (w_trace (snd (add_suites (Sample.serving Sample.refused_bodies) 1 (Sample.world None))))
     = [EvPost (add_suite 1) (Sample.item "a"); EvPost (add_suite 1) (Sample.item "broken")])
  ∧ fst (add_suites (Sample.serving Sample.accepted_bodies) 1 (Sample.world None))
    = Ret ([ ({[ "suite_id" := PInt 100; "name" := PStr "a" ]} : Dict);
             ({[ "suite_id" := PInt 101; "name" := PStr "b" ]} : Dict) ], "")
  ∧ (fst (add_sections (Sample.serving Sample.refused_bodies) 1 (Sample.world None))
     = Ret ([ ({[ "section_id" := PInt 100; "suite_id" := PInt 4; "name" := PStr "a" ]}
               : Dict) ],
            "Field :title is a required field.")
     ∧ filter is_post
         (w_trace (snd (add_sections (Sample.serving Sample.refused_bodies) 1
                          (Sample.world None))))
       = [EvPost (add_section 1) (Sample.item "a");
          EvPost (add_section 1) (Sample.item "broken")])
  ∧ fst (add_sections (Sample.serving Sample.accepted_bodies) 1 (Sample.world None))
    = Ret ([ ({[ "section_id" := PInt 100; "suite_id" := PInt 4; "name" := PStr "a" ]}
              : Dict);
             ({[ "section_id" := PInt 101; "suite_id" := PInt 4; "name" := PStr "b" ]}
              : Dict) ], "").
Proof.
  pose proof (add_suites_and_add_sections_stop_at_first_failure
                (Sample.serving Sample.refused_bodies) 1 (Sample.world None))
    as (Hsuites & _ & Hsections & _).
  pose proof (add_suites_and_add_sections_stop_at_first_failure
                (Sample.serving Sample.accepted_bodies) 1 (Sample.world None))
    as (_ & Hsuites_ok & _ & Hsections_ok).
  split; [| split; [| split]].
  - destruct (Hsuites [Sample.item "a"] (Sample.item "broken") [Sample.item "c"]
                [ ({[ "suite_id" := PInt 100; "name" := PStr "a" ]} : Dict) ]) as [-> _];
      [ reflexivity | repeat constructor; vm_compute; reflexivity
      | vm_compute; discriminate | vm_compute; reflexivity | ].
    split; vm_compute; reflexivity.
  - destruct (Hsuites_ok
                [ ({[ "suite_id" := PInt 100; "name" := PStr "a" ]} : Dict);
                  ({[ "suite_id" := PInt 101; "name" := PStr "b" ]} : Dict) ]) as [-> _];
      [ repeat constructor; vm_compute; reflexivity | vm_compute; reflexivity | ].
    vm_compute; reflexivity.
  - destruct (Hsections [Sample.item "a"] (Sample.item "broken") [Sample.item "c"]
                [ ({[ "section_id" := PInt 100; "suite_id" := PInt 4; "name" := PStr "a" ]}
                   : Dict) ]) as [-> _];
      [ reflexivity | repeat constructor; vm_compute; reflexivity
      | vm_compute; discriminate | vm_compute; reflexivity | ].
    split; vm_compute; reflexivity.
  - destruct (Hsections_ok
                [ ({[ "section_id" := PInt 100; "suite_id" := PInt 4; "name" := PStr "a" ]}
                   : Dict);
                  ({[ "section_id" := PInt 101; "suite_id" := PInt 4; "name" := PStr "b" ]}
                   : Dict) ]) as [-> _];
      [ repeat constructor; vm_compute; reflexivity | vm_compute; reflexivity | ].
    vm_compute; reflexivity.
Defined.

(** ** Suite resolution *)

(** Whatever [check_suite_id] hands back, a tuple of two, counts as true in
    [__check_suite_id]: the result code is 1 and nothing is logged. *)
Lemma check_suite_id_result_is_never_read (K : Constants) (R : Runtime)
    (suite_id : option Z) (project_id : Z) (w : World) :
  _ResultsUploader__check_suite_id K R suite_id project_id w
  = (Ret (optint_val suite_id, 1), after w [EvGet (get_suites project_id)]).
Proof.
  unfold _ResultsUploader__check_suite_id, check_suite_id.
  unfold_monad. rewrite send_get_run.
  destruct (negb (str_truthy _)); reflexivity.
Qed.

(** C2, at a failing input.  The provider pins suite 5 and the project has
    the suites 1 and 2: [check_suite_id] answers false, yet suite resolution
    returns suite 5 with result code 1 and logs nothing.  When the listing
    times out [check_suite_id] answers [None] with the error, and suite
    resolution still returns suite 5 with result code 1. *)
Theorem pinned_suite_is_accepted_unverified :
  check_suite_id Sample.two_suites 1 (Sample.world (Some 5))
  = (Ret (Some false, ""), after (Sample.world (Some 5)) [EvGet (get_suites 1)])
  ∧ _ResultsUploader__get_suite_id Sample.constants Sample.two_suites Sample.environment
      1 1 (Sample.world (Some 5))
    = (Ret (PInt 5, 1), after (Sample.world (Some 5)) [EvGet (get_suites 1)])
  ∧ check_suite_id Sample.suites_time_out 1 (Sample.world (Some 5))
    = (Ret (None, "Timed out"), after (Sample.world (Some 5)) [EvGet (get_suites 1)])
  ∧ _ResultsUploader__get_suite_id Sample.constants Sample.suites_time_out
      Sample.environment 1 1 (Sample.world (Some 5))
    = (Ret (PInt 5, 1), after (Sample.world (Some 5)) [EvGet (get_suites 1)]).
Proof.
  split; [| split; [| split]].
  - vm_compute. reflexivity.
  - unfold _ResultsUploader__get_suite_id. unfold mbind at 1. unfold M_bind, get_provider.
    simpl. apply check_suite_id_result_is_never_read.
  - vm_compute. reflexivity.
  - unfold _ResultsUploader__get_suite_id. unfold mbind at 1. unfold M_bind, get_provider.
    simpl. apply check_suite_id_result_is_never_read.
Qed.

(** In a single-suite mode without a pinned suite, a listing that succeeds
    with no suite makes suite resolution raise [IndexError] at
    [suite_ids[0]]: it hands back neither a suite id nor a result code. *)
Lemma empty_suite_list_raises (K : Constants) (R : Runtime) (environment : Environment)
    (project_id suite_mode : Z) (w : World) :
  optint_truthy (suite_id (w_provider w)) = false →
  suite_mode ≠ multiple_suites K →
  suite_mode = single_suite_baselines K ∨ suite_mode = single_suite K →
  send_get_suites R (w_trace w) project_id = mkResult
    (status_code (send_get_suites R (w_trace w) project_id)) [] "" →
  _ResultsUploader__get_suite_id K R environment project_id suite_mode w
  = (Raise IndexError, after w [EvGet (get_suites project_id)]).
Proof.
  intros Hpin Hmulti Hmode Hlist.
  unfold _ResultsUploader__get_suite_id. unfold mbind at 1. unfold M_bind, get_provider.
  rewrite Hpin. simpl.
  destruct (decide (suite_mode = multiple_suites K)) as [|_]; [done|].
  assert (Hids : get_suite_ids R project_id w
                 = (Ret ([], ""), after w [EvGet (get_suites project_id)])).
  { unfold get_suite_ids. unfold mbind at 1. unfold M_bind. rewrite send_get_run.
    rewrite Hlist. simpl. unfold_monad. simpl. by destruct w. }
  destruct (decide (suite_mode = single_suite_baselines K)) as [|Hnot].
  - unfold mbind at 1. unfold M_bind. rewrite Hids. reflexivity.
  - destruct Hmode as [|Hsingle]; [done|].
    destruct (decide (suite_mode = single_suite K)) as [|]; [|done].
    unfold mbind at 1. unfold M_bind. rewrite Hids. reflexivity.
Qed.

(** C3, at a failing input.  Project Demo is in single-suite mode, no suite
    is pinned, and the listing of its suites succeeds with no suite:
    [get_suite_ids] hands back the empty list without an error, suite
    resolution raises [IndexError], and so does [upload_results], after the
    two listing requests and before any run is created. *)
Theorem single_suite_with_no_suite_raises :
  get_suite_ids Sample.no_suites 1 (Sample.world None)
  = (Ret ([], ""), after (Sample.world None) [EvGet (get_suites 1)])
  ∧ _ResultsUploader__get_suite_id Sample.constants Sample.no_suites Sample.environment
      1 (single_suite Sample.constants) (Sample.world None)
    = (Raise IndexError, after (Sample.world None) [EvGet (get_suites 1)])
  ∧ upload_results Sample.constants Sample.no_suites Sample.environment [] []
      (Sample.world None)
    = (Raise IndexError,
       after (Sample.world None) [EvGet get_projects; EvGet (get_suites 1)]).
Proof.
  split; [| split].
  - vm_compute. reflexivity.
  - apply empty_suite_list_raises; [reflexivity | discriminate | by right | reflexivity].
  - vm_compute. reflexivity.
Qed.

(** C4, at failing inputs.  In single-suite-with-baselines mode and in
    single-suite mode, with no suite pinned and a listing that succeeds with
    no suite, suite resolution raises [IndexError] instead of returning one
    of the two outcomes; with suite 5 pinned and absent from the project it
    returns suite 5 with result code 1. *)
Theorem suite_resolution_outside_its_two_outcomes :
  _ResultsUploader__get_suite_id Sample.constants (Sample.serving []) Sample.environment 1
    (single_suite_baselines Sample.constants) (Sample.world None)
  = (Raise IndexError, after (Sample.world None) [EvGet (get_suites 1)])
  ∧ _ResultsUploader__get_suite_id Sample.constants (Sample.serving []) Sample.environment 1
      (single_suite Sample.constants) (Sample.world None)
    = (Raise IndexError, after (Sample.world None) [EvGet (get_suites 1)])
  ∧ _ResultsUploader__get_suite_id Sample.constants Sample.two_suites Sample.environment 1
      (single_suite Sample.constants) (Sample.world (Some 5))
    = (Ret (PInt 5, 1), after (Sample.world (Some 5)) [EvGet (get_suites 1)]).
Proof.
  split; [| split].
  - apply empty_suite_list_raises; [reflexivity | discriminate | by left | reflexivity].
  - apply empty_suite_list_raises; [reflexivity | discriminate | by right | reflexivity].
  - vm_compute. reflexivity.
Qed.

(** *** Who is asked, and how often *)

Lemma asks_ret {A : Type} (a : A) : asks [] (mret a).
Proof. intros w. simpl. by rewrite app_nil_r. Qed.

Lemma asks_raise {A : Type} (e : Exn) : asks [] (raise (A := A) e).
Proof. intros w. simpl. by rewrite app_nil_r. Qed.

Lemma asks_lift {A : Type} (x : Exn + A) : asks [] (lift x).
Proof. destruct x; [apply asks_raise | apply asks_ret]. Qed.

(** Once [m] has asked, a continuation that asks nothing adds nothing,
    whether [m] returns or raises. *)
Lemma asks_bind {A B : Type} (asked : list Event) (m : M A) (f : A → M B) :
  asks asked m → (∀ a, asks [] (f a)) → asks asked (m ≫= f).
Proof.
  intros Hm Hf w. unfold mbind, M_bind. specialize (Hm w).
  destruct (m w) as [[a|e] w']; simpl in *; [|exact Hm].
  rewrite (Hf a w'), app_nil_r. exact Hm.
Qed.

Lemma asks_emit (e : Event) : is_prompt e = false → asks [] (emit e).
Proof.
  intros He w. simpl. rewrite filter_app, filter_cons, filter_nil.
  destruct (decide (is_prompt e)) as [Hprompt|_]; [|reflexivity].
  rewrite He in Hprompt. destruct Hprompt.
Qed.

Lemma asks_get_provider : asks [] get_provider.
Proof. intros w. simpl. by rewrite app_nil_r. Qed.

Lemma asks_send_get {T : Type} (path : Endpoint) (answer : list Event → APIClientResult T) :
  asks [] (send_get path answer).
Proof. intros w. rewrite send_get_run. simpl. rewrite filter_app. reflexivity. Qed.

Lemma asks_client_send_post (R : Runtime) (path : Endpoint) (body : Dict) :
  asks [] (client_send_post R path body).
Proof. intros w. rewrite client_send_post_run. simpl. rewrite filter_app. reflexivity. Qed.

Lemma asks_update_data_if_any (R : Runtime) (k : UpdateKind) (resources : list Dict) :
  asks [] (update_data_if_any R k resources).
Proof.
  intros w. rewrite update_data_if_any_run. unfold merged.
  destruct resources; simpl; [by rewrite app_nil_r|].
  rewrite filter_app. reflexivity.
Qed.

Lemma asks_post_bodies (R : Runtime) (path : Endpoint) (bodies : list Dict) :
  ∀ responses, asks [] (post_bodies R path bodies responses).
Proof.
  induction bodies as [|body bodies IH]; intros responses; simpl.
  - apply asks_ret.
  - apply asks_bind; [apply asks_client_send_post | intros response].
    destruct (negb (str_truthy (error_message response))); [apply IH | apply asks_ret].
Qed.

Lemma asks_add_suites (R : Runtime) (project_id : Z) : asks [] (add_suites R project_id).
Proof.
  unfold add_suites. apply asks_bind; [apply asks_get_provider | intros provider].
  apply asks_bind; [apply asks_post_bodies | intros [responses error]].
  apply asks_bind; [apply asks_lift | intros resources].
  apply asks_bind; [apply asks_update_data_if_any | intros _]. apply asks_ret.
Qed.

Lemma asks_get_suite_ids (R : Runtime) (project_id : Z) : asks [] (get_suite_ids R project_id).
Proof.
  unfold get_suite_ids. apply asks_bind; [apply asks_send_get | intros response].
  destruct (negb (str_truthy (error_message response)));
    (apply asks_bind; [apply asks_update_data_if_any | intros _; apply asks_ret]).
Qed.

Lemma asks_prompt (R : Runtime) (m : Message) : asks [EvPrompt m] (prompt R m).
Proof. intros w. unfold prompt. unfold_monad. simpl. rewrite filter_app. reflexivity. Qed.

(** [__prompt_user_and_add_items] asks its question once, whatever the
    answer and whatever the add function does, as long as that asks nothing. *)
Lemma prompt_user_and_add_items_asks_once (R : Runtime)
    (prompt_message adding_message fault_message : Message)
    (add_function : option Z → M (list Dict * string)) (project_id : option Z) :
  (∀ arg, asks [] (add_function arg)) →
  asks [EvPrompt prompt_message]
    (_ResultsUploader__prompt_user_and_add_items R prompt_message adding_message
       fault_message add_function project_id).
Proof.
  intros Hadd. unfold _ResultsUploader__prompt_user_and_add_items.
  apply asks_bind; [apply asks_prompt | intros agreed].
  destruct agreed.
  - apply asks_bind; [by apply asks_emit | intros _].
    apply asks_bind.
    + destruct (optint_truthy project_id); apply Hadd.
    + intros [added_items error].
      destruct (str_truthy error); [|apply asks_ret].
      apply asks_bind; [by apply asks_emit | intros _]. apply asks_ret.
  - apply asks_bind; [by apply asks_emit | intros _]. apply asks_ret.
Qed.

Lemma asks_single_suite_modes (K : Constants) (R : Runtime) (environment : Environment)
    (project_id suite_mode : Z) :
  asks []
    (if decide (suite_mode = single_suite_baselines K)
     then
       '(suite_ids, error_message) ← get_suite_ids R project_id;
       if str_truthy error_message
       then log (Text error_message);; mret (PInt (-1), -1)
       else
         if decide (1 < length suite_ids)%nat
         then
           log (Format (FAULT_MAPPING K "not_unique_suite_id_single_suite_baselines")
                  [("project_name", PStr (project environment))]);;
           mret (PInt (-1), -1)
         else suite_id ← lift (list_first suite_ids); mret (PInt suite_id, 1)
     else
       if decide (suite_mode = single_suite K)
       then
         '(suite_ids, error_message) ← get_suite_ids R project_id;
         if str_truthy error_message
         then log (Text error_message);; mret (PInt (-1), -1)
         else suite_id ← lift (list_first suite_ids); mret (PInt suite_id, 1)
       else
         log (Format (FAULT_MAPPING K "unknown_suite_mode")
                [("suite_mode", PInt suite_mode)]);;
         mret (PInt (-1), -1)).
Proof.
  destruct (decide (suite_mode = single_suite_baselines K)) as [_|_];
    [| destruct (decide (suite_mode = single_suite K)) as [_|_]].
  - apply asks_bind; [apply asks_get_suite_ids | intros [suite_ids error]].
    destruct (str_truthy error).
    + apply asks_bind; [by apply asks_emit | intros _; apply asks_ret].
    + destruct (decide (1 < length suite_ids)%nat) as [_|_].
      * apply asks_bind; [by apply asks_emit | intros _; apply asks_ret].
      * apply asks_bind; [apply asks_lift | intros first; apply asks_ret].
  - apply asks_bind; [apply asks_get_suite_ids | intros [suite_ids error]].
    destruct (str_truthy error).
    + apply asks_bind; [by apply asks_emit | intros _; apply asks_ret].
    + apply asks_bind; [apply asks_lift | intros first; apply asks_ret].
  - apply asks_bind; [by apply asks_emit | intros _; apply asks_ret].
Qed.

(** Suite resolution asks the user at most once, and only when no suite is
    pinned and the project is in multiple-suites mode: then it asks the
    create_new_suite question, exactly once, whatever the user answers and
    whatever the server does. *)
Theorem suite_resolution_asks_at_most_once (K : Constants) (R : Runtime)
    (environment : Environment) (project_id suite_mode : Z) (w : World) :
  filter is_prompt
    (w_trace (snd (_ResultsUploader__get_suite_id K R environment project_id suite_mode w)))
  = filter is_prompt (w_trace w)
    ++ (if decide (optint_truthy (suite_id (w_provider w)) = false
                   ∧ suite_mode = multiple_suites K)
        then [EvPrompt (Format (PROMPT_MESSAGES K "create_new_suite")
                          [("suite_name", PStr (name (w_provider w)));
                           ("project_name", PStr (project environment))])]
        else []).
Proof.
  unfold _ResultsUploader__get_suite_id.
  unfold mbind at 1. unfold M_bind at 1. unfold get_provider.
  destruct (decide (optint_truthy (suite_id (w_provider w)) = false
                    ∧ suite_mode = multiple_suites K)) as [[Hpin Hmode]|Hnot].
  - rewrite Hpin. simpl. rewrite decide_True by exact Hmode.
    apply asks_bind.
    + apply prompt_user_and_add_items_asks_once.
      intros [arg|]; [apply asks_add_suites | apply asks_raise].
    + intros [added_suites result_code].
      destruct (list_truthy added_suites); [|apply asks_ret].
      apply asks_bind; [apply asks_lift | intros first].
      apply asks_bind; [apply asks_lift | intros suite]. apply asks_ret.
  - destruct (optint_truthy (suite_id (w_provider w))) eqn:Hpin; simpl.
    + rewrite check_suite_id_result_is_never_read. simpl. by rewrite filter_app.
    + rewrite decide_False by (intros Hmode; apply Hnot; by split).
      apply asks_single_suite_modes.
Qed.

(** ** Batches *)

(** *** What the pool and the loop leave alone *)

Lemma quiet_refl (w : World) : quiet w w.
Proof. by split. Qed.

Lemma quiet_trans (w1 w2 w3 : World) : quiet w1 w2 → quiet w2 w3 → quiet w1 w3.
Proof. intros [Hp1 Ht1] [Hp2 Ht2]. split; congruence. Qed.

Lemma quiet_ret {A : Type} (a : A) : quiet_op (mret a).
Proof. intros w. apply quiet_refl. Qed.

Lemma quiet_raise {A : Type} (e : Exn) : quiet_op (raise (A := A) e).
Proof. intros w. apply quiet_refl. Qed.

Lemma quiet_lift {A : Type} (x : Exn + A) : quiet_op (lift x).
Proof. destruct x; [apply quiet_raise | apply quiet_ret]. Qed.

Lemma quiet_bind {A B : Type} (m : M A) (f : A → M B) :
  quiet_op m → (∀ a, quiet_op (f a)) → quiet_op (m ≫= f).
Proof.
  intros Hm Hf w. unfold mbind, M_bind. specialize (Hm w).
  destruct (m w) as [[a|e] w']; simpl in *; [|exact Hm].
  eapply quiet_trans; [exact Hm | apply Hf].
Qed.

Lemma quiet_emit (e : Event) : is_update e = false → quiet_op (emit e).
Proof.
  intros He w. split; simpl; [reflexivity|].
  rewrite filter_app, filter_cons, filter_nil.
  destruct (decide (is_update e)) as [Hupdate|_].
  - rewrite He in Hupdate. destruct Hupdate.
  - by rewrite app_nil_r.
Qed.

Lemma quiet_get_trace : quiet_op get_trace.
Proof. intros w. apply quiet_refl. Qed.

Lemma quiet_get_futures : quiet_op get_futures.
Proof. intros w. apply quiet_refl. Qed.

Lemma quiet_set_futures (futures : list Future) : quiet_op (set_futures futures).
Proof. intros w. by split. Qed.

Lemma quiet_client_send_post (R : Runtime) (path : Endpoint) (body : Dict) :
  quiet_op (client_send_post R path body).
Proof.
  unfold client_send_post.
  apply quiet_bind; [apply quiet_get_trace | intros tr].
  apply quiet_bind; [by apply quiet_emit | intros _]. apply quiet_ret.
Qed.

Lemma quiet_pool_start (R : Runtime) (max_workers i : nat) :
  quiet_op (pool_start R max_workers i).
Proof.
  unfold pool_start. apply quiet_bind; [apply quiet_get_futures | intros futures].
  destruct (futures !! i) as [future|]; [|apply quiet_ret].
  case_decide; [|apply quiet_ret].
  apply quiet_bind; [apply quiet_client_send_post | intros response].
  apply quiet_bind; [apply quiet_get_futures | intros futures'].
  apply quiet_set_futures.
Qed.

Lemma quiet_pool_finish (i : nat) : quiet_op (pool_finish i).
Proof.
  unfold pool_finish. apply quiet_bind; [apply quiet_get_futures | intros futures].
  destruct (futures !! i) as [future|]; [|apply quiet_ret].
  case_decide; [|apply quiet_ret].
  apply quiet_bind; [apply quiet_set_futures | intros _]. apply quiet_ret.
Qed.

Lemma quiet_cancel_running_futures (action_string : string) :
  quiet_op (_ApiRequestHandler__cancel_running_futures action_string).
Proof.
  unfold _ApiRequestHandler__cancel_running_futures.
  apply quiet_bind; [by apply quiet_emit | intros _].
  apply quiet_bind; [apply quiet_get_futures | intros futures].
  apply quiet_set_futures.
Qed.

Lemma quiet_loop_body (R : Runtime) (max_workers : nat) (action_string : string)
    (event : PoolEvent) (responses : list Response) :
  quiet_op (loop_body R max_workers action_string event responses).
Proof.
  destruct event as [i|i|]; simpl.
  - apply quiet_bind; [apply quiet_pool_start | intros _]. apply quiet_ret.
  - apply quiet_bind; [apply quiet_pool_finish | intros done].
    destruct done as [future|]; [|apply quiet_ret].
    apply quiet_bind; [apply quiet_lift | intros response].
    destruct (negb (str_truthy (error_message response))).
    + apply quiet_bind; [apply quiet_lift | intros n].
      apply quiet_bind; [by apply quiet_emit | intros _]. apply quiet_ret.
    + apply quiet_bind; [by apply quiet_emit | intros _].
      apply quiet_bind; [apply quiet_cancel_running_futures | intros _]. apply quiet_ret.
  - apply quiet_raise.
Qed.

Lemma quiet_as_completed_loop (R : Runtime) (max_workers : nat) (action_string : string)
    (schedule : list PoolEvent) :
  ∀ responses, quiet_op (as_completed_loop R max_workers action_string schedule responses).
Proof.
  induction schedule as [|event schedule IH]; intros responses; simpl.
  - apply quiet_ret.
  - apply quiet_bind; [apply quiet_loop_body | intros state].
    destruct state as [responses'|responses' error]; [apply IH | apply quiet_ret].
Qed.

Lemma quiet_run_pool (R : Runtime) (max_workers : nat) (events : list PoolEvent) :
  quiet_op (run_pool R max_workers events).
Proof.
  induction events as [|[i|i|] events IH]; simpl.
  - apply quiet_ret.
  - apply quiet_bind; [apply quiet_pool_start | intros _; exact IH].
  - apply quiet_bind; [apply quiet_pool_finish | intros _; exact IH].
  - exact IH.
Qed.

(** *** An interrupt while the loop drains completions *)

Lemma as_completed_loop_app (R : Runtime) (max_workers : nat) (action_string : string)
    (pre rest : list PoolEvent) :
  ∀ (responses responses' : list Response) (w w1 : World),
    as_completed_loop R max_workers action_string pre responses w
    = (Ret (Continue responses'), w1) →
    as_completed_loop R max_workers action_string (pre ++ rest) responses w
    = as_completed_loop R max_workers action_string rest responses' w1.
Proof.
  induction pre as [|event pre IH]; intros responses responses' w w1; simpl.
  - unfold mret, M_ret. by intros [= <- <-].
  - unfold mbind, M_bind.
    destruct (loop_body R max_workers action_string event responses w)
      as [[[responses''|responses'' error]|e] w'']; simpl.
    + apply IH.
    + unfold mret, M_ret. discriminate.
    + discriminate.
Qed.

Lemma handle_futures_interrupted (R : Runtime) (max_workers : nat) (action_string : string)
    (pre rest : list PoolEvent) (responses : list Response) (w w1 : World) :
  as_completed_loop R max_workers action_string pre [] w = (Ret (Continue responses), w1) →
  handle_futures R max_workers action_string (pre ++ Sigint :: rest) w
  = (Raise KeyboardInterrupt,
     mkWorld
       (w_trace w1
        ++ [EvLog (Format "\nAborting: {action_string}. Trying to cancel scheduled tasks."
                     [("action_string", PStr action_string)])])
       (w_provider w1) (map cancel (w_futures w1))).
Proof.
  intros Hpre. unfold handle_futures.
  unfold mbind at 1. unfold M_bind, get_futures.
  unfold try_except_KeyboardInterrupt.
  unfold mbind at 1. unfold M_bind.
  rewrite <- app_assoc.
  rewrite (as_completed_loop_app _ _ _ _ _ _ _ _ _ Hpre).
  reflexivity.
Qed.

Lemma mapM_cons {F : Type → Type} `{MBind F, MRet F} {A B : Type} (f : A → F B)
    (x : A) (l : list A) :
  mapM f (x :: l) = y ← f x; k ← mapM f l; mret (y :: k).
Proof. reflexivity. Qed.

Lemma submit_run (path : Endpoint) (body : Dict) (w : World) :
  submit path body w
  = (Ret tt, mkWorld (w_trace w) (w_provider w)
               (w_futures w ++ [mkFuture path body PENDING None])).
Proof. reflexivity. Qed.

Lemma submit_cases_run (bodies : list Dict) :
  ∀ (futures : list Future) (w : World),
    mapM case_future bodies = Some futures →
    ∃ units, mapM submit_case bodies w
             = (Ret units, mkWorld (w_trace w) (w_provider w) (w_futures w ++ futures)).
Proof.
  induction bodies as [|body bodies IH]; intros futures w Hfutures.
  - injection Hfutures as <-. exists []. rewrite app_nil_r. by destruct w.
  - rewrite mapM_cons in Hfutures. rewrite mapM_cons.
    destruct (case_future body) as [future|] eqn:Hfuture; [|discriminate].
    destruct (mapM case_future bodies) as [futures'|] eqn:Hrest; [|discriminate].
    injection Hfutures as <-.
    assert (Hsubmit : submit_case body w
                      = (Ret tt, mkWorld (w_trace w) (w_provider w) (w_futures w ++ [future]))).
    { unfold submit_case. unfold case_future in Hfuture.
      destruct (body !! "section_id") as [section|]; [|discriminate].
      injection Hfuture as <-. apply submit_run. }
    destruct (IH futures' (mkWorld (w_trace w) (w_provider w) (w_futures w ++ [future]))
                eq_refl) as [units Hunits].
    exists (tt :: units).
    unfold mbind at 1. unfold M_bind at 1. rewrite Hsubmit.
    unfold mbind at 1. unfold M_bind at 1. rewrite Hunits. simpl.
    by rewrite <- app_assoc.
Qed.

Lemma submit_results_run (run_id : PyVal) (bodies : list Dict) :
  ∀ w : World,
    ∃ units, mapM (submit (add_results_for_cases run_id)) bodies w
             = (Ret units,
                mkWorld (w_trace w) (w_provider w)
                  (w_futures w ++ map (results_future run_id) bodies)).
Proof.
  induction bodies as [|body bodies IH]; intros w.
  - exists []. simpl. rewrite app_nil_r. by destruct w.
  - rewrite mapM_cons.
    destruct (IH (mkWorld (w_trace w) (w_provider w)
                    (w_futures w ++ [results_future run_id body]))) as [units Hunits].
    exists (tt :: units).
    unfold mbind at 1. unfold M_bind at 1. rewrite submit_run.
    unfold mbind at 1. unfold M_bind at 1. unfold results_future at 1 in Hunits.
    rewrite Hunits. simpl. by rewrite <- app_assoc.
Qed.

Lemma with_executor_raises {A : Type} (R : Runtime) (max_workers : nat) (body : M A)
    (e : Exn) (w wc : World) :
  max_workers ≠ 0%nat →
  body (mkWorld (w_trace w) (w_provider w) []) = (Raise e, wc) →
  ∃ w2, with_executor R max_workers body w = (Raise e, w2) ∧ quiet wc w2.
Proof.
  intros Hworkers Hbody. unfold with_executor.
  destruct (decide (max_workers = 0%nat)) as [|_]; [done|].
  unfold mbind, M_bind, set_futures. rewrite Hbody.
  pose proof (quiet_run_pool R max_workers (drain_rest (length (w_futures wc))) wc) as Hq.
  destruct (run_pool R max_workers (drain_rest (length (w_futures wc))) wc) as [r w2].
  exists w2. split; [reflexivity | exact Hq].
Qed.

Lemma quiet_aborted (action_string : string) (w w1 : World) :
  quiet w w1 →
  quiet w
    (mkWorld
       (w_trace w1
        ++ [EvLog (Format "\nAborting: {action_string}. Trying to cancel scheduled tasks."
                     [("action_string", PStr action_string)])])
       (w_provider w1) (map cancel (w_futures w1))).
Proof.
  intros [Hp Ht]. split; simpl; [exact Hp|].
  rewrite filter_app, filter_cons, filter_nil.
  destruct (decide _) as [[]|_]. by rewrite app_nil_r.
Qed.

(** C9, as the code has it.  Let the user interrupt while [handle_futures]
    is in its loop, every call that returned so far having succeeded.  Then
    [handle_futures] logs that it aborts, cancels every future no worker has
    picked up (running and finished ones stay as they are) and raises
    [KeyboardInterrupt].  [add_cases] and [add_results] let the interrupt
    through once the pool is shut down: they raise it too, they retrieve
    nothing, and the data provider sees no [update_data] call. *)
Theorem interrupt_cancels_and_is_raised_again (K : Constants) (R : Runtime)
    (environment : Environment) (pre rest : list PoolEvent) :
  let aborting action_string :=
    EvLog (Format "\nAborting: {action_string}. Trying to cancel scheduled tasks."
             [("action_string", PStr action_string)]) in
  (∀ (max_workers : nat) (action_string : string) (responses : list Response) (w w1 : World),
     as_completed_loop R max_workers action_string pre [] w = (Ret (Continue responses), w1) →
     handle_futures R max_workers action_string (pre ++ Sigint :: rest) w
     = (Raise KeyboardInterrupt,
        mkWorld (w_trace w1 ++ [aborting action_string]) (w_provider w1)
          (map cancel (w_futures w1))))
  ∧ (∀ (futures : list Future) (responses : list Response) (w w1 : World),
       MAX_WORKERS_ADD_CASE K ≠ 0%nat →
       mapM case_future (add_cases_data R (w_provider w)) = Some futures →
       as_completed_loop R (MAX_WORKERS_ADD_CASE K) "add_case" pre []
         (mkWorld (w_trace w) (w_provider w) futures)
       = (Ret (Continue responses), w1) →
       ∃ w2, add_cases K R (pre ++ Sigint :: rest) w = (Raise KeyboardInterrupt, w2)
             ∧ quiet w w2)
  ∧ (∀ (run_id : PyVal) (amounts : list nat) (responses : list Response) (w w1 : World),
       let chunks := add_results_for_cases_data R (w_provider w) (batch_size environment) in
       MAX_WORKERS_ADD_RESULTS K ≠ 0%nat →
       mapM (λ results, r ← py_getitem (PDict results) "results"; py_len r) chunks
       = inr amounts →
       as_completed_loop R (MAX_WORKERS_ADD_RESULTS K) "add_results" pre []
         (mkWorld (w_trace w) (w_provider w) (map (results_future run_id) chunks))
       = (Ret (Continue responses), w1) →
       ∃ w2, add_results K R environment run_id (pre ++ Sigint :: rest) w
             = (Raise KeyboardInterrupt, w2)
             ∧ quiet w w2).
Proof.
  intros aborting. split; [| split].
  - intros max_workers action_string responses w w1 Hpre.
    eapply handle_futures_interrupted. exact Hpre.
  - intros futures responses w w1 Hworkers Hsubmit Hpre.
    destruct (submit_cases_run _ futures (mkWorld (w_trace w) (w_provider w) []) Hsubmit)
      as [units Hunits]. simpl in Hunits.
    edestruct (with_executor_raises R (MAX_WORKERS_ADD_CASE K)
                 (mapM (submit_case) (add_cases_data R (w_provider w));;
                  handle_futures R (MAX_WORKERS_ADD_CASE K) "add_case"
                    (pre ++ Sigint :: rest))
                 KeyboardInterrupt w) as (w2 & Hrun & Hquiet); [exact Hworkers | |].
    { unfold mbind at 1. unfold M_bind at 1. rewrite Hunits.
      eapply handle_futures_interrupted. exact Hpre. }
    exists w2. split.
    + unfold add_cases. unfold mbind at 1. unfold M_bind at 1. unfold get_provider.
      unfold mbind at 1. unfold M_bind at 1. by rewrite Hrun.
    + eapply quiet_trans; [| exact Hquiet]. apply quiet_aborted.
      pose proof (quiet_as_completed_loop R (MAX_WORKERS_ADD_CASE K) "add_case" pre []
                    (mkWorld (w_trace w) (w_provider w) futures)) as Hq.
      rewrite Hpre in Hq. exact Hq.
  - intros run_id amounts responses w w1 chunks Hworkers Hamounts Hpre.
    destruct (submit_results_run run_id chunks (mkWorld (w_trace w) (w_provider w) []))
      as [units Hunits]. simpl in Hunits.
    edestruct (with_executor_raises R (MAX_WORKERS_ADD_RESULTS K)
                 (mapM (submit (add_results_for_cases run_id)) chunks;;
                  handle_futures R (MAX_WORKERS_ADD_RESULTS K) "add_results"
                    (pre ++ Sigint :: rest))
                 KeyboardInterrupt w) as (w2 & Hrun & Hquiet); [exact Hworkers | |].
    { unfold mbind at 1. unfold M_bind at 1. rewrite Hunits.
      eapply handle_futures_interrupted. exact Hpre. }
    exists w2. split.
    + unfold add_results. unfold mbind at 1. unfold M_bind at 1. unfold get_provider.
      fold chunks. rewrite Hamounts.
      unfold mbind at 1. unfold M_bind at 1. unfold lift at 1. unfold mret at 1.
      unfold M_ret at 1.
      unfold mbind at 1. unfold M_bind at 1. by rewrite Hrun.
    + eapply quiet_trans; [| exact Hquiet]. apply quiet_aborted.
      pose proof (quiet_as_completed_loop R (MAX_WORKERS_ADD_RESULTS K) "add_results" pre []
                    (mkWorld (w_trace w) (w_provider w) (map (results_future run_id) chunks)))
        as Hq.
      rewrite Hpre in Hq. exact Hq.
Qed.

(** A run of C9: the first of three units has returned when the user
    interrupts. *)
Lemma interrupt_cancels_and_is_raised_again_witness :
  (∃ w2, add_cases Sample.constants (Sample.serving Sample.three_bodies)
           ([Start 0; Finish 0] ++ Sigint :: [Start 1]) (Sample.world (Some 4))
         = (Raise KeyboardInterrupt, w2)
         ∧ quiet (Sample.world (Some 4)) w2)
  ∧ (∃ w2, add_results Sample.constants (Sample.serving Sample.three_chunks)
             Sample.environment (PInt 9)
             ([Start 0; Finish 0] ++ Sigint :: [Start 1]) (Sample.world (Some 4))
           = (Raise KeyboardInterrupt, w2)
           ∧ quiet (Sample.world (Some 4)) w2).
Proof.
  split.
  - pose proof (interrupt_cancels_and_is_raised_again Sample.constants
                  (Sample.serving Sample.three_bodies) Sample.environment
                  [Start 0; Finish 0] [Start 1]) as (_ & Hcases & _).
    eapply Hcases; [discriminate | vm_compute; reflexivity | vm_compute; reflexivity].
  - pose proof (interrupt_cancels_and_is_raised_again Sample.constants
                  (Sample.serving Sample.three_chunks) Sample.environment
                  [Start 0; Finish 0] [Start 1]) as (_ & _ & Hchunks).
    eapply Hchunks; [discriminate | vm_compute; reflexivity | vm_compute; reflexivity].
Defined.

(** C9 as the spec has it fails.  The first of three cases was created
    (its call returned id 100) when the user interrupts: [add_cases] raises
    [KeyboardInterrupt] and hands nothing back, the created case is in no
    [update_data] call, and the data provider is as it was. *)
Lemma interrupt_salvages_nothing :
  let run := add_cases Sample.constants (Sample.serving Sample.three_bodies)
               [Start 0; Finish 0; Sigint] (Sample.world (Some 4)) in
  fst run = Raise KeyboardInterrupt
  ∧ map fut_state (w_futures (snd run)) = [FINISHED; CANCELLED; CANCELLED]
  ∧ (returned_id <$> (w_futures (snd run) !! 0%nat ≫= fut_result)) = Some (Some (PInt 100))
  ∧ (error_message <$> (w_futures (snd run) !! 0%nat ≫= fut_result)) = Some ""
  ∧ filter is_update (w_trace (snd run)) = []
  ∧ w_provider (snd run) = w_provider (Sample.world (Some 4)).
Proof. vm_compute. repeat split; reflexivity. Qed.

(** *** A failing unit *)

(** The salvage pass keeps the response of every future that is not
    cancelled, whether its call succeeded or not. *)
Lemma retrieve_results_after_cancelling_spec (futures : list Future) (response : Response) :
  response ∈ retrieve_results_after_cancelling futures
  ↔ ∃ future, future ∈ futures ∧ fut_state future ≠ CANCELLED
              ∧ fut_result future = Some response.
Proof.
  unfold retrieve_results_after_cancelling. rewrite list_elem_of_In, in_flat_map.
  split.
  - intros (future & Hin & Hresponse). exists future.
    apply list_elem_of_In in Hin. split; [exact Hin|].
    unfold cancelled in Hresponse. case_bool_decide; simpl in Hresponse; [destruct Hresponse|].
    split; [assumption|].
    destruct (fut_result future) as [r|]; simpl in Hresponse; [|destruct Hresponse].
    destruct Hresponse as [<-|[]]. reflexivity.
  - intros (future & Hin & Hstate & Hresult). exists future.
    apply list_elem_of_In in Hin. split; [exact Hin|].
    unfold cancelled. case_bool_decide; [done|]. simpl. rewrite Hresult. simpl. by left.
Qed.

(** So the response of the unit that failed, which is finished, is salvaged
    with the rest. *)
Lemma failed_unit_is_salvaged (futures : list Future) (k : nat) (future : Future)
    (response : Response) :
  futures !! k = Some future →
  fut_state future = FINISHED →
  fut_result future = Some response →
  error_message response ≠ "" →
  response ∈ retrieve_results_after_cancelling futures.
Proof.
  intros Hk Hstate Hresult _. apply retrieve_results_after_cancelling_spec.
  exists future. split; [by eapply list_elem_of_lookup_2|].
  split; [by rewrite Hstate | exact Hresult].
Qed.

(** C1, at a failing input.  Three chunks of results are submitted; the
    first two are picked up, the first succeeds, the second is refused, and
    the third is cancelled before it starts.  [handle_futures] hands back the
    first response alone, with the error of the second; the salvage pass then
    replaces it by the responses of both finished units, so the body of the
    refused chunk is among what [add_results] returns as completed. *)
Theorem completed_set_holds_the_failed_unit :
  let R := Sample.serving Sample.refused_chunks in
  let schedule := [Start 0; Start 1; Finish 0; Finish 1] in
  let path := add_results_for_cases (PInt 9) in
  let created := send_post R [] path (Sample.chunk "a") in
  let refused := send_post R [EvPost path (Sample.chunk "a")] path (Sample.chunk "broken") in
  let submitted := mkWorld [] (Sample.provider (Some 4))
                     (map (results_future (PInt 9)) Sample.refused_chunks) in
  let run := add_results Sample.constants R Sample.environment (PInt 9) schedule
               (Sample.world (Some 4)) in
  error_message created = ""
  ∧ error_message refused = "Field :title is a required field."
  ∧ fst (handle_futures R 10 "add_results" schedule submitted)
    = Ret ([created], "Field :title is a required field.")
  ∧ fst run
    = Ret ([response_text created; response_text refused],
           "Field :title is a required field.")
  ∧ map fut_state (w_futures (snd run)) = [FINISHED; FINISHED; CANCELLED].
Proof. vm_compute. repeat split; reflexivity. Qed.

(** C5, at a failing input.  Three cases are submitted; the first two are
    picked up, the first is created with id 100, the second is refused, and
    the third is cancelled before it starts.  The salvage pass hands both
    finished responses to the list of returned resources, the refused one has
    no id, and [add_cases] raises [KeyError]: no [update_data] call is made,
    and the data provider is as it was, without the case that was created. *)
Theorem failed_batch_of_cases_merges_nothing :
  let run := add_cases Sample.constants (Sample.serving Sample.refused_bodies)
               [Start 0; Start 1; Finish 0; Finish 1] (Sample.world (Some 4)) in
  fst run = Raise (KeyError "id")
  ∧ map fut_state (w_futures (snd run)) = [FINISHED; FINISHED; CANCELLED]
  ∧ (returned_id <$> (w_futures (snd run) !! 0%nat ≫= fut_result)) = Some (Some (PInt 100))
  ∧ (error_message <$> (w_futures (snd run) !! 0%nat ≫= fut_result)) = Some ""
  ∧ (error_message <$> (w_futures (snd run) !! 1%nat ≫= fut_result))
    = Some "Field :title is a required field."
  ∧ filter is_update (w_trace (snd run)) = []
  ∧ w_provider (snd run) = w_provider (Sample.world (Some 4)).
Proof. vm_compute. repeat split; reflexivity. Qed.

(** *** What a failed batch returns *)



Lemma pool_start_none_waiting (R : Runtime) (max_workers i : nat) (w : World) :
  Forall (λ future, fut_state future ≠ PENDING) (w_futures w) →
  pool_start R max_workers i w = (Ret tt, w).
Proof.
  intros Hnone. unfold pool_start.
  unfold mbind at 1. unfold M_bind at 1. unfold get_futures.
  destruct (w_futures w !! i) as [future|] eqn:Hi; [|reflexivity].
  destruct (decide _) as [[Hstate _]|_]; [|reflexivity].
  apply list_elem_of_lookup_2 in Hi.
  rewrite Forall_forall in Hnone. by apply Hnone in Hi.
Qed.


Lemma pool_finish_run (i : nat) (w : World) :
  pool_finish i w
  = match w_futures w !! i with
    | Some future =>
        if decide (fut_state future = RUNNING) then
          let done :=
            mkFuture (fut_path future) (fut_body future) FINISHED (fut_result future) in
          (Ret (Some done),
           mkWorld (w_trace w) (w_provider w) (<[i := done]> (w_futures w)))
        else (Ret None, w)
    | None => (Ret None, w)
    end.
Proof.
  unfold pool_finish. unfold_monad.
  destruct (w_futures w !! i) as [future|]; [|reflexivity].
  destruct (decide (fut_state future = RUNNING)); reflexivity.
Qed.









(** * More of the two modules *)

(** ** The checks for missing sections and test cases *)

Lemma check_missing_section_ids_run (R : Runtime) (project_id : Z) (w : World) :
  let suite := suite_id (w_provider w) in
  let remote := send_get_sections R (w_trace w) project_id suite in
  check_missing_section_ids R project_id w
  = (Ret (if str_truthy (error_message remote) then []
          else elements ((list_to_set (map section_id (testsections (w_provider w)))
                          : gset (option Z))
                         ∖ list_to_set (response_text remote)),
          error_message remote),
     after w [EvGet (get_sections project_id suite)]).
Proof.
  intros suite remote. unfold check_missing_section_ids. unfold_monad.
  rewrite send_get_run. fold suite remote.
  destruct (str_truthy (error_message remote)); reflexivity.
Qed.

Lemma check_missing_test_cases_ids_run (R : Runtime) (project_id : Z) (w : World) :
  let suite := suite_id (w_provider w) in
  let remote := send_get_cases R (w_trace w) project_id suite in
  check_missing_test_cases_ids R project_id w
  = (Ret (if str_truthy (error_message remote) then []
          else elements ((list_to_set
                            (flat_map (λ sections, map case_id (testcases sections))
                               (testsections (w_provider w)))
                          : gset (option Z))
                         ∖ list_to_set (response_text remote)),
          error_message remote),
     after w [EvGet (get_cases project_id suite)]).
Proof.
  intros suite remote. unfold check_missing_test_cases_ids. unfold_monad.
  rewrite send_get_run. fold suite remote.
  destruct (str_truthy (error_message remote)); reflexivity.
Qed.

Lemma elements_difference_spec (local remote : list (option Z)) :
  NoDup (elements ((list_to_set local : gset (option Z)) ∖ list_to_set remote))
  ∧ ∀ id, id ∈ elements ((list_to_set local : gset (option Z)) ∖ list_to_set remote)
          ↔ id ∈ local ∧ id ∉ remote.
Proof.
  split; [apply NoDup_elements|].
  intros id. rewrite elem_of_elements, elem_of_difference, !elem_of_list_to_set.
  reflexivity.
Qed.

(** The missing ids.  When the listing succeeds, [check_missing_section_ids]
    and [check_missing_test_cases_ids] hand back, without an error, each local
    id that the remote listing does not hold, once, however often the parsed
    input repeats it, and nothing else.  A section or case the input gives no
    id counts as the id [None], missing unless a remote entry has no id
    either. *)
Theorem missing_ids_are_the_local_ids_absent_remotely (R : Runtime) (project_id : Z)
    (w : World) :
  let suite := suite_id (w_provider w) in
  (let remote := send_get_sections R (w_trace w) project_id suite in
   error_message remote = "" →
   ∃ missing,
     check_missing_section_ids R project_id w
     = (Ret (missing, ""), after w [EvGet (get_sections project_id suite)])
     ∧ NoDup missing
     ∧ ∀ id, id ∈ missing
             ↔ id ∈ map section_id (testsections (w_provider w))
               ∧ id ∉ response_text remote)
  ∧ (let remote := send_get_cases R (w_trace w) project_id suite in
     error_message remote = "" →
     ∃ missing,
       check_missing_test_cases_ids R project_id w
       = (Ret (missing, ""), after w [EvGet (get_cases project_id suite)])
       ∧ NoDup missing
       ∧ ∀ id, id ∈ missing
               ↔ (∃ section, section ∈ testsections (w_provider w)
                             ∧ id ∈ map case_id (testcases section))
                 ∧ id ∉ response_text remote).
Proof.
  intros suite. split; intros remote Herror.
  - eexists. rewrite check_missing_section_ids_run. fold suite remote.
    rewrite Herror. simpl. split; [reflexivity|]. apply elements_difference_spec.
  - eexists. rewrite check_missing_test_cases_ids_run. fold suite remote.
    rewrite Herror. simpl. split; [reflexivity|].
    destruct (elements_difference_spec
                (flat_map (λ sections, map case_id (testcases sections))
                   (testsections (w_provider w))) (response_text remote)) as [Hnodup Hin].
    split; [exact Hnodup|]. intros id. rewrite Hin.
    rewrite list_elem_of_In, in_flat_map.
    split; intros [(section & Hsection & Hid) Hremote]; (split; [|exact Hremote]);
      exists section; rewrite ?list_elem_of_In in *; tauto.
Qed.

(** A run of it against [Sample.behind]: section 8 and case 71 are missing. *)
Lemma missing_ids_witness :
  (∃ missing,
     check_missing_section_ids (Sample.behind true) 1 (Sample.world (Some 4))
     = (Ret (missing, ""), after (Sample.world (Some 4)) [EvGet (get_sections 1 (Some 4))])
     ∧ NoDup missing
     ∧ ∀ id, id ∈ missing ↔ id ∈ [Some 7; Some 8] ∧ id ∉ [Some 7])
  ∧ (∃ missing,
       check_missing_test_cases_ids (Sample.behind true) 1 (Sample.world (Some 4))
       = (Ret (missing, ""), after (Sample.world (Some 4)) [EvGet (get_cases 1 (Some 4))])
       ∧ NoDup missing
       ∧ ∀ id, id ∈ missing
               ↔ (∃ section, section ∈ testsections (Sample.provider (Some 4))
                             ∧ id ∈ map case_id (testcases section))
                 ∧ id ∉ [Some 70; Some 99]).
Proof.
  pose proof (missing_ids_are_the_local_ids_absent_remotely (Sample.behind true) 1
                (Sample.world (Some 4))) as [Hsections Hcases].
  split.
  - apply Hsections. reflexivity.
  - apply Hcases. reflexivity.
Defined.

(** ** Asking before creating *)

Lemma prompt_run (R : Runtime) (m : Message) (w : World) :
  prompt R m w
  = (Ret (get_prompt_response_for_auto_creation R (w_trace w) m), after w [EvPrompt m]).
Proof. reflexivity. Qed.

Lemma log_run (m : Message) (w : World) : log m w = (Ret tt, after w [EvLog m]).
Proof. reflexivity. Qed.

Lemma prompt_user_and_add_items_declined (R : Runtime)
    (prompt_message adding_message fault_message : Message)
    (add_function : option Z → M (list Dict * string)) (project_id : option Z) (w : World) :
  get_prompt_response_for_auto_creation R (w_trace w) prompt_message = false →
  _ResultsUploader__prompt_user_and_add_items R prompt_message adding_message fault_message
    add_function project_id w
  = (Ret ([], -1), after w [EvPrompt prompt_message; EvLog fault_message]).
Proof.
  intros Hanswer. unfold _ResultsUploader__prompt_user_and_add_items.
  unfold mbind at 1. unfold M_bind at 1. rewrite prompt_run, Hanswer.
  unfold mbind at 1. unfold M_bind at 1. rewrite log_run.
  unfold mret, M_ret. by rewrite after_after.
Qed.

Lemma prompt_user_and_add_items_agreed (R : Runtime)
    (prompt_message adding_message fault_message : Message)
    (add_function : option Z → M (list Dict * string)) (project_id : option Z) (w : World) :
  get_prompt_response_for_auto_creation R (w_trace w) prompt_message = true →
  _ResultsUploader__prompt_user_and_add_items R prompt_message adding_message fault_message
    add_function project_id w
  = match add_function (if optint_truthy project_id then project_id else None)
            (after w [EvPrompt prompt_message; EvLog adding_message]) with
    | (Ret (added_items, error), w') =>
        if str_truthy error then (Ret (added_items, -1), after w' [EvLog (Text error)])
        else (Ret (added_items, 1), w')
    | (Raise e, w') => (Raise e, w')
    end.
Proof.
  intros Hanswer. unfold _ResultsUploader__prompt_user_and_add_items.
  unfold mbind at 1. unfold M_bind at 1. rewrite prompt_run, Hanswer.
  unfold mbind at 1. unfold M_bind at 1. rewrite log_run, after_after. simpl.
  unfold mbind at 1. unfold M_bind at 1.
  replace (if optint_truthy project_id then add_function project_id else add_function None)
    with (add_function (if optint_truthy project_id then project_id else None))
    by (by destruct (optint_truthy project_id)).
  destruct (add_function _ _) as [[[added_items error]|e] w']; [|reflexivity].
  destruct (str_truthy error); [|reflexivity].
  unfold mbind at 1. unfold M_bind at 1. rewrite log_run. reflexivity.
Qed.

Lemma missing_ids_truthy (local remote : list (option Z)) :
  (∃ id, id ∈ local ∧ id ∉ remote) →
  list_truthy (elements ((list_to_set local : gset (option Z)) ∖ list_to_set remote)) = true.
Proof.
  intros (id & Hlocal & Hremote).
  destruct (elements_difference_spec local remote) as [_ Hin].
  destruct (elements _) as [|first rest]; [|reflexivity].
  assert (Hid : id ∈ @nil (option Z)) by (apply Hin; by split).
  by apply elem_of_nil in Hid.
Qed.

(** A user who says no.  When suite resolution (no suite pinned, multiple
    suites mode), the section stage or the case stage has something to create
    and the user declines, the stage does three things and no more: the
    listing request of its check (the suite stage has none), the question, and
    the no_user_agreement log line.  It returns result code -1 with nothing
    added, and no create call is made. *)
Theorem declined_creation_creates_nothing (K : Constants) (R : Runtime)
    (environment : Environment) (project_id suite_mode : Z) (schedule : list PoolEvent)
    (w : World) :
  let suite := suite_id (w_provider w) in
  let refusal type := EvLog (Format (FAULT_MAPPING K "no_user_agreement") [("type", PStr type)]) in
  let question key :=
    Format (PROMPT_MESSAGES K key) [("project_name", PStr (project environment))] in
  (let suite_question :=
     Format (PROMPT_MESSAGES K "create_new_suite")
       [("suite_name", PStr (name (w_provider w)));
        ("project_name", PStr (project environment))] in
   optint_truthy suite = false →
   suite_mode = multiple_suites K →
   get_prompt_response_for_auto_creation R (w_trace w) suite_question = false →
   _ResultsUploader__get_suite_id K R environment project_id suite_mode w
   = (Ret (PInt (-1), -1), after w [EvPrompt suite_question; refusal "suite"]))
  ∧ (let remote := send_get_sections R (w_trace w) project_id suite in
     let listing := EvGet (get_sections project_id suite) in
     error_message remote = "" →
     (∃ id, id ∈ map section_id (testsections (w_provider w)) ∧ id ∉ response_text remote) →
     get_prompt_response_for_auto_creation R (w_trace w ++ [listing])
       (question "create_missing_sections") = false →
     _ResultsUploader__add_missing_sections K R environment project_id w
     = (Ret ([], -1),
        after w [listing; EvPrompt (question "create_missing_sections"); refusal "sections"]))
  ∧ (let remote := send_get_cases R (w_trace w) project_id suite in
     let listing := EvGet (get_cases project_id suite) in
     error_message remote = "" →
     (∃ id, id ∈ flat_map (λ sections, map case_id (testcases sections))
                   (testsections (w_provider w))
            ∧ id ∉ response_text remote) →
     get_prompt_response_for_auto_creation R (w_trace w ++ [listing])
       (question "create_missing_test_cases") = false →
     _ResultsUploader__add_missing_test_cases K R environment project_id schedule w
     = (Ret ([], -1),
        after w [listing; EvPrompt (question "create_missing_test_cases");
                 refusal "test cases"])).
Proof.
  intros suite refusal question. split; [| split].
  - intros suite_question Hpin Hmode Hanswer.
    unfold _ResultsUploader__get_suite_id.
    unfold mbind at 1. unfold M_bind at 1. unfold get_provider.
    fold suite. rewrite Hpin. simpl. rewrite decide_True by exact Hmode.
    unfold mbind at 1. unfold M_bind at 1.
    rewrite prompt_user_and_add_items_declined by exact Hanswer. reflexivity.
  - intros remote listing Herror Hmissing Hanswer.
    unfold _ResultsUploader__add_missing_sections.
    unfold mbind at 1. unfold M_bind at 1. rewrite check_missing_section_ids_run.
    fold suite remote. rewrite Herror. simpl.
    rewrite missing_ids_truthy by exact Hmissing.
    rewrite prompt_user_and_add_items_declined by exact Hanswer.
    by rewrite after_after.
  - intros remote listing Herror Hmissing Hanswer.
    unfold _ResultsUploader__add_missing_test_cases.
    unfold mbind at 1. unfold M_bind at 1. rewrite check_missing_test_cases_ids_run.
    fold suite remote. rewrite Herror. simpl.
    rewrite missing_ids_truthy by exact Hmissing.
    rewrite prompt_user_and_add_items_declined by exact Hanswer.
    by rewrite after_after.
Qed.

(** A run of it against [Sample.behind false]. *)
Lemma declined_creation_witness :
  _ResultsUploader__get_suite_id Sample.constants (Sample.behind false) Sample.environment
    1 3 (Sample.world None)
  = (Ret (PInt (-1), -1),
     after (Sample.world None)
       [EvPrompt (Format "create_new_suite"
                    [("suite_name", PStr "Parsed suite"); ("project_name", PStr "Demo")]);
        EvLog (Format "no_user_agreement" [("type", PStr "suite")])])
  ∧ _ResultsUploader__add_missing_sections Sample.constants (Sample.behind false)
      Sample.environment 1 (Sample.world (Some 4))
    = (Ret ([], -1),
       after (Sample.world (Some 4))
         [EvGet (get_sections 1 (Some 4));
          EvPrompt (Format "create_missing_sections" [("project_name", PStr "Demo")]);
          EvLog (Format "no_user_agreement" [("type", PStr "sections")])])
  ∧ _ResultsUploader__add_missing_test_cases Sample.constants (Sample.behind false)
      Sample.environment 1 [] (Sample.world (Some 4))
    = (Ret ([], -1),
       after (Sample.world (Some 4))
         [EvGet (get_cases 1 (Some 4));
          EvPrompt (Format "create_missing_test_cases" [("project_name", PStr "Demo")]);
          EvLog (Format "no_user_agreement" [("type", PStr "test cases")])]).
Proof.
  split; [| split].
  - apply (declined_creation_creates_nothing Sample.constants (Sample.behind false)
             Sample.environment 1 3 [] (Sample.world None)); reflexivity.
  - apply (declined_creation_creates_nothing Sample.constants (Sample.behind false)
             Sample.environment 1 3 [] (Sample.world (Some 4)));
      [reflexivity | | reflexivity].
    exists (Some 8). rewrite !list_elem_of_In. vm_compute. intuition discriminate.
  - apply (declined_creation_creates_nothing Sample.constants (Sample.behind false)
             Sample.environment 1 3 [] (Sample.world (Some 4)));
      [reflexivity | | reflexivity].
    exists (Some 71). rewrite !list_elem_of_In. vm_compute. intuition discriminate.
Defined.

(** ** Suite resolution from the listing *)

Lemma get_suite_ids_run (R : Runtime) (project_id : Z) (w : World) :
  let response := send_get_suites R (w_trace w) project_id in
  get_suite_ids R project_id w
  = if str_truthy (error_message response)
    then (Ret ([], error_message response), after w [EvGet (get_suites project_id)])
    else (Ret (map s_id (response_text response), ""),
          merged R suite_data (map listed_suite (response_text response))
            (after w [EvGet (get_suites project_id)])).
Proof.
  intros response. unfold get_suite_ids.
  unfold mbind at 1. unfold M_bind at 1. rewrite send_get_run. fold response.
  destruct (str_truthy (error_message response)); simpl.
  - unfold mbind at 1. unfold M_bind at 1. rewrite update_data_if_any_run. reflexivity.
  - unfold mbind at 1. unfold M_bind at 1. rewrite update_data_if_any_run. reflexivity.
Qed.

(** Suite resolution without a pinned suite, in the two modes that read the
    listing.  In single-suite mode the first listed suite is taken, however
    many there are.  In single-suite-with-baselines mode a single listed suite
    is taken, and two or more give -1 with the not-unique log line.  A listing
    that fails gives -1 with its error logged, in both modes.  Whenever the
    listing succeeds with at least one suite, every listed suite is merged
    into the data provider before the result is decided, also when the result
    is the failure. *)
Theorem suite_resolution_from_the_listing (K : Constants) (R : Runtime)
    (environment : Environment) (project_id suite_mode : Z) (w : World) :
  let listing := EvGet (get_suites project_id) in
  let response := send_get_suites R (w_trace w) project_id in
  let merge := merged R suite_data (map listed_suite (response_text response))
                 (after w [listing]) in
  optint_truthy (suite_id (w_provider w)) = false →
  suite_mode ≠ multiple_suites K →
  (∀ first rest,
     suite_mode = single_suite K → suite_mode ≠ single_suite_baselines K →
     error_message response = "" → response_text response = first :: rest →
     _ResultsUploader__get_suite_id K R environment project_id suite_mode w
     = (Ret (PInt (s_id first), 1), merge))
  ∧ (∀ only,
       suite_mode = single_suite_baselines K →
       error_message response = "" → response_text response = [only] →
       _ResultsUploader__get_suite_id K R environment project_id suite_mode w
       = (Ret (PInt (s_id only), 1), merge))
  ∧ (∀ first second rest,
       suite_mode = single_suite_baselines K →
       error_message response = "" → response_text response = first :: second :: rest →
       _ResultsUploader__get_suite_id K R environment project_id suite_mode w
       = (Ret (PInt (-1), -1),
          after merge
            [EvLog (Format (FAULT_MAPPING K "not_unique_suite_id_single_suite_baselines")
                      [("project_name", PStr (project environment))])]))
  ∧ (suite_mode = single_suite_baselines K ∨ suite_mode = single_suite K →
     error_message response ≠ "" →
     _ResultsUploader__get_suite_id K R environment project_id suite_mode w
     = (Ret (PInt (-1), -1), after w [listing; EvLog (Text (error_message response))])).
Proof.
  intros listing response merge Hpin Hmulti.
  assert (Hstart : _ResultsUploader__get_suite_id K R environment project_id suite_mode w
    = (if decide (suite_mode = single_suite_baselines K)
       then
         '(suite_ids, error_message) ← get_suite_ids R project_id;
         if str_truthy error_message
         then log (Text error_message);; mret (PInt (-1), -1)
         else
           if decide (1 < length suite_ids)%nat
           then
             log (Format (FAULT_MAPPING K "not_unique_suite_id_single_suite_baselines")
                    [("project_name", PStr (project environment))]);;
             mret (PInt (-1), -1)
           else suite_id ← lift (list_first suite_ids); mret (PInt suite_id, 1)
       else
         if decide (suite_mode = single_suite K)
         then
           '(suite_ids, error_message) ← get_suite_ids R project_id;
           if str_truthy error_message
           then log (Text error_message);; mret (PInt (-1), -1)
           else suite_id ← lift (list_first suite_ids); mret (PInt suite_id, 1)
         else
           log (Format (FAULT_MAPPING K "unknown_suite_mode")
                  [("suite_mode", PInt suite_mode)]);;
           mret (PInt (-1), -1)) w).
  { unfold _ResultsUploader__get_suite_id.
    unfold mbind at 1. unfold M_bind at 1. unfold get_provider.
    rewrite Hpin. simpl. by rewrite decide_False by exact Hmulti. }
  rewrite Hstart. clear Hstart.
  split; [| split; [| split]].
  - intros first rest Hmode Hnot Herror Htext.
    rewrite decide_False by exact Hnot. rewrite decide_True by exact Hmode.
    unfold mbind at 1. unfold M_bind at 1. rewrite get_suite_ids_run.
    fold response. rewrite Herror. simpl. unfold merge. rewrite Htext. reflexivity.
  - intros only Hmode Herror Htext.
    rewrite decide_True by exact Hmode.
    unfold mbind at 1. unfold M_bind at 1. rewrite get_suite_ids_run.
    fold response. rewrite Herror. simpl. unfold merge. rewrite Htext. reflexivity.
  - intros first second rest Hmode Herror Htext.
    rewrite decide_True by exact Hmode.
    unfold mbind at 1. unfold M_bind at 1. rewrite get_suite_ids_run.
    fold response. rewrite Herror. simpl. unfold merge. rewrite Htext. simpl.
    unfold mbind at 1. unfold M_bind at 1. rewrite log_run. reflexivity.
  - intros Hmode Herror. apply str_truthy_true in Herror.
    destruct (decide (suite_mode = single_suite_baselines K)) as [|Hnot].
    + unfold mbind at 1. unfold M_bind at 1. rewrite get_suite_ids_run.
      fold response. rewrite Herror. simpl. rewrite Herror.
      unfold mbind at 1. unfold M_bind at 1. rewrite log_run, after_after. reflexivity.
    + destruct Hmode as [|Hmode]; [done|]. rewrite decide_True by exact Hmode.
      unfold mbind at 1. unfold M_bind at 1. rewrite get_suite_ids_run.
      fold response. rewrite Herror. simpl. rewrite Herror.
      unfold mbind at 1. unfold M_bind at 1. rewrite log_run, after_after. reflexivity.
Qed.

Lemma suite_resolution_from_the_listing_witness :
  _ResultsUploader__get_suite_id Sample.constants Sample.two_suites Sample.environment
    1 1 (Sample.world None)
  = (Ret (PInt 1, 1),
     merged Sample.two_suites suite_data
       [listed_suite (mkSuite 1 "Master"); listed_suite (mkSuite 2 "Other")]
       (after (Sample.world None) [EvGet (get_suites 1)]))
  ∧ _ResultsUploader__get_suite_id Sample.constants Sample.two_suites Sample.environment
      1 2 (Sample.world None)
    = (Ret (PInt (-1), -1),
       after
         (merged Sample.two_suites suite_data
            [listed_suite (mkSuite 1 "Master"); listed_suite (mkSuite 2 "Other")]
            (after (Sample.world None) [EvGet (get_suites 1)]))
         [EvLog (Format "not_unique_suite_id_single_suite_baselines"
                   [("project_name", PStr "Demo")])])
  ∧ _ResultsUploader__get_suite_id Sample.constants Sample.suites_time_out
      Sample.environment 1 1 (Sample.world None)
    = (Ret (PInt (-1), -1),
       after (Sample.world None) [EvGet (get_suites 1); EvLog (Text "Timed out")]).
Proof.
  split; [| split].
  - apply (proj1 (suite_resolution_from_the_listing Sample.constants Sample.two_suites
                    Sample.environment 1 1 (Sample.world None) eq_refl
                    ltac:(compute; discriminate))
             (mkSuite 1 "Master") [mkSuite 2 "Other"]);
      try reflexivity; compute; discriminate.
  - apply (proj1 (proj2 (proj2 (suite_resolution_from_the_listing Sample.constants
                    Sample.two_suites Sample.environment 1 2 (Sample.world None) eq_refl
                    ltac:(compute; discriminate))))
             (mkSuite 1 "Master") (mkSuite 2 "Other") []); reflexivity.
  - apply (proj2 (proj2 (proj2 (suite_resolution_from_the_listing Sample.constants
                    Sample.suites_time_out Sample.environment 1 1 (Sample.world None)
                    eq_refl ltac:(compute; discriminate)))));
      [right; reflexivity | compute; discriminate].
Defined.

(** ** The project stage of an upload *)

Lemma get_project_id_run (K : Constants) (R : Runtime) (project_name : string) (w : World) :
  let response := send_get_projects R (w_trace w) in
  let matching :=
    filter (λ project, p_name project = project_name) (response_text response) in
  get_project_id K R project_name w
  = (Ret (if str_truthy (error_message response)
          then mkProjectData (other_error K) (-1) (error_message response)
          else
            match matching with
            | [] => mkProjectData (not_existing_project K) (-1)
                      (project_name ++ " " ++ FAULT_MAPPING K "project_doesnt_exists")
            | [found] => mkProjectData (p_id found) (p_suite_mode found) ""
            | _ :: _ :: _ => mkProjectData (multiple_project_same_name K) (-1)
                               (FAULT_MAPPING K "more_than_one_project")
            end),
     after w [EvGet get_projects]).
Proof.
  intros response matching.
  unfold get_project_id. unfold_monad. rewrite send_get_run. fold response.
  destruct (str_truthy (error_message response)) eqn:Herror; simpl; [reflexivity|].
  apply str_truthy_false in Herror. fold matching.
  destruct matching as [|found [|second rest]]; simpl; [| rewrite Herror |]; reflexivity.
Qed.

(** When the project list cannot be fetched, or holds no project of the
    configured name, [upload_results] ends by [exit(1)] after that one request
    and one log line: the client's error inside the error_checking_project
    template in the first case, the project name followed by the
    project_doesnt_exists text in the second.  The two error codes of
    [ProjectErrors] have to differ for the first case to be told apart. *)
Theorem upload_ends_at_an_unresolved_project (K : Constants) (R : Runtime)
    (environment : Environment) (schedule_cases schedule_results : list PoolEvent)
    (w : World) :
  let response := send_get_projects R (w_trace w) in
  let matching :=
    filter (λ found, p_name found = project environment) (response_text response) in
  other_error K ≠ not_existing_project K →
  (error_message response ≠ "" →
   upload_results K R environment schedule_cases schedule_results w
   = (Raise (SystemExit 1),
      after w [EvGet get_projects;
               EvLog (Format (FAULT_MAPPING K "error_checking_project")
                        [("error_message", PStr (error_message response))])]))
  ∧ (error_message response = "" → matching = [] →
     upload_results K R environment schedule_cases schedule_results w
     = (Raise (SystemExit 1),
        after w [EvGet get_projects;
                 EvLog (Text (project environment ++ " "
                              ++ FAULT_MAPPING K "project_doesnt_exists"))])).
Proof.
  intros response matching Hcodes. split.
  - intros Herror. apply str_truthy_true in Herror.
    unfold upload_results. unfold mbind at 1. unfold M_bind at 1.
    rewrite get_project_id_run. fold response. rewrite Herror. simpl.
    rewrite decide_False by exact Hcodes. rewrite decide_True by reflexivity.
    unfold mbind at 1. unfold M_bind at 1. rewrite log_run, after_after. reflexivity.
  - intros Herror Hnone. apply str_truthy_false in Herror.
    unfold upload_results. unfold mbind at 1. unfold M_bind at 1.
    rewrite get_project_id_run. fold response matching. rewrite Herror, Hnone. simpl.
    rewrite decide_True by reflexivity.
    unfold mbind at 1. unfold M_bind at 1. rewrite log_run, after_after. reflexivity.
Qed.

Lemma upload_ends_at_an_unresolved_project_witness :
  upload_results Sample.constants Sample.projects_time_out Sample.environment [] []
    (Sample.world None)
  = (Raise (SystemExit 1),
     after (Sample.world None)
       [EvGet get_projects;
        EvLog (Format "error_checking_project" [("error_message", PStr "Timed out")])])
  ∧ upload_results Sample.constants Sample.two_suites Sample.environment [] []
      (Sample.world None)
    = (Raise (SystemExit 1),
       after (Sample.world None)
         [EvGet get_projects; EvLog (Text "Demo project_doesnt_exists")]).
Proof.
  split.
  - apply (proj1 (upload_ends_at_an_unresolved_project Sample.constants
                    Sample.projects_time_out Sample.environment [] [] (Sample.world None)
                    ltac:(compute; discriminate))).
    compute; discriminate.
  - apply (proj2 (upload_ends_at_an_unresolved_project Sample.constants
                    Sample.two_suites Sample.environment [] [] (Sample.world None)
                    ltac:(compute; discriminate))); reflexivity.
Defined.

(** Two or more projects of the configured name do not stop the upload at the
    project stage: [upload_results] tests the project id against
    not_existing_project and other_error only, so it goes on to suite
    resolution with the error code multiple_project_same_name as project id
    and -1 as suite mode, and the more_than_one_project message is not
    logged.  With no suite pinned, and -1 being none of the three suite
    modes, the upload then ends by [exit(1)] with the unknown_suite_mode line
    as its only log line, and no request beyond the project list is made. *)
Theorem duplicate_project_names_end_at_suite_resolution (K : Constants) (R : Runtime)
    (environment : Environment) (schedule_cases schedule_results : list PoolEvent)
    (w : World) :
  let response := send_get_projects R (w_trace w) in
  let matching :=
    filter (λ found, p_name found = project environment) (response_text response) in
  multiple_project_same_name K ≠ not_existing_project K →
  multiple_project_same_name K ≠ other_error K →
  -1 ≠ multiple_suites K → -1 ≠ single_suite_baselines K → -1 ≠ single_suite K →
  optint_truthy (suite_id (w_provider w)) = false →
  error_message response = "" → (1 < length matching)%nat →
  upload_results K R environment schedule_cases schedule_results w
  = (Raise (SystemExit 1),
     after w [EvGet get_projects;
              EvLog (Format (FAULT_MAPPING K "unknown_suite_mode")
                       [("suite_mode", PInt (-1))])]).
Proof.
  intros response matching Habsent Hother Hmulti Hbaselines Hsingle Hpin Herror Hseveral.
  apply str_truthy_false in Herror.
  unfold upload_results. unfold mbind at 1. unfold M_bind at 1.
  rewrite get_project_id_run. fold response matching. rewrite Herror.
  destruct matching as [|first [|second rest]]; simpl in Hseveral; [lia | lia |].
  simpl. rewrite decide_False by exact Habsent. rewrite decide_False by exact Hother.
  unfold mbind at 1. unfold M_bind at 1.
  unfold _ResultsUploader__get_suite_id.
  unfold mbind at 1. unfold M_bind at 1. unfold get_provider.
  simpl. rewrite Hpin. simpl.
  rewrite decide_False by exact Hmulti. rewrite decide_False by exact Hbaselines.
  rewrite decide_False by exact Hsingle.
  unfold mbind at 1. unfold M_bind at 1. rewrite log_run, after_after. reflexivity.
Qed.

Lemma duplicate_project_names_witness :
  upload_results Sample.constants Sample.twins Sample.environment [] [] (Sample.world None)
  = (Raise (SystemExit 1),
     after (Sample.world None)
       [EvGet get_projects;
        EvLog (Format "unknown_suite_mode" [("suite_mode", PInt (-1))])]).
Proof.
  apply (duplicate_project_names_end_at_suite_resolution Sample.constants Sample.twins
           Sample.environment [] [] (Sample.world None));
    try reflexivity; compute; first [discriminate | lia].
Defined.

(** ** Suite resolution by creation *)

Lemma add_suites_resources_hold_ids (R : Runtime) (project_id : Z) (w w' : World)
    (added : list Dict) (error : string) :
  add_suites R project_id w = (Ret (added, error), w') →
  Forall (λ resource, is_Some (resource !! "suite_id")) added.
Proof.
  unfold add_suites. unfold mbind at 1. unfold M_bind at 1. unfold get_provider.
  unfold mbind at 1. unfold M_bind at 1.
  destruct (post_bodies _ _ _ _ _) as [[[responses message]|e] w1]; [|discriminate].
  destruct (mapM suite_resource responses) as [e|resources] eqn:Hresources;
    simpl; [discriminate|].
  unfold mbind at 1. unfold M_bind at 1. unfold mret at 1. unfold M_ret at 1.
  unfold mbind at 1. unfold M_bind at 1. rewrite update_data_if_any_run.
  intros [= <- <- <-].
  apply mapM_inr in Hresources.
  induction Hresources as [|response resource responses resources Hhead _ IH];
    constructor; [|exact IH].
  apply suite_resource_id in Hhead as [Hsome Heq]. by rewrite Heq.
Qed.

(** Suite resolution in multiple-suites mode, no suite pinned, the user
    agreeing.  With a project id other than 0, whatever [add_suites] hands
    back decides the result: the result code is 1 when its error is empty and
    -1 otherwise, in which case the error is logged; the suite id is that of
    the first suite created, also when a later body failed and the code is
    -1, and it is -1 when no suite was created, which comes with result code
    1 when there was no body to post.  With project id 0 the add function is
    called without its argument, which raises TypeError after the question
    and the adding log line. *)
Theorem suite_resolution_by_creation (K : Constants) (R : Runtime)
    (environment : Environment) (project_id suite_mode : Z) (w : World) :
  let question :=
    Format (PROMPT_MESSAGES K "create_new_suite")
      [("suite_name", PStr (name (w_provider w)));
       ("project_name", PStr (project environment))] in
  let adding :=
    Format "Adding missing suites to project {self.environment.project}."
      [("self.environment.project", PStr (project environment))] in
  let asked := after w [EvPrompt question; EvLog adding] in
  optint_truthy (suite_id (w_provider w)) = false →
  suite_mode = multiple_suites K →
  get_prompt_response_for_auto_creation R (w_trace w) question = true →
  (∀ (added : list Dict) (error : string) (w' : World),
     project_id ≠ 0 →
     add_suites R project_id asked = (Ret (added, error), w') →
     ∃ resolved : PyVal,
       _ResultsUploader__get_suite_id K R environment project_id suite_mode w
       = (Ret (resolved, if decide (error = "") then 1 else -1),
          if decide (error = "") then w' else after w' [EvLog (Text error)])
       ∧ match added with
         | [] => resolved = PInt (-1)
         | first :: _ => first !! "suite_id" = Some resolved
         end)
  ∧ (project_id = 0 →
     _ResultsUploader__get_suite_id K R environment project_id suite_mode w
     = (Raise TypeError, asked)).
Proof.
  intros question adding asked Hpin Hmode Hanswer.
  assert (Hstart : _ResultsUploader__get_suite_id K R environment project_id suite_mode w
    = ('(added_suites, result_code) ←
         _ResultsUploader__prompt_user_and_add_items R question adding
           (Format (FAULT_MAPPING K "no_user_agreement") [("type", PStr "suite")])
           (with_project_id (add_suites R)) (Some project_id);
       if list_truthy added_suites then
         first ← lift (list_first added_suites);
         suite_id ← lift (py_getitem (PDict first) "suite_id");
         mret (suite_id, result_code)
       else mret (PInt (-1), result_code)) w).
  { unfold _ResultsUploader__get_suite_id.
    unfold mbind at 1. unfold M_bind at 1. unfold get_provider.
    rewrite Hpin. simpl. by rewrite decide_True by exact Hmode. }
  rewrite Hstart. clear Hstart.
  unfold mbind at 1. unfold M_bind at 1.
  rewrite prompt_user_and_add_items_agreed by exact Hanswer. fold asked.
  split.
  - intros added error w' Hproject Hadd.
    assert (Htruthy : optint_truthy (Some project_id) = true).
    { simpl. by rewrite decide_False by exact Hproject. }
    rewrite Htruthy. simpl. rewrite Hadd.
    pose proof (add_suites_resources_hold_ids _ _ _ _ _ _ Hadd) as Hids.
    unfold str_truthy.
    destruct added as [|first rest].
    + exists (PInt (-1)). split; [|reflexivity].
      by destruct (decide (error = "")).
    + apply Forall_cons in Hids as [[resolved Hresolved] _].
      exists resolved. split; [|exact Hresolved].
      destruct (decide (error = "")); simpl;
        unfold mbind at 1; unfold M_bind at 1; unfold mret at 1; unfold M_ret at 1;
        by rewrite Hresolved.
  - intros ->. unfold mbind at 1. unfold M_bind at 1.
    rewrite prompt_user_and_add_items_agreed by exact Hanswer. reflexivity.
Qed.

Lemma suite_resolution_by_creation_witness :
  fst (_ResultsUploader__get_suite_id Sample.constants (Sample.serving Sample.accepted_bodies)
         Sample.environment 1 3 (Sample.world None))
  = Ret (PInt 102, 1)
  ∧ fst (_ResultsUploader__get_suite_id Sample.constants
           (Sample.serving Sample.refused_bodies) Sample.environment 1 3 (Sample.world None))
    = Ret (PInt 102, -1)
  ∧ fst (_ResultsUploader__get_suite_id Sample.constants (Sample.serving [])
           Sample.environment 1 3 (Sample.world None))
    = Ret (PInt (-1), 1).
Proof.
  split; [| split].
  - destruct (proj1 (suite_resolution_by_creation Sample.constants
                       (Sample.serving Sample.accepted_bodies) Sample.environment 1 3
                       (Sample.world None) eq_refl eq_refl eq_refl)
                [ ({[ "suite_id" := PInt 102; "name" := PStr "a" ]} : Dict);
                  ({[ "suite_id" := PInt 103; "name" := PStr "b" ]} : Dict) ]
                ""
                (snd (_ResultsUploader__get_suite_id Sample.constants
                        (Sample.serving Sample.accepted_bodies) Sample.environment 1 3
                        (Sample.world None))))
      as [resolved [Hrun Hfirst]]; [discriminate | vm_compute; reflexivity |].
    rewrite Hrun. vm_compute in Hfirst. by injection Hfirst as <-.
  - destruct (proj1 (suite_resolution_by_creation Sample.constants
                       (Sample.serving Sample.refused_bodies) Sample.environment 1 3
                       (Sample.world None) eq_refl eq_refl eq_refl)
                [ ({[ "suite_id" := PInt 102; "name" := PStr "a" ]} : Dict) ]
                "Field :title is a required field."
                (snd (add_suites (Sample.serving Sample.refused_bodies) 1
                        (after (Sample.world None)
                           [EvPrompt (Format "create_new_suite"
                                        [("suite_name", PStr "Parsed suite");
                                         ("project_name", PStr "Demo")]);
                            EvLog (Format
                                     "Adding missing suites to project {self.environment.project}."
                                     [("self.environment.project", PStr "Demo")])]))))
      as [resolved [Hrun Hfirst]]; [discriminate | vm_compute; reflexivity |].
    rewrite Hrun. vm_compute in Hfirst. by injection Hfirst as <-.
  - destruct (proj1 (suite_resolution_by_creation Sample.constants
                       (Sample.serving []) Sample.environment 1 3
                       (Sample.world None) eq_refl eq_refl eq_refl)
                [] ""
                (after (Sample.world None)
                   [EvPrompt (Format "create_new_suite"
                                [("suite_name", PStr "Parsed suite");
                                 ("project_name", PStr "Demo")]);
                    EvLog (Format
                             "Adding missing suites to project {self.environment.project}."
                             [("self.environment.project", PStr "Demo")])]))
      as [resolved [Hrun Hfirst]]; [discriminate | vm_compute; reflexivity |].
    rewrite Hrun. by rewrite Hfirst.
Defined.

(** ** A batch in which no call fails *)

(** *** The states of the futures *)

Lemma alter_each {A : Type} (f : A → A) (rest : list A) :
  ∀ done : list A,
    foldl (λ l i, alter f i l) (done ++ rest) (seq (length done) (length rest))
    = done ++ (f <$> rest).
Proof.
  induction rest as [|x rest IH]; intros done; simpl; [reflexivity|].
  replace (alter f (length done) (done ++ x :: rest)) with ((done ++ [f x]) ++ rest).
  - replace (S (length done)) with (length (done ++ [f x]))
      by (rewrite length_app; simpl; lia).
    rewrite IH. by rewrite <- app_assoc.
  - pose proof (alter_app_r f done (x :: rest) 0) as Halter.
    rewrite Nat.add_0_r in Halter. rewrite Halter.
    by rewrite <- app_assoc.
Qed.

Lemma alter_all {A : Type} (f : A → A) (l : list A) :
  foldl (λ l i, alter f i l) l (seq 0 (length l)) = f <$> l.
Proof. apply (alter_each f l []). Qed.

Lemma finish_is_alter (max_workers : nat) (states : list FutureState) (i : nat) :
  pool_step max_workers states (Finish i) = alter finish_running i states.
Proof.
  simpl. destruct (states !! i) as [state|] eqn:Hi.
  - destruct state; try (symmetry; apply list_eq; intros j;
      rewrite list_lookup_alter; case_decide; subst; rewrite ?Hi; reflexivity).
    rewrite list_insert_alter. apply list_alter_ext; [|reflexivity].
    intros state. rewrite Hi. by intros [= <-].
  - symmetry. apply list_eq. intros j. rewrite list_lookup_alter.
    case_decide; subst; rewrite ?Hi; reflexivity.
Qed.

Lemma running_states_none (states : list FutureState) :
  Forall (λ state, state ≠ RUNNING) states → running_states states = 0%nat.
Proof.
  intros Hnone. unfold running_states.
  induction Hnone as [|state states Hstate _ IH]; [reflexivity|].
  rewrite filter_cons. by destruct (decide (state = RUNNING)).
Qed.

Lemma start_finish_is_alter (max_workers : nat) (states : list FutureState) (i : nat) :
  max_workers ≠ 0%nat →
  Forall (λ state, state ≠ RUNNING) states →
  pool_step max_workers (pool_step max_workers states (Start i)) (Finish i)
  = alter run_waiting i states.
Proof.
  intros Hworkers Hnone.
  assert (Hsame : ∀ state, states !! i = Some state → state ≠ PENDING →
                  alter run_waiting i states = states).
  { intros state Hi Hstate. apply list_eq. intros j. rewrite list_lookup_alter.
    case_decide; subst; [|reflexivity]. rewrite Hi. by destruct state. }
  unfold pool_step at 2.
  destruct (states !! i) as [state|] eqn:Hi.
  - assert (Hrunning : state ≠ RUNNING).
    { rewrite Forall_forall in Hnone. apply Hnone. by eapply list_elem_of_lookup_2. }
    destruct state; try done.
    + rewrite running_states_none by exact Hnone.
      rewrite decide_True by lia. simpl.
      rewrite list_lookup_insert_eq by (by eapply lookup_lt_Some).
      rewrite list_insert_insert_eq, list_insert_alter.
      apply list_alter_ext; [|reflexivity]. intros state. rewrite Hi. by intros [= <-].
    + simpl. rewrite Hi. symmetry. by eapply Hsame.
    + simpl. rewrite Hi. symmetry. by eapply Hsame.
  - simpl. rewrite Hi. symmetry. apply list_eq. intros j. rewrite list_lookup_alter.
    case_decide; subst; rewrite ?Hi; reflexivity.
Qed.

Lemma alter_run_waiting_none_running (states : list FutureState) (i : nat) :
  Forall (λ state, state ≠ RUNNING) states →
  Forall (λ state, state ≠ RUNNING) (alter run_waiting i states).
Proof.
  intros Hnone. apply Forall_lookup. intros j state.
  rewrite list_lookup_alter. rewrite Forall_lookup in Hnone.
  case_decide; subst.
  - destruct (states !! j) as [old|] eqn:Hj; [|discriminate].
    intros [= <-]. specialize (Hnone _ _ Hj). by destruct old.
  - apply Hnone.
Qed.

(** Left to itself the pool brings every future that was not cancelled to
    its end, whatever it did before. *)
Lemma drain_rest_finishes (max_workers : nat) (states : list FutureState) :
  max_workers ≠ 0%nat →
  foldl (pool_step max_workers) states (drain_rest (length states))
  = run_waiting <$> (finish_running <$> states).
Proof.
  intros Hworkers. unfold drain_rest. rewrite foldl_app.
  assert (Hfinish : ∀ (indices : list nat) (l : list FutureState),
            foldl (pool_step max_workers) l (map Finish indices)
            = foldl (λ l i, alter finish_running i l) l indices).
  { induction indices as [|i indices IH]; intros l; [reflexivity|].
    cbn [map foldl]. rewrite IH. f_equal. apply finish_is_alter. }
  rewrite Hfinish, alter_all.
  assert (Hnone : Forall (λ state, state ≠ RUNNING) (finish_running <$> states)).
  { apply Forall_fmap, Forall_true. intros state. by destruct state. }
  assert (Hrun : ∀ (indices : list nat) (l : list FutureState),
            Forall (λ state, state ≠ RUNNING) l →
            foldl (pool_step max_workers) l (flat_map (λ i, [Start i; Finish i]) indices)
            = foldl (λ l i, alter run_waiting i l) l indices).
  { induction indices as [|i indices IH]; intros l Hl; [reflexivity|].
    cbn [flat_map app foldl].
    rewrite start_finish_is_alter by assumption.
    apply IH. by apply alter_run_waiting_none_running. }
  rewrite Hrun by exact Hnone.
  replace (length states) with (length (finish_running <$> states))
    by apply length_fmap.
  apply alter_all.
Qed.

Lemma pool_step_keeps (max_workers : nat) (states : list FutureState) (event : PoolEvent) :
  length (pool_step max_workers states event) = length states
  ∧ (Forall (λ state, state ≠ CANCELLED) states →
     Forall (λ state, state ≠ CANCELLED) (pool_step max_workers states event)).
Proof.
  destruct event as [i|i|]; simpl; [| |done].
  - destruct (states !! i) as [[| | |]|]; try done.
    case_decide; [|done]. split; [apply length_insert|].
    intros Hnone. by apply Forall_insert.
  - destruct (states !! i) as [[| | |]|]; try done.
    split; [apply length_insert|]. intros Hnone. by apply Forall_insert.
Qed.

Lemma pool_steps_keep (max_workers : nat) (events : list PoolEvent) :
  ∀ states : list FutureState,
    length (foldl (pool_step max_workers) states events) = length states
    ∧ (Forall (λ state, state ≠ CANCELLED) states →
       Forall (λ state, state ≠ CANCELLED) (foldl (pool_step max_workers) states events)).
Proof.
  induction events as [|event events IH]; intros states; [done|]. cbn [foldl].
  destruct (IH (pool_step max_workers states event)) as [Hlength Hnone].
  destruct (pool_step_keeps max_workers states event) as [Hlength' Hnone'].
  split; [congruence | auto].
Qed.

Lemma all_brought_to_their_end (states : list FutureState) :
  Forall (λ state, state ≠ CANCELLED) states →
  run_waiting <$> (finish_running <$> states) = replicate (length states) FINISHED.
Proof.
  induction 1 as [|state rest Hstate _ IH]; [reflexivity|].
  rewrite !fmap_cons, IH. cbn [length replicate]. f_equal. by destruct state.
Qed.

(** Whatever the pool is told to do first, at the end of the loop every
    future is finished, unless one was cancelled. *)
Lemma all_finished_in_the_end (max_workers : nat) (schedule : list PoolEvent)
    (states : list FutureState) :
  max_workers ≠ 0%nat →
  Forall (λ state, state ≠ CANCELLED) states →
  foldl (pool_step max_workers) states (schedule ++ drain_rest (length states))
  = replicate (length states) FINISHED.
Proof.
  intros Hworkers Hnone. rewrite foldl_app.
  destruct (pool_steps_keep max_workers schedule states) as [Hlength Hkept].
  rewrite <- Hlength at 1. rewrite drain_rest_finishes by exact Hworkers.
  rewrite all_brought_to_their_end by auto. by rewrite Hlength.
Qed.

(** *** One thing the pool does *)

Lemma pool_start_run (R : Runtime) (max_workers i : nat) (w : World) :
  pool_start R max_workers i w
  = match w_futures w !! i with
    | Some future =>
        if decide (fut_state future = PENDING ∧ (running (w_futures w) < max_workers)%nat)
        then
          (Ret tt,
           mkWorld (w_trace w ++ [EvPost (fut_path future) (fut_body future)]) (w_provider w)
             (<[i := mkFuture (fut_path future) (fut_body future) RUNNING
                      (Some (send_post R (w_trace w) (fut_path future) (fut_body future)))]>
                (w_futures w)))
        else (Ret tt, w)
    | None => (Ret tt, w)
    end.
Proof.
  unfold pool_start. unfold mbind at 1. unfold M_bind at 1. unfold get_futures.
  destruct (w_futures w !! i) as [future|]; [|reflexivity].
  destruct (decide _); [|reflexivity].
  unfold mbind at 1. unfold M_bind at 1. rewrite client_send_post_run. reflexivity.
Qed.

Lemma loop_body_start_run (R : Runtime) (max_workers : nat) (action_string : string)
    (i : nat) (responses : list Response) (w : World) :
  loop_body R max_workers action_string (Start i) responses w
  = (Ret (Continue responses), snd (pool_start R max_workers i w)).
Proof.
  simpl. unfold mbind at 1. unfold M_bind at 1. rewrite pool_start_run.
  destruct (w_futures w !! i) as [future|]; [|reflexivity].
  by destruct (decide _).
Qed.

Lemma loop_body_finish_run (R : Runtime) (max_workers : nat) (action_string : string)
    (i : nat) (responses : list Response) (w : World) (future : Future)
    (response : Response) (n : nat) :
  w_futures w !! i = Some future →
  fut_state future = RUNNING →
  fut_result future = Some response →
  error_message response = "" →
  progress_weight action_string (fut_body future) = inr n →
  loop_body R max_workers action_string (Finish i) responses w
  = (Ret (Continue (responses ++ [response])),
     mkWorld (w_trace w ++ [EvProgress n]) (w_provider w)
       (<[i := mkFuture (fut_path future) (fut_body future) FINISHED (fut_result future)]>
          (w_futures w))).
Proof.
  intros Hi Hstate Hresult Herror Hweight. simpl.
  unfold mbind at 1. unfold M_bind at 1. rewrite pool_finish_run, Hi.
  rewrite decide_True by exact Hstate. cbn zeta. cbn [fut_body fut_result].
  rewrite Hresult. cbn [from_option].
  unfold mbind at 1. unfold M_bind at 1. unfold lift at 1. unfold mret at 1.
  unfold M_ret at 1. rewrite Herror. cbn [str_truthy negb].
  rewrite Hweight. reflexivity.
Qed.

Lemma loop_body_finish_idle (R : Runtime) (max_workers : nat) (action_string : string)
    (i : nat) (responses : list Response) (w : World) :
  (∀ future, w_futures w !! i = Some future → fut_state future ≠ RUNNING) →
  loop_body R max_workers action_string (Finish i) responses w
  = (Ret (Continue responses), w).
Proof.
  intros Hidle. simpl.
  unfold mbind at 1. unfold M_bind at 1. rewrite pool_finish_run.
  destruct (w_futures w !! i) as [future|]; [|reflexivity].
  rewrite decide_False by (by apply Hidle). reflexivity.
Qed.

(** *** What a step does to the account of the batch *)

Lemma flat_map_insert_same {A B : Type} (g : A → list B) (l : list A) :
  ∀ (i : nat) (x y : A),
    l !! i = Some x → g y = g x → flat_map g (<[i := y]> l) = flat_map g l.
Proof.
  induction l as [|a l IH]; intros i x y Hi Hg; [discriminate|].
  destruct i as [|i]; simpl in *.
  - injection Hi as ->. by rewrite Hg.
  - f_equal. by eapply IH.
Qed.

Lemma flat_map_insert_new {A B : Type} (g : A → list B) (l : list A) :
  ∀ (i : nat) (x y : A),
    l !! i = Some x → g x = [] → flat_map g (<[i := y]> l) ≡ₚ g y ++ flat_map g l.
Proof.
  induction l as [|a l IH]; intros i x y Hi Hg; [discriminate|].
  destruct i as [|i]; simpl in *.
  - injection Hi as ->. by rewrite Hg.
  - rewrite (IH i x y Hi Hg). apply Permutation_app_swap_app.
Qed.

Lemma running_is_running_states (futures : list Future) :
  running futures = running_states (fut_state <$> futures).
Proof.
  unfold running, running_states.
  induction futures as [|future futures IH]; [reflexivity|].
  rewrite fmap_cons, !filter_cons.
  destruct (decide (fut_state future = RUNNING)); simpl; by rewrite IH.
Qed.

Lemma answered_later (R : Runtime) (tr : list Event) (e : Event) (future : Future) :
  answered R tr future → answered R (tr ++ [e]) future.
Proof.
  unfold answered. destruct (fut_state future); try done.
  - intros (pre & rest & -> & Hresult). exists pre, (rest ++ [e]).
    split; [by rewrite <- app_assoc | exact Hresult].
  - intros (pre & rest & -> & Hresult). exists pre, (rest ++ [e]).
    split; [by rewrite <- app_assoc | exact Hresult].
Qed.

Lemma posts_of_app (l k : list Event) : posts_of (l ++ k) = posts_of l ++ posts_of k.
Proof. apply flat_map_app. Qed.

Lemma progress_of_app (l k : list Event) : progress_of (l ++ k) = progress_of l ++ progress_of k.
Proof. apply flat_map_app. Qed.

Lemma loop_body_finish_fail (R : Runtime) (max_workers : nat) (action_string : string)
    (i : nat) (responses : list Response) (w : World) (future : Future)
    (response : Response) :
  w_futures w !! i = Some future →
  fut_state future = RUNNING →
  fut_result future = Some response →
  error_message response ≠ "" →
  loop_body R max_workers action_string (Finish i) responses w
  = (Ret (Break responses (error_message response)),
     mkWorld (w_trace w ++ failure_lines action_string) (w_provider w)
       (map cancel
          (<[i := mkFuture (fut_path future) (fut_body future) FINISHED (fut_result future)]>
             (w_futures w)))).
Proof.
  intros Hi Hstate Hresult Herror. apply str_truthy_true in Herror. simpl.
  unfold mbind at 1. unfold M_bind at 1. rewrite pool_finish_run, Hi.
  rewrite decide_True by exact Hstate. cbn zeta. cbn [fut_body fut_result].
  rewrite Hresult. cbn [from_option].
  unfold mbind at 1. unfold M_bind at 1. unfold lift at 1. unfold mret at 1.
  unfold M_ret at 1. rewrite Herror. cbn [negb].
  unfold_monad. unfold _ApiRequestHandler__cancel_running_futures. unfold_monad.
  cbn [w_trace w_provider w_futures]. unfold failure_lines.
  by rewrite <- app_assoc.
Qed.

Section PoolSteps.
Variable R : Runtime.
Variable max_workers : nat.
Variable action_string : string.
Variable before : list Event.
Variable provider : TestRailSuite.
Variable units : list (Endpoint * Dict).
Hypothesis every_unit_has_a_weight :
  ∀ path body, (path, body) ∈ units → ∃ n, progress_weight action_string body = inr n.

Lemma start_keeps_the_invariant (i : nat) (events : list Event) (futures : list Future)
    (responses : list Response) :
  batch_invariant R action_string before units events futures responses →
  ∃ events' futures',
    pool_start R max_workers i (mkWorld (before ++ events) provider futures)
    = (Ret tt, mkWorld (before ++ events') provider futures')
    ∧ batch_invariant R action_string before units events' futures' responses
    ∧ fut_state <$> futures' = pool_step max_workers (fut_state <$> futures) (Start i).
Proof.
  intros (Hunits & Hanswered & Hresponses & Hevents & Hposts & Hprogress).
  rewrite pool_start_run. cbn [w_futures w_trace w_provider].
  unfold pool_step. rewrite list_lookup_fmap.
  destruct (futures !! i) as [future|] eqn:Hi; cbn [fmap option_fmap option_map];
    [|by exists events, futures].
  destruct (decide (fut_state future = PENDING ∧ (running futures < max_workers)%nat))
    as [[Hstate Hfree]|Hbusy].
  - rewrite Hstate. rewrite <- running_is_running_states.
    rewrite decide_True by exact Hfree.
    eexists (events ++ [EvPost (fut_path future) (fut_body future)]), _.
    split; [by rewrite <- app_assoc|]. split; [|by rewrite list_fmap_insert].
    split; [|split; [|split; [|split; [|split]]]].
    + rewrite <- Hunits, list_fmap_insert. apply list_insert_id.
      rewrite list_lookup_fmap, Hi. reflexivity.
    + rewrite app_assoc. apply Forall_insert.
      * eapply Forall_impl; [exact Hanswered|]. intros other. apply answered_later.
      * unfold answered. cbn [fut_state fut_path fut_body fut_result].
        exists (before ++ events), []. by split.
    + rewrite (flat_map_insert_same finished_result futures i future); [exact Hresponses
        | exact Hi |].
      unfold finished_result. cbn [fut_state]. rewrite Hstate. reflexivity.
    + apply Forall_app. split; [exact Hevents|]. by constructor.
    + rewrite posts_of_app, Hposts.
      rewrite (flat_map_insert_new started futures i future); [| exact Hi |].
      * apply Permutation_app_comm.
      * unfold started. by rewrite Hstate.
    + rewrite progress_of_app, app_nil_r.
      rewrite (flat_map_insert_same (advanced action_string) futures i future);
        [exact Hprogress | exact Hi |].
      unfold advanced. cbn [fut_state]. rewrite Hstate. reflexivity.
  - exists events, futures. split; [reflexivity|].
    split; [by repeat split|].
    destruct (fut_state future) eqn:Hstate; try reflexivity.
    rewrite <- running_is_running_states.
    rewrite decide_False; [reflexivity|]. intros Hfree. by apply Hbusy.
Qed.

(** One round of the loop either keeps the account of the batch, the
    states of the futures moving as [pool_step] says, or leaves the loop
    because the call of a unit has failed. *)
Lemma loop_body_keeps_or_breaks (event : PoolEvent) (events : list Event)
    (futures : list Future) (responses : list Response) :
  event ≠ Sigint →
  batch_invariant R action_string before units events futures responses →
  (∃ events' futures' responses',
     loop_body R max_workers action_string event responses
       (mkWorld (before ++ events) provider futures)
     = (Ret (Continue responses'), mkWorld (before ++ events') provider futures')
     ∧ batch_invariant R action_string before units events' futures' responses'
     ∧ fut_state <$> futures' = pool_step max_workers (fut_state <$> futures) event
     ∧ (Forall (λ r, error_message r = "") responses →
        Forall (λ r, error_message r = "") responses'))
  ∨ (∃ pre path body cancelled,
       (path, body) ∈ units
       ∧ error_message (send_post R pre path body) ≠ ""
       ∧ send_post R pre path body
         ∈ retrieve_results_after_cancelling (map cancel cancelled)
       ∧ loop_body R max_workers action_string event responses
           (mkWorld (before ++ events) provider futures)
         = (Ret (Break responses (error_message (send_post R pre path body))),
            mkWorld (before ++ events ++ failure_lines action_string) provider
              (map cancel cancelled))).
Proof.
  intros Hevent Hinvariant. destruct event as [i|i|]; [| |done].
  - left.
    destruct (start_keeps_the_invariant i events futures responses Hinvariant)
      as (events' & futures' & Hrun & Hkept & Hstates).
    exists events', futures', responses.
    rewrite loop_body_start_run, Hrun.
    split; [reflexivity | split; [exact Hkept | split; [exact Hstates | done]]].
  - destruct Hinvariant as (Hunits & Hanswered & Hresponses & Hevents & Hposts & Hprogress).
    unfold pool_step. rewrite list_lookup_fmap.
    destruct (futures !! i) as [future|] eqn:Hi; cbn [fmap option_fmap option_map].
    2:{ left. exists events, futures, responses.
        rewrite loop_body_finish_idle; [split; [reflexivity | by repeat split]|].
        cbn [w_futures]. intros future. by rewrite Hi. }
    destruct (decide (fut_state future = RUNNING)) as [Hstate|Hidle].
    2:{ left. exists events, futures, responses.
        rewrite loop_body_finish_idle.
        - split; [reflexivity|]. split; [by repeat split|].
          split; [by destruct (fut_state future) | done].
        - cbn [w_futures]. intros other. rewrite Hi. by intros [= <-]. }
    rewrite Hstate.
    assert (Hunit : (fut_path future, fut_body future) ∈ units).
    { rewrite <- Hunits. apply (list_elem_of_fmap_2 unit_of).
      by eapply list_elem_of_lookup_2. }
    pose proof (proj1 (Forall_lookup _ _) Hanswered i future Hi) as Hanswer.
    unfold answered in Hanswer. rewrite Hstate in Hanswer.
    destruct Hanswer as (pre & rest & Htrace & Hresult).
    destruct (decide (error_message (send_post R pre (fut_path future) (fut_body future))
                      = "")) as [Hok|Hfailed].
    2:{ right. exists pre, (fut_path future), (fut_body future). eexists.
        split; [exact Hunit|]. split; [exact Hfailed|]. split.
        2:{ rewrite (loop_body_finish_fail R max_workers action_string i responses
                       (mkWorld (before ++ events) provider futures) future _
                       Hi Hstate Hresult Hfailed).
            cbn [w_trace w_provider w_futures]. by rewrite <- app_assoc. }
        apply retrieve_results_after_cancelling_spec.
        exists (mkFuture (fut_path future) (fut_body future) FINISHED (fut_result future)).
        split; [|split; [discriminate | exact Hresult]].
        apply (list_elem_of_fmap_2' cancel _
                 (mkFuture (fut_path future) (fut_body future) FINISHED
                    (fut_result future))); [|reflexivity].
        eapply list_elem_of_lookup_2. apply list_lookup_insert_eq.
        by eapply lookup_lt_Some. }
    left.
    destruct (every_unit_has_a_weight _ _ Hunit) as [n Hweight].
    eexists (events ++ [EvProgress n]), _, _.
    split.
    { rewrite (loop_body_finish_run R max_workers action_string i responses
                 (mkWorld (before ++ events) provider futures) future _ n
                 Hi Hstate Hresult Hok Hweight).
      cbn [w_trace w_provider w_futures]. by rewrite <- app_assoc. }
    split; [|split; [by rewrite list_fmap_insert|]].
    2:{ intros Hall. apply Forall_app. split; [exact Hall|]. by constructor. }
    split; [|split; [|split; [|split; [|split]]]].
    + rewrite <- Hunits, list_fmap_insert. apply list_insert_id.
      rewrite list_lookup_fmap, Hi. reflexivity.
    + rewrite app_assoc. apply Forall_insert.
      * eapply Forall_impl; [exact Hanswered|]. intros other. apply answered_later.
      * apply answered_later. unfold answered. cbn [fut_state fut_path fut_body fut_result].
        by exists pre, rest.
    + rewrite (flat_map_insert_new finished_result futures i future); [| exact Hi |].
      * unfold finished_result at 1. cbn [fut_state fut_result].
        rewrite decide_True by reflexivity. rewrite Hresult. cbn [option_list option_rect].
        rewrite Hresponses. apply Permutation_app_comm.
      * unfold finished_result. by rewrite Hstate.
    + apply Forall_app. split; [exact Hevents|]. by constructor.
    + rewrite posts_of_app, app_nil_r.
      rewrite (flat_map_insert_same started futures i future); [exact Hposts | exact Hi |].
      unfold started. cbn [fut_state]. rewrite Hstate. reflexivity.
    + rewrite progress_of_app, Hprogress.
      rewrite (flat_map_insert_new (advanced action_string) futures i future);
        [| exact Hi |].
      * replace (advanced action_string _) with [n]; [apply Permutation_app_comm|].
        unfold advanced. cbn [fut_state fut_body]. rewrite decide_True by reflexivity.
        by rewrite Hweight.
      * unfold advanced. by rewrite Hstate.
Qed.

Lemma as_completed_loop_keeps_or_breaks (schedule : list PoolEvent) :
  ∀ (events : list Event) (futures : list Future) (responses : list Response),
    Sigint ∉ schedule →
    batch_invariant R action_string before units events futures responses →
    Forall (λ r, error_message r = "") responses →
    (∃ events' futures' responses',
       as_completed_loop R max_workers action_string schedule responses
         (mkWorld (before ++ events) provider futures)
       = (Ret (Continue responses'), mkWorld (before ++ events') provider futures')
       ∧ batch_invariant R action_string before units events' futures' responses'
       ∧ fut_state <$> futures'
         = foldl (pool_step max_workers) (fut_state <$> futures) schedule
       ∧ Forall (λ r, error_message r = "") responses')
    ∨ (∃ events' futures' responses' pre path body cancelled,
         batch_invariant R action_string before units events' futures' responses'
         ∧ (path, body) ∈ units
         ∧ error_message (send_post R pre path body) ≠ ""
         ∧ send_post R pre path body
           ∈ retrieve_results_after_cancelling (map cancel cancelled)
         ∧ as_completed_loop R max_workers action_string schedule responses
             (mkWorld (before ++ events) provider futures)
           = (Ret (Break responses' (error_message (send_post R pre path body))),
              mkWorld (before ++ events' ++ failure_lines action_string) provider
                (map cancel cancelled))).
Proof.
  induction schedule as [|event schedule IH];
    intros events futures responses Hnone Hinv Hall.
  - left. by exists events, futures, responses.
  - apply not_elem_of_cons in Hnone as [Hevent Hnone].
    cbn [as_completed_loop]. unfold mbind, M_bind.
    destruct (loop_body_keeps_or_breaks event events futures responses
                (not_eq_sym Hevent) Hinv)
      as [(events1 & futures1 & responses1 & Hstep & Hinv1 & Hstates1 & Hall1)
         |(pre & path & body & cancelled & Hunit & Hfailed & Hsalvaged & Hstep)].
    + rewrite Hstep.
      destruct (IH events1 futures1 responses1 Hnone Hinv1 (Hall1 Hall))
        as [(events2 & futures2 & responses2 & Hrest & Hinv2 & Hstates2 & Hall2)
           |(events2 & futures2 & responses2 & pre & path & body & cancelled
             & Hinv2 & Hunit & Hfailed & Hsalvaged & Hrest)].
      * left. exists events2, futures2, responses2.
        split; [exact Hrest|]. split; [exact Hinv2|]. split; [|exact Hall2].
        cbn [foldl]. by rewrite <- Hstates1.
      * right. exists events2, futures2, responses2, pre, path, body, cancelled.
        split; [exact Hinv2 | split; [exact Hunit | split; [exact Hfailed |
          split; [exact Hsalvaged | exact Hrest]]]].
    + right. exists events, futures, responses, pre, path, body, cancelled.
      rewrite Hstep.
      split; [exact Hinv | split; [exact Hunit | split; [exact Hfailed |
        split; [exact Hsalvaged | reflexivity]]]].
Qed.

End PoolSteps.

Lemma as_completed_loop_keeps_the_invariant (R : Runtime) (max_workers : nat)
    (action_string : string) (before : list Event) (provider : TestRailSuite)
    (units : list (Endpoint * Dict)) :
  (∀ tr path body, (path, body) ∈ units → error_message (send_post R tr path body) = "") →
  (∀ path body, (path, body) ∈ units → ∃ n, progress_weight action_string body = inr n) →
  ∀ (schedule : list PoolEvent) (events : list Event) (futures : list Future),
    Sigint ∉ schedule →
    batch_invariant R action_string before units events futures [] →
    ∃ events' futures' responses',
      as_completed_loop R max_workers action_string schedule []
        (mkWorld (before ++ events) provider futures)
      = (Ret (Continue responses'), mkWorld (before ++ events') provider futures')
      ∧ batch_invariant R action_string before units events' futures' responses'
      ∧ fut_state <$> futures'
        = foldl (pool_step max_workers) (fut_state <$> futures) schedule.
Proof.
  intros Hcalls Hweights schedule events futures Hnone Hinv.
  destruct (as_completed_loop_keeps_or_breaks R max_workers action_string before provider
              units Hweights schedule events futures [] Hnone Hinv (Forall_nil_2 _))
    as [(events' & futures' & responses' & Hrun & Hinv' & Hstates & _)
       |(events' & futures' & responses' & pre & path & body & cancelled
         & _ & Hunit & Hfailed & _)].
  - by exists events', futures', responses'.
  - destruct Hfailed. by apply Hcalls.
Qed.

(** *** The whole loop, and the pool shut down after it *)

Lemma drain_rest_has_no_interrupt (n : nat) : Sigint ∉ drain_rest n.
Proof.
  unfold drain_rest. rewrite list_elem_of_In, in_app_iff, in_map_iff, in_flat_map.
  intros [(i & Hi & _)|(i & _ & Hi)]; [discriminate|].
  simpl in Hi. by destruct Hi as [|[|[]]].
Qed.

Lemma nothing_of_waiting_futures {B : Type} (g : Future → list B) (futures : list Future) :
  (∀ future, fut_state future = PENDING → g future = []) →
  Forall (λ future, fut_state future = PENDING) futures →
  flat_map g futures = [].
Proof.
  intros Hg Hwaiting. induction Hwaiting as [|future futures Hstate _ IH]; [reflexivity|].
  simpl. by rewrite IH, Hg.
Qed.

Lemma waiting_batch_invariant (R : Runtime) (action_string : string) (before : list Event)
    (futures : list Future) :
  Forall (λ future, fut_state future = PENDING) futures →
  batch_invariant R action_string before (unit_of <$> futures) [] futures [].
Proof.
  intros Hwaiting. split; [reflexivity|]. split; [|split; [|split; [constructor|split]]].
  - eapply Forall_impl; [exact Hwaiting|]. intros future Hstate.
    unfold answered. by rewrite Hstate.
  - rewrite nothing_of_waiting_futures; [reflexivity | | exact Hwaiting].
    intros future Hstate. unfold finished_result. by rewrite Hstate.
  - rewrite nothing_of_waiting_futures; [reflexivity | | exact Hwaiting].
    intros future Hstate. unfold started. by rewrite Hstate.
  - rewrite nothing_of_waiting_futures; [reflexivity | | exact Hwaiting].
    intros future Hstate. unfold advanced. by rewrite Hstate.
Qed.

(** [handle_futures] on a batch in which every call succeeds and the user
    does not interrupt: whatever the pool does, the loop runs to its end. *)
Lemma handle_futures_without_failure (R : Runtime) (max_workers : nat)
    (action_string : string) (schedule : list PoolEvent) (before : list Event)
    (provider : TestRailSuite) (futures : list Future) :
  max_workers ≠ 0%nat →
  Sigint ∉ schedule →
  Forall (λ future, fut_state future = PENDING) futures →
  (∀ tr path body, (path, body) ∈ unit_of <$> futures →
                   error_message (send_post R tr path body) = "") →
  (∀ path body, (path, body) ∈ unit_of <$> futures →
                ∃ n, progress_weight action_string body = inr n) →
  ∃ events finals responses,
    handle_futures R max_workers action_string schedule (mkWorld before provider futures)
    = (Ret (responses, ""),
       mkWorld (before ++ events ++ [EvProgressDone]) provider finals)
    ∧ batch_invariant R action_string before (unit_of <$> futures) events finals responses
    ∧ Forall (λ future, fut_state future = FINISHED) finals.
Proof.
  intros Hworkers Hschedule Hwaiting Hcalls Hweights.
  destruct (as_completed_loop_keeps_the_invariant R max_workers action_string before
              provider (unit_of <$> futures) Hcalls Hweights
              (schedule ++ drain_rest (length futures)) [] futures)
    as (events & finals & responses & Hloop & Hinvariant & Hstates).
  { rewrite not_elem_of_app. split; [exact Hschedule | apply drain_rest_has_no_interrupt]. }
  { by apply waiting_batch_invariant. }
  exists events, finals, responses. split; [|split; [exact Hinvariant|]].
  - rewrite app_nil_r in Hloop. unfold handle_futures.
    unfold mbind at 1. unfold M_bind at 1. unfold get_futures. cbn [w_futures].
    unfold try_except_KeyboardInterrupt.
    unfold mbind at 1. unfold M_bind at 1. rewrite Hloop.
    unfold_monad. cbn [w_trace w_provider w_futures]. by rewrite <- app_assoc.
  - replace (length futures) with (length (fut_state <$> futures)) in Hstates
      by apply length_fmap.
    rewrite all_finished_in_the_end in Hstates; [|exact Hworkers|].
    + apply (Forall_fmap fut_state (λ state, state = FINISHED)).
      rewrite Hstates. apply Forall_replicate. reflexivity.
    + apply Forall_fmap. eapply Forall_impl; [exact Hwaiting|].
      intros future Hstate. simpl. by rewrite Hstate.
Qed.

Lemma run_pool_all_finished (R : Runtime) (max_workers : nat) (events : list PoolEvent)
    (w : World) :
  Forall (λ future, fut_state future = FINISHED) (w_futures w) →
  run_pool R max_workers events w = (Ret tt, w).
Proof.
  intros Hfinished.
  induction events as [|[i|i|] events IH]; simpl; [reflexivity| | |exact IH].
  - unfold mbind at 1. unfold M_bind at 1. rewrite pool_start_none_waiting; [exact IH|].
    eapply Forall_impl; [exact Hfinished|]. intros future Hstate. by rewrite Hstate.
  - unfold mbind at 1. unfold M_bind at 1. rewrite pool_finish_run.
    destruct (w_futures w !! i) as [future|] eqn:Hi; [|exact IH].
    rewrite decide_False; [exact IH|].
    rewrite Forall_lookup in Hfinished. by rewrite (Hfinished i future Hi).
Qed.

Lemma with_executor_all_finished {A : Type} (R : Runtime) (max_workers : nat) (body : M A)
    (a : A) (w wc : World) :
  max_workers ≠ 0%nat →
  body (mkWorld (w_trace w) (w_provider w) []) = (Ret a, wc) →
  Forall (λ future, fut_state future = FINISHED) (w_futures wc) →
  with_executor R max_workers body w = (Ret a, wc).
Proof.
  intros Hworkers Hbody Hfinished. unfold with_executor.
  rewrite decide_False by exact Hworkers.
  unfold mbind, M_bind, set_futures. rewrite Hbody.
  by rewrite run_pool_all_finished.
Qed.

Lemma all_started_when_finished (futures : list Future) :
  Forall (λ future, fut_state future = FINISHED) futures →
  flat_map started futures = unit_of <$> futures.
Proof.
  induction 1 as [|future futures Hstate _ IH]; [reflexivity|].
  rewrite fmap_cons. simpl. rewrite IH. unfold started. by rewrite Hstate.
Qed.

Lemma all_advanced_when_finished (action_string : string) (futures : list Future) :
  ∀ amounts : list nat,
    Forall (λ future, fut_state future = FINISHED) futures →
    Forall2 (λ future n, progress_weight action_string (fut_body future) = inr n)
      futures amounts →
    flat_map (advanced action_string) futures = amounts.
Proof.
  intros amounts Hfinished Hamounts.
  induction Hamounts as [|future n futures amounts Hweight _ IH]; [reflexivity|].
  apply Forall_cons in Hfinished as [Hstate Hfinished].
  simpl. rewrite IH by exact Hfinished. unfold advanced. by rewrite Hstate, Hweight.
Qed.

Lemma responses_of_all (futures : list Future) (responses : list Response) :
  responses ≡ₚ flat_map finished_result futures →
  Forall (λ future, fut_state future = FINISHED ∧ is_Some (fut_result future)) futures →
  length responses = length futures.
Proof.
  intros -> Hfinished.
  induction Hfinished as [|future futures [Hstate [response Hresult]] _ IH]; [reflexivity|].
  simpl. rewrite length_app, IH. unfold finished_result. by rewrite Hstate, Hresult.
Qed.

(** *** A batch of results *)

Lemma units_of_results_futures (run_id : PyVal) (chunks : list Dict) :
  unit_of <$> map (results_future run_id) chunks
  = pair (add_results_for_cases run_id) <$> chunks.
Proof.
  induction chunks as [|chunk chunks IH]; [reflexivity|].
  cbn [map]. by rewrite !fmap_cons, IH.
Qed.

Lemma results_futures_wait (run_id : PyVal) (chunks : list Dict) :
  Forall (λ future, fut_state future = PENDING) (map (results_future run_id) chunks).
Proof. induction chunks; by constructor. Qed.

Lemma answers_of_finished_futures (R : Runtime) (tr : list Event) (futures : list Future) :
  Forall (λ future, fut_state future = FINISHED) futures →
  Forall (answered R tr) futures →
  Forall2 (λ unit response,
             ∃ pre rest, tr = pre ++ EvPost unit.1 unit.2 :: rest
                         ∧ response = send_post R pre unit.1 unit.2)
    (unit_of <$> futures) (flat_map finished_result futures).
Proof.
  intros Hfinished Hanswered.
  induction Hfinished as [|future futures Hstate _ IH]; [constructor|].
  apply Forall_cons in Hanswered as [Hanswer Hanswered].
  unfold answered in Hanswer. rewrite Hstate in Hanswer.
  destruct Hanswer as (pre & rest & Htrace & Hresult).
  rewrite fmap_cons. cbn [flat_map]. unfold finished_result at 1.
  rewrite Hstate, Hresult. cbn [decide_rel]. simpl.
  constructor; [by exists pre, rest | by apply IH].
Qed.

Lemma add_results_keeps_the_invariant (K : Constants) (R : Runtime)
    (environment : Environment) (run_id : PyVal) (schedule : list PoolEvent)
    (amounts : list nat) (w : World) :
  let chunks := add_results_for_cases_data R (w_provider w) (batch_size environment) in
  let path := add_results_for_cases run_id in
  MAX_WORKERS_ADD_RESULTS K ≠ 0%nat →
  Sigint ∉ schedule →
  mapM (λ results, r ← py_getitem (PDict results) "results"; py_len r) chunks
  = inr amounts →
  (∀ tr chunk, chunk ∈ chunks → error_message (send_post R tr path chunk) = "") →
  ∃ (events : list Event) (finals : list Future) (responses : list Response),
    add_results K R environment run_id schedule w
    = (Ret (map response_text responses, ""),
       mkWorld (w_trace w ++ events ++ [EvProgressDone]) (w_provider w) finals)
    ∧ batch_invariant R "add_results" (w_trace w) (pair path <$> chunks)
        events finals responses
    ∧ Forall (λ future, fut_state future = FINISHED) finals
    ∧ Forall2 (λ future n, progress_weight "add_results" (fut_body future) = inr n)
        finals amounts.
Proof.
  intros chunks path Hworkers Hschedule Hamounts Hcalls.
  pose proof (mapM_inr _ _ _ Hamounts) as Hweights.
  assert (Hweight : ∀ chunk n,
            (r ← py_getitem (PDict chunk) "results"; py_len r) = inr n →
            progress_weight "add_results" chunk = inr n).
  { intros chunk n Hn. unfold progress_weight.
    by rewrite decide_True by reflexivity. }
  destruct (handle_futures_without_failure R (MAX_WORKERS_ADD_RESULTS K) "add_results"
              schedule (w_trace w) (w_provider w) (map (results_future run_id) chunks))
    as (events & finals & responses & Hrun & Hinvariant & Hfinished);
    [exact Hworkers | exact Hschedule | apply results_futures_wait | | |].
  { intros tr path' body. rewrite units_of_results_futures, list_elem_of_fmap.
    intros (chunk & [= -> ->] & Hchunk). by apply Hcalls. }
  { intros path' body. rewrite units_of_results_futures, list_elem_of_fmap.
    intros (chunk & [= -> ->] & Hchunk).
    apply list_elem_of_lookup in Hchunk as [i Hi].
    destruct (Forall2_lookup_l _ _ _ _ _ Hweights Hi) as (n & _ & Hn).
    exists n. by apply Hweight. }
  rewrite units_of_results_futures in Hinvariant.
  exists events, finals, responses.
  split; [|split; [exact Hinvariant|split; [exact Hfinished|]]].
  - destruct (submit_results_run run_id chunks (mkWorld (w_trace w) (w_provider w) []))
      as [units Hsubmitted]. simpl in Hsubmitted.
    unfold add_results. unfold mbind at 1. unfold M_bind at 1. unfold get_provider.
    fold chunks. rewrite Hamounts.
    unfold mbind at 1. unfold M_bind at 1. unfold lift at 1. unfold mret at 1.
    unfold M_ret at 1.
    unfold mbind at 1. unfold M_bind at 1.
    rewrite (with_executor_all_finished R (MAX_WORKERS_ADD_RESULTS K) _ (responses, "") w
               (mkWorld (w_trace w ++ events ++ [EvProgressDone]) (w_provider w) finals)
               Hworkers); [reflexivity | | exact Hfinished].
    unfold mbind at 1. unfold M_bind at 1. rewrite Hsubmitted. exact Hrun.
  - destruct Hinvariant as (Hunits & _).
    assert (Hunit_weights :
              Forall2 (λ unit n, progress_weight "add_results" unit.2 = inr n)
                (unit_of <$> finals) amounts).
    { rewrite Hunits. apply Forall2_fmap_l.
      eapply Forall2_impl; [exact Hweights|]. intros chunk n. apply Hweight. }
    by apply Forall2_fmap_l in Hunit_weights.
Qed.



(** *** A batch of cases *)

Lemma case_resource_id (response : Response) (resource : Dict) :
  case_resource response = inr resource →
  is_Some (returned_id response) ∧ resource !! "case_id" = returned_id response.
Proof.
  unfold case_resource, returned_id, py_getitem.
  destruct (response_text response) as [| | | | |d]; try discriminate.
  unfold mbind, Exn_bind, mret, Exn_ret.
  destruct (d !! "id") as [id|]; [|discriminate].
  destruct (d !! "section_id") as [section|]; [|discriminate].
  destruct (d !! "title") as [title|]; [|discriminate].
  intros [= <-]. split; [by eexists|].
  by simplify_map_eq.
Qed.

Lemma mapM_all_inr {A B : Type} (f : A → Exn + B) (l : list A) :
  Forall (λ x, ∃ y, f x = inr y) l → ∃ k, mapM f l = inr k.
Proof.
  induction 1 as [|x l [y Hy] _ [k Hk]]; [by exists []|].
  exists (y :: k). rewrite mapM_cons, Hy.
  unfold mbind at 1. unfold Exn_bind at 1. rewrite Hk. reflexivity.
Qed.

Lemma case_futures_wait (bodies : list Dict) (futures : list Future) :
  mapM case_future bodies = Some futures →
  Forall (λ future, fut_state future = PENDING) futures.
Proof.
  intros Hfutures. apply mapM_Some_1 in Hfutures.
  eapply Forall2_Forall_r; [exact Hfutures|].
  apply Forall_true. intros body future. unfold case_future.
  destruct (body !! "section_id"); [|discriminate]. by intros [= <-].
Qed.

Lemma add_cases_keeps_the_invariant (K : Constants) (R : Runtime)
    (schedule : list PoolEvent) (futures : list Future) (w : World) :
  let bodies := add_cases_data R (w_provider w) in
  MAX_WORKERS_ADD_CASE K ≠ 0%nat →
  Sigint ∉ schedule →
  mapM case_future bodies = Some futures →
  (∀ tr future, future ∈ futures →
     let answer := send_post R tr (fut_path future) (fut_body future) in
     error_message answer = "" ∧ ∃ resource, case_resource answer = inr resource) →
  ∃ (events : list Event) (finals : list Future) (responses : list Response)
    (resources : list Dict),
    add_cases K R schedule w
    = (Ret (resources, ""),
       merged R case_data resources
         (mkWorld (w_trace w ++ events ++ [EvProgressDone]) (w_provider w) finals))
    ∧ batch_invariant R "add_case" (w_trace w) (unit_of <$> futures)
        events finals responses
    ∧ Forall (λ future, fut_state future = FINISHED) finals
    ∧ mapM case_resource responses = inr resources.
Proof.
  intros bodies Hworkers Hschedule Hfutures Hcalls.
  pose proof (case_futures_wait _ _ Hfutures) as Hwaiting.
  assert (Hunit : ∀ path body, (path, body) ∈ unit_of <$> futures →
                  ∃ future, future ∈ futures ∧ fut_path future = path
                            ∧ fut_body future = body).
  { intros path body. rewrite list_elem_of_fmap.
    intros (future & [= -> ->] & Hfuture). by exists future. }
  destruct (handle_futures_without_failure R (MAX_WORKERS_ADD_CASE K) "add_case"
              schedule (w_trace w) (w_provider w) futures)
    as (events & finals & responses & Hrun & Hinvariant & Hfinished);
    [exact Hworkers | exact Hschedule | exact Hwaiting | | |].
  { intros tr path body Hin. destruct (Hunit _ _ Hin) as (future & Hfuture & <- & <-).
    apply (Hcalls tr future Hfuture). }
  { intros path body _. by exists 1%nat. }
  assert (Hresources : ∃ resources, mapM case_resource responses = inr resources).
  { destruct Hinvariant as (Hunits & Hanswered & Hresponses & _).
    pose proof (answers_of_finished_futures R _ _ Hfinished Hanswered) as Hanswers.
    rewrite Hunits in Hanswers. apply Forall2_fmap_l in Hanswers.
    apply mapM_all_inr. apply Forall_forall. intros response.
    rewrite Hresponses. intros Hresponse.
    apply list_elem_of_lookup in Hresponse as [i Hi].
    destruct (Forall2_lookup_r _ _ _ _ _ Hanswers Hi)
      as (future & Hfuture & pre & rest & _ & ->).
    apply list_elem_of_lookup_2 in Hfuture.
    apply (Hcalls pre future Hfuture). }
  destruct Hresources as [resources Hresources].
  exists events, finals, responses, resources.
  split; [|split; [exact Hinvariant|split; [exact Hfinished | exact Hresources]]].
  destruct (submit_cases_run bodies futures (mkWorld (w_trace w) (w_provider w) [])
              Hfutures) as [units Hsubmitted]. simpl in Hsubmitted.
  unfold add_cases. unfold mbind at 1. unfold M_bind at 1. unfold get_provider.
  fold bodies.
  unfold mbind at 1. unfold M_bind at 1.
  rewrite (with_executor_all_finished R (MAX_WORKERS_ADD_CASE K) _ (responses, "") w
             (mkWorld (w_trace w ++ events ++ [EvProgressDone]) (w_provider w) finals)
             Hworkers); [| | exact Hfinished].
  - change (str_truthy "") with false. cbv iota.
    unfold mbind at 1. unfold M_bind at 1.
    unfold mret at 1. unfold M_ret at 1. rewrite Hresources.
    unfold mbind at 1. unfold M_bind at 1. unfold lift at 1. unfold mret at 1.
    unfold M_ret at 1.
    unfold mbind at 1. unfold M_bind at 1. rewrite update_data_if_any_run.
    reflexivity.
  - unfold mbind at 1. unfold M_bind at 1. rewrite Hsubmitted. exact Hrun.
Qed.

(** A batch of cases in which no call fails, every answer holds the fields
    a resource is built from, and the user does not interrupt.  Each body is
    posted once, to add_case of the section it named, without the section
    id; whatever the pool does in which order, [add_cases] returns an empty
    error and one resource for each answer, carrying the id the call answered
    with, the answers being those to the calls of the bodies in the order of
    completion; the resources are merged into the data provider after the
    progress bar, advanced once for each body, has been set to Done. *)
Theorem add_cases_without_failure (K : Constants) (R : Runtime)
    (schedule : list PoolEvent) (futures : list Future) (w : World) :
  let bodies := add_cases_data R (w_provider w) in
  MAX_WORKERS_ADD_CASE K ≠ 0%nat →
  Sigint ∉ schedule →
  mapM case_future bodies = Some futures →
  (∀ tr future, future ∈ futures →
     let answer := send_post R tr (fut_path future) (fut_body future) in
     error_message answer = "" ∧ ∃ resource, case_resource answer = inr resource) →
  ∃ (events : list Event) (finals : list Future) (responses answers : list Response)
    (resources : list Dict),
    add_cases K R schedule w
    = (Ret (resources, ""),
       merged R case_data resources
         (mkWorld (w_trace w ++ events ++ [EvProgressDone]) (w_provider w) finals))
    ∧ Forall2 (λ response resource,
                 is_Some (returned_id response)
                 ∧ resource !! "case_id" = returned_id response)
        responses resources
    ∧ responses ≡ₚ answers
    ∧ Forall2 (λ future answer,
                 ∃ pre rest,
                   w_trace w ++ events
                   = pre ++ EvPost (fut_path future) (fut_body future) :: rest
                   ∧ answer = send_post R pre (fut_path future) (fut_body future))
        futures answers
    ∧ posts_of events ≡ₚ unit_of <$> futures
    ∧ Forall batch_event events
    ∧ sum_list (progress_of events) = length bodies.
Proof.
  intros bodies Hworkers Hschedule Hfutures Hcalls.
  destruct (add_cases_keeps_the_invariant K R schedule futures w
              Hworkers Hschedule Hfutures Hcalls)
    as (events & finals & responses & resources & Hrun & Hinvariant & Hfinished
        & Hresources).
  destruct Hinvariant as (Hunits & Hanswered & Hresponses & Hevents & Hposts & Hprogress).
  exists events, finals, responses, (flat_map finished_result finals), resources.
  split; [exact Hrun|split; [|split; [exact Hresponses|split; [|
    split; [|split; [exact Hevents|]]]]]].
  - eapply Forall2_impl; [by apply mapM_inr | apply case_resource_id].
  - pose proof (answers_of_finished_futures R _ _ Hfinished Hanswered) as Hanswers.
    rewrite Hunits in Hanswers. by apply Forall2_fmap_l in Hanswers.
  - by rewrite Hposts, all_started_when_finished, Hunits.
  - rewrite Hprogress.
    rewrite (all_advanced_when_finished "add_case" finals (replicate (length finals) 1%nat)).
    + rewrite sum_list_replicate, Nat.mul_1_r.
      rewrite <- (length_fmap unit_of finals), Hunits, length_fmap.
      symmetry. apply mapM_Some_1 in Hfutures. by eapply Forall2_length.
    + exact Hfinished.
    + clear. induction finals; by constructor.
Qed.

(** A run of it: three cases of section 7, of which the pool runs the third
    before it is left to itself. *)
Lemma add_cases_without_failure_witness :
  ∃ (events : list Event) (finals : list Future) (resources : list Dict),
    add_cases Sample.constants (Sample.serving Sample.three_bodies)
      [Start 2; Finish 2] (Sample.world (Some 4))
    = (Ret (resources, ""),
       merged (Sample.serving Sample.three_bodies) case_data resources
         (mkWorld (events ++ [EvProgressDone]) (Sample.provider (Some 4)) finals))
    ∧ sum_list (progress_of events) = 3%nat.
Proof.
  destruct (add_cases_without_failure Sample.constants
              (Sample.serving Sample.three_bodies) [Start 2; Finish 2]
              (map (λ title, mkFuture (add_case (PInt 7))
                               (delete "section_id" (Sample.item title)) PENDING None)
                 ["a"; "b"; "c"])
              (Sample.world (Some 4)))
    as (events & finals & responses & answers & resources & Hrun & _ & _ & _ & _ & _ & Hsum).
  - discriminate.
  - rewrite list_elem_of_In. simpl. intuition discriminate.
  - vm_compute. reflexivity.
  - intros tr future Hin. rewrite list_elem_of_In in Hin. simpl in Hin.
    destruct Hin as [<-|[<-|[<-|[]]]].
    + split; [vm_compute; reflexivity|].
      exists ({[ "case_id" := PInt (100 + Z.of_nat (length tr));
                 "section_id" := PInt 7; "title" := PStr "a" ]} : Dict).
      vm_compute. reflexivity.
    + split; [vm_compute; reflexivity|].
      exists ({[ "case_id" := PInt (100 + Z.of_nat (length tr));
                 "section_id" := PInt 7; "title" := PStr "b" ]} : Dict).
      vm_compute. reflexivity.
    + split; [vm_compute; reflexivity|].
      exists ({[ "case_id" := PInt (100 + Z.of_nat (length tr));
                 "section_id" := PInt 7; "title" := PStr "c" ]} : Dict).
      vm_compute. reflexivity.
  - exists events, finals, resources. split; [exact Hrun | exact Hsum].
Defined.

(** ** Creating what is missing *)

(** A user who says yes.  When the section stage or the case stage has
    something to create and the user agrees, the stage makes the listing
    request of its check, asks, logs that it adds, and then hands back
    whatever the add function returned as added, with result code 1 when its
    error is empty and with -1 otherwise, in which case the error is logged:
    what was added before a failure is still handed back.  The section stage
    passes the project id on, which has to be other than 0; the case stage
    calls [add_cases] without one. *)
Theorem agreed_creation_hands_back_what_was_added (K : Constants) (R : Runtime)
    (environment : Environment) (project_id : Z) (schedule : list PoolEvent)
    (w : World) :
  let suite := suite_id (w_provider w) in
  let question key :=
    Format (PROMPT_MESSAGES K key) [("project_name", PStr (project environment))] in
  let outcome (error : string) : Z := if decide (error = "") then 1 else -1 in
  let logged (error : string) (w' : World) : World :=
    if decide (error = "") then w' else after w' [EvLog (Text error)] in
  (let remote := send_get_sections R (w_trace w) project_id suite in
   let listing := EvGet (get_sections project_id suite) in
   let asked :=
     after w [listing; EvPrompt (question "create_missing_sections");
              EvLog (Text "Adding missing sections to the suite.")] in
   ∀ (added : list Dict) (error : string) (w' : World),
     error_message remote = "" →
     (∃ id, id ∈ map section_id (testsections (w_provider w)) ∧ id ∉ response_text remote) →
     get_prompt_response_for_auto_creation R (w_trace w ++ [listing])
       (question "create_missing_sections") = true →
     project_id ≠ 0 →
     add_sections R project_id asked = (Ret (added, error), w') →
     _ResultsUploader__add_missing_sections K R environment project_id w
     = (Ret (added, outcome error), logged error w'))
  ∧ (let remote := send_get_cases R (w_trace w) project_id suite in
     let listing := EvGet (get_cases project_id suite) in
     let asked :=
       after w [listing; EvPrompt (question "create_missing_test_cases");
                EvLog (Text "Adding missing test cases to the suite.")] in
     ∀ (added : list Dict) (error : string) (w' : World),
       error_message remote = "" →
       (∃ id, id ∈ flat_map (λ sections, map case_id (testcases sections))
                     (testsections (w_provider w))
              ∧ id ∉ response_text remote) →
       get_prompt_response_for_auto_creation R (w_trace w ++ [listing])
         (question "create_missing_test_cases") = true →
       add_cases K R schedule asked = (Ret (added, error), w') →
       _ResultsUploader__add_missing_test_cases K R environment project_id schedule w
       = (Ret (added, outcome error), logged error w')).
Proof.
  intros suite question outcome logged. split.
  - intros remote listing asked added error w' Herror Hmissing Hanswer Hproject Hadd.
    unfold _ResultsUploader__add_missing_sections.
    unfold mbind at 1. unfold M_bind at 1. rewrite check_missing_section_ids_run.
    fold suite remote. rewrite Herror. simpl.
    rewrite missing_ids_truthy by exact Hmissing.
    rewrite prompt_user_and_add_items_agreed by exact Hanswer.
    rewrite after_after. simpl. rewrite decide_False by exact Hproject.
    fold listing. fold (question "create_missing_sections").
    unfold asked in Hadd. simpl. rewrite Hadd.
    unfold outcome, logged, str_truthy. by destruct (decide (error = "")).
  - intros remote listing asked added error w' Herror Hmissing Hanswer Hadd.
    unfold _ResultsUploader__add_missing_test_cases.
    unfold mbind at 1. unfold M_bind at 1. rewrite check_missing_test_cases_ids_run.
    fold suite remote. rewrite Herror. simpl.
    rewrite missing_ids_truthy by exact Hmissing.
    rewrite prompt_user_and_add_items_agreed by exact Hanswer.
    rewrite after_after. simpl.
    fold listing. fold (question "create_missing_test_cases").
    unfold asked in Hadd. rewrite Hadd.
    unfold outcome, logged, str_truthy. by destruct (decide (error = "")).
Qed.

(** A run of it against [Sample.behind true], which lacks section 8 and
    case 71 and creates the two bodies of the data provider. *)
Lemma agreed_creation_witness :
  fst (_ResultsUploader__add_missing_sections Sample.constants (Sample.behind true)
         Sample.environment 1 (Sample.world (Some 4)))
  = Ret ([ ({[ "section_id" := PInt 103; "suite_id" := PInt 4; "name" := PStr "a" ]} : Dict);
           ({[ "section_id" := PInt 104; "suite_id" := PInt 4; "name" := PStr "b" ]} : Dict) ],
         1)
  ∧ fst (_ResultsUploader__add_missing_test_cases Sample.constants (Sample.behind true)
           Sample.environment 1 [] (Sample.world (Some 4)))
    = Ret ([ ({[ "case_id" := PInt 103; "section_id" := PInt 7; "title" := PStr "a" ]} : Dict);
             ({[ "case_id" := PInt 105; "section_id" := PInt 7; "title" := PStr "b" ]} : Dict) ],
           1).
Proof.
  split.
  - rewrite (proj1 (agreed_creation_hands_back_what_was_added Sample.constants
                      (Sample.behind true) Sample.environment 1 [] (Sample.world (Some 4)))
               [ ({[ "section_id" := PInt 103; "suite_id" := PInt 4;
                     "name" := PStr "a" ]} : Dict);
                 ({[ "section_id" := PInt 104; "suite_id" := PInt 4;
                     "name" := PStr "b" ]} : Dict) ]
               ""
               (snd (_ResultsUploader__add_missing_sections Sample.constants
                       (Sample.behind true) Sample.environment 1 (Sample.world (Some 4)))));
      [reflexivity | reflexivity | | reflexivity | discriminate | vm_compute; reflexivity].
    exists (Some 8). rewrite !list_elem_of_In. vm_compute. intuition discriminate.
  - rewrite (proj2 (agreed_creation_hands_back_what_was_added Sample.constants
                      (Sample.behind true) Sample.environment 1 [] (Sample.world (Some 4)))
               [ ({[ "case_id" := PInt 103; "section_id" := PInt 7;
                     "title" := PStr "a" ]} : Dict);
                 ({[ "case_id" := PInt 105; "section_id" := PInt 7;
                     "title" := PStr "b" ]} : Dict) ]
               ""
               (snd (_ResultsUploader__add_missing_test_cases Sample.constants
                       (Sample.behind true) Sample.environment 1 [] (Sample.world (Some 4)))));
      [reflexivity | reflexivity | | reflexivity | vm_compute; reflexivity].
    exists (Some 71). rewrite !list_elem_of_In. vm_compute. intuition discriminate.
Defined.

(** ** An upload with nothing to create *)

Lemma get_suite_id_pinned (K : Constants) (R : Runtime) (environment : Environment)
    (project_id suite_mode : Z) (w : World) :
  optint_truthy (suite_id (w_provider w)) = true →
  _ResultsUploader__get_suite_id K R environment project_id suite_mode w
  = (Ret (optint_val (suite_id (w_provider w)), 1),
     after w [EvGet (get_suites project_id)]).
Proof.
  intros Hpin. unfold _ResultsUploader__get_suite_id.
  unfold mbind at 1. unfold M_bind at 1. unfold get_provider.
  rewrite Hpin. simpl. apply check_suite_id_result_is_never_read.
Qed.

Lemma add_run_run (R : Runtime) (project_id : Z) (run_name : string) (w : World) :
  let body := add_run_data R (w_provider w) run_name in
  let response := send_post R (w_trace w) (add_run_ep project_id) body in
  add_run R project_id run_name w
  = (match py_dot_get (response_text response) "id" with
     | inr id => Ret (id, error_message response)
     | inl e => Raise e
     end,
     after w [EvPost (add_run_ep project_id) body]).
Proof.
  intros body response. unfold add_run.
  unfold mbind at 1. unfold M_bind at 1. unfold get_provider.
  unfold mbind at 1. unfold M_bind at 1. rewrite client_send_post_run.
  fold body response.
  by destruct (py_dot_get (response_text response) "id").
Qed.

Lemma close_run_run (R : Runtime) (run : PyVal) (w : World) :
  let body : Dict := {[ "run_id" := run ]} in
  let response := send_post R (w_trace w) (close_run_ep run) body in
  close_run R run w
  = (Ret (response_text response, error_message response),
     after w [EvPost (close_run_ep run) body]).
Proof.
  intros body response. unfold close_run. cbv zeta.
  unfold mbind at 1. unfold M_bind at 1. rewrite client_send_post_run. reflexivity.
Qed.

(** Up to the run, an upload with nothing to create makes the four listing
    requests and nothing else. *)
Lemma upload_with_nothing_to_create (K : Constants) (R : Runtime)
    (environment : Environment) (schedule_cases schedule_results : list PoolEvent)
    (w : World) (found : Project) (suite : Z) :
  nothing_to_create K R environment w found suite →
  upload_results K R environment schedule_cases schedule_results w
  = (run_id ←
       (if negb (optint_truthy (run_id environment)) then
          log (Text "Creating test run. ");;
          '(added_run, error_message) ← add_run R (p_id found) (title environment);
          (if str_truthy error_message then log (Text error_message);; exit 1
           else mret tt);;
          log (Text "Done.");;
          mret added_run
        else mret (optint_val (run_id environment)));
     '(added_results, error_message) ←
       add_results K R environment run_id schedule_results;
     (if str_truthy error_message then log (Text error_message);; exit 1 else mret tt);;
     log (Text "Closing test run. ");;
     '(response, error_message) ← close_run R run_id;
     (if str_truthy error_message then log (Text error_message);; exit 1 else mret tt);;
     log (Text "Done.");;
     log (Text "Executed in: {stop - start}");;
     log (Text "Adding test cases in: {stop_adding_test_cases - start_adding_test_cases}");;
     log (Text "Adding results in: {stop_adding_results - start_adding_results}"))
      (reconciled w found suite).
Proof.
  intros (Herror & Hfound & Habsent & Hother & Hsuite & Hpinned & Hsections & Hcases).
  unfold upload_results. unfold mbind at 1. unfold M_bind at 1.
  rewrite get_project_id_run. apply str_truthy_false in Herror.
  rewrite Herror, Hfound. cbn [project_id suite_mode pd_error_message].
  rewrite decide_False by exact Habsent. rewrite decide_False by exact Hother.
  unfold mbind at 1. unfold M_bind at 1.
  rewrite get_suite_id_pinned
    by (cbn [after w_provider]; rewrite Hsuite; simpl; by rewrite decide_False).
  rewrite after_after. cbn [app].
  rewrite decide_False by discriminate.
  unfold mbind at 1. unfold M_bind at 1. unfold mret at 1. unfold M_ret at 1.
  unfold mbind at 1. unfold M_bind at 1.
  rewrite add_missing_sections_empty_diff; cbn [after w_provider w_trace].
  2:{ rewrite Hsuite. apply Hsections. }
  2:{ rewrite Hsuite. apply difference_empty_of_subset. apply Hsections. }
  rewrite Hsuite.
  rewrite decide_False by discriminate.
  unfold mbind at 1. unfold M_bind at 1. unfold mret at 1. unfold M_ret at 1.
  unfold mbind at 1. unfold M_bind at 1.
  rewrite add_missing_test_cases_empty_diff; cbn [after w_provider w_trace].
  2:{ rewrite Hsuite. apply Hcases. }
  2:{ rewrite Hsuite. apply difference_empty_of_subset. apply Hcases. }
  rewrite Hsuite.
  rewrite decide_False by discriminate.
  unfold mbind at 1. unfold M_bind at 1. unfold mret at 1. unfold M_ret at 1.
  unfold reconciled, after. cbn [w_trace w_provider w_futures].
  rewrite <- !app_assoc. reflexivity.
Qed.

(** From the results on, when no call fails. *)
Lemma results_are_posted_and_the_run_is_closed (K : Constants) (R : Runtime)
    (environment : Environment) (run : PyVal) (schedule : list PoolEvent)
    (amounts : list nat) (w : World) :
  let chunks := add_results_for_cases_data R (w_provider w) (batch_size environment) in
  let path := add_results_for_cases run in
  MAX_WORKERS_ADD_RESULTS K ≠ 0%nat →
  Sigint ∉ schedule →
  mapM (λ results, r ← py_getitem (PDict results) "results"; py_len r) chunks
  = inr amounts →
  (∀ tr chunk, chunk ∈ chunks → error_message (send_post R tr path chunk) = "") →
  (∀ tr, error_message (send_post R tr (close_run_ep run) {[ "run_id" := run ]}) = "") →
  ∃ (events : list Event) (finals : list Future),
    ('(added_results, error_message) ← add_results K R environment run schedule;
     (if str_truthy error_message then log (Text error_message);; exit 1 else mret tt);;
     log (Text "Closing test run. ");;
     '(response, error_message) ← close_run R run;
     (if str_truthy error_message then log (Text error_message);; exit 1 else mret tt);;
     log (Text "Done.");;
     log (Text "Executed in: {stop - start}");;
     log (Text "Adding test cases in: {stop_adding_test_cases - start_adding_test_cases}");;
     log (Text "Adding results in: {stop_adding_results - start_adding_results}")) w
    = (Ret tt,
       mkWorld (w_trace w ++ events ++ EvProgressDone :: closing_lines run)
         (w_provider w) finals)
    ∧ posts_of events ≡ₚ pair path <$> chunks
    ∧ Forall batch_event events
    ∧ sum_list (progress_of events) = sum_list amounts.
Proof.
  intros chunks path Hworkers Hschedule Hamounts Hcalls Hclose.
  destruct (add_results_keeps_the_invariant K R environment run schedule amounts w
              Hworkers Hschedule Hamounts Hcalls)
    as (events & finals & responses & Hrun & Hinvariant & Hfinished & Hweights).
  destruct Hinvariant as (Hunits & Hanswered & Hresponses & Hevents & Hposts & Hprogress).
  exists events, finals.
  split; [|split; [|split; [exact Hevents|]]].
  - unfold mbind at 1. unfold M_bind at 1. rewrite Hrun.
    change (str_truthy "") with false. cbv iota.
    unfold mbind at 1. unfold M_bind at 1. unfold mret at 1. unfold M_ret at 1.
    unfold mbind at 1. unfold M_bind at 1. rewrite log_run.
    unfold mbind at 1. unfold M_bind at 1. rewrite close_run_run. cbv zeta.
    rewrite Hclose. change (str_truthy "") with false. cbv iota.
    unfold mbind at 1. unfold M_bind at 1. unfold mret at 1. unfold M_ret at 1.
    unfold mbind at 1. unfold M_bind at 1. rewrite log_run.
    unfold mbind at 1. unfold M_bind at 1. rewrite log_run.
    unfold mbind at 1. unfold M_bind at 1. rewrite log_run.
    rewrite log_run. unfold after, closing_lines. cbn [w_trace w_provider w_futures].
    rewrite <- !app_assoc. reflexivity.
  - by rewrite Hposts, all_started_when_finished, Hunits.
  - rewrite Hprogress. f_equal. by apply all_advanced_when_finished.
Qed.

(** Once the run is known, given or created. *)
Lemma upload_reaches_the_results (K : Constants) (R : Runtime)
    (environment : Environment) (schedule_cases schedule_results : list PoolEvent)
    (w : World) (found : Project) (suite : Z) (run : PyVal) :
  let start := reconciled w found suite in
  let run_body := add_run_data R (w_provider w) (title environment) in
  let announced := w_trace start ++ [EvLog (Text "Creating test run. ")] in
  let created := send_post R announced (add_run_ep (p_id found)) run_body in
  let creating :=
    if optint_truthy (run_id environment) then []
    else [EvLog (Text "Creating test run. "); EvPost (add_run_ep (p_id found)) run_body;
          EvLog (Text "Done.")] in
  nothing_to_create K R environment w found suite →
  (if optint_truthy (run_id environment) then run = optint_val (run_id environment)
   else error_message created = ""
        ∧ ∃ d, response_text created = PDict d ∧ run = py_get d "id") →
  upload_results K R environment schedule_cases schedule_results w
  = ('(added_results, error_message) ← add_results K R environment run schedule_results;
     (if str_truthy error_message then log (Text error_message);; exit 1 else mret tt);;
     log (Text "Closing test run. ");;
     '(response, error_message) ← close_run R run;
     (if str_truthy error_message then log (Text error_message);; exit 1 else mret tt);;
     log (Text "Done.");;
     log (Text "Executed in: {stop - start}");;
     log (Text "Adding test cases in: {stop_adding_test_cases - start_adding_test_cases}");;
     log (Text "Adding results in: {stop_adding_results - start_adding_results}"))
      (mkWorld (w_trace start ++ creating) (w_provider w) (w_futures w)).
Proof.
  intros start run_body announced created creating Hnothing Hrun.
  rewrite (upload_with_nothing_to_create K R environment schedule_cases schedule_results
             w found suite Hnothing).
  fold start. unfold creating.
  destruct (optint_truthy (run_id environment)); cbn [negb].
  - subst run. unfold mbind at 1. unfold M_bind at 1. unfold mret at 1. unfold M_ret at 1.
    rewrite app_nil_r. reflexivity.
  - destruct Hrun as (Hcreated & d & Hbody & ->).
    unfold mbind at 1. unfold M_bind at 1.
    unfold mbind at 1. unfold M_bind at 1. rewrite log_run.
    unfold mbind at 1. unfold M_bind at 1. rewrite add_run_run.
    cbn [after w_trace w_provider]. fold start announced.
    change (w_provider start) with (w_provider w). fold run_body created.
    rewrite Hbody, Hcreated. cbn [py_dot_get].
    change (str_truthy "") with false. cbv iota.
    unfold mbind at 1. unfold M_bind at 1. unfold mret at 1. unfold M_ret at 1.
    unfold mbind at 1. unfold M_bind at 1. rewrite log_run.
    unfold mret at 1. unfold M_ret at 1.
    unfold after. cbn [w_trace w_provider w_futures]. rewrite <- !app_assoc.
    reflexivity.
Qed.

(** An upload with nothing to create and no failing call.  The project is
    found, the suite is pinned and the remote holds every section and case;
    the run is the one given in the environment or, when none is given, the
    one a successful add_run call answers with; every call of the batch of
    results and the close_run call succeed, and the user does not interrupt.
    Then [upload_results] returns, without [exit]: after the four listing
    requests it creates the run with one call (unless one was given), posts
    each chunk of results once to that run, advances the progress bar to its
    total, closes the run with one call and logs its last lines.  Nobody is
    asked anything, no suite, section or case is created, and the data
    provider is left as it was. *)
Theorem upload_with_nothing_to_create_returns (K : Constants) (R : Runtime)
    (environment : Environment) (schedule_cases schedule_results : list PoolEvent)
    (amounts : list nat) (w : World) (found : Project) (suite : Z) (run : PyVal) :
  let chunks := add_results_for_cases_data R (w_provider w) (batch_size environment) in
  let start := reconciled w found suite in
  let run_body := add_run_data R (w_provider w) (title environment) in
  let announced := w_trace start ++ [EvLog (Text "Creating test run. ")] in
  let created := send_post R announced (add_run_ep (p_id found)) run_body in
  let creating :=
    if optint_truthy (run_id environment) then []
    else [EvLog (Text "Creating test run. "); EvPost (add_run_ep (p_id found)) run_body;
          EvLog (Text "Done.")] in
  nothing_to_create K R environment w found suite →
  (if optint_truthy (run_id environment) then run = optint_val (run_id environment)
   else error_message created = ""
        ∧ ∃ d, response_text created = PDict d ∧ run = py_get d "id") →
  MAX_WORKERS_ADD_RESULTS K ≠ 0%nat →
  Sigint ∉ schedule_results →
  mapM (λ results, r ← py_getitem (PDict results) "results"; py_len r) chunks
  = inr amounts →
  (∀ tr chunk, chunk ∈ chunks →
               error_message (send_post R tr (add_results_for_cases run) chunk) = "") →
  (∀ tr, error_message (send_post R tr (close_run_ep run) {[ "run_id" := run ]}) = "") →
  ∃ (events : list Event) (finals : list Future),
    upload_results K R environment schedule_cases schedule_results w
    = (Ret tt,
       mkWorld (w_trace start ++ creating ++ events ++ EvProgressDone :: closing_lines run)
         (w_provider w) finals)
    ∧ posts_of events ≡ₚ pair (add_results_for_cases run) <$> chunks
    ∧ Forall batch_event events
    ∧ sum_list (progress_of events) = sum_list amounts.
Proof.
  intros chunks start run_body announced created creating
    Hnothing Hrun Hworkers Hschedule Hamounts Hcalls Hclose.
  rewrite (upload_reaches_the_results K R environment schedule_cases schedule_results
             w found suite run Hnothing Hrun).
  fold start run_body announced created creating.
  destruct (results_are_posted_and_the_run_is_closed K R environment run schedule_results
              amounts (mkWorld (w_trace start ++ creating) (w_provider w) (w_futures w))
              Hworkers Hschedule Hamounts Hcalls Hclose)
    as (events & finals & Hrest & Hposts & Hevents & Hprogress).
  exists events, finals. split; [|by repeat split].
  rewrite Hrest. cbn [w_trace w_provider]. by rewrite <- app_assoc.
Qed.

(** When the run cannot be created.  Nothing is to be created and no run
    is given.  If the answer to the add_run call carries an error and a dict
    as its body, the error is logged and the upload ends by [exit(1)]; if the
    body is not a dict, [add_run] raises AttributeError while it reads the
    id, before anybody looks at the error: the upload ends by that exception
    and the client's error is never logged.  In both cases no result has been
    posted and no run is closed. *)
Theorem upload_ends_when_the_run_is_not_created (K : Constants) (R : Runtime)
    (environment : Environment) (schedule_cases schedule_results : list PoolEvent)
    (w : World) (found : Project) (suite : Z) :
  let start := reconciled w found suite in
  let run_body := add_run_data R (w_provider w) (title environment) in
  let announced := w_trace start ++ [EvLog (Text "Creating test run. ")] in
  let created := send_post R announced (add_run_ep (p_id found)) run_body in
  nothing_to_create K R environment w found suite →
  optint_truthy (run_id environment) = false →
  (∀ d, response_text created = PDict d → error_message created ≠ "" →
        upload_results K R environment schedule_cases schedule_results w
        = (Raise (SystemExit 1),
           after start [EvLog (Text "Creating test run. ");
                        EvPost (add_run_ep (p_id found)) run_body;
                        EvLog (Text (error_message created))]))
  ∧ ((∀ d, response_text created ≠ PDict d) →
     upload_results K R environment schedule_cases schedule_results w
     = (Raise AttributeError,
        after start [EvLog (Text "Creating test run. ");
                     EvPost (add_run_ep (p_id found)) run_body])).
Proof.
  intros start run_body announced created Hnothing Hgiven.
  rewrite (upload_with_nothing_to_create K R environment schedule_cases schedule_results
             w found suite Hnothing).
  fold start. rewrite Hgiven. cbn [negb].
  split; [intros d Hbody Herror | intros Hbody];
    unfold mbind at 1; unfold M_bind at 1;
    unfold mbind at 1; unfold M_bind at 1; rewrite log_run;
    unfold mbind at 1; unfold M_bind at 1; rewrite add_run_run;
    cbn [after w_trace w_provider]; fold start announced;
    change (w_provider start) with (w_provider w); fold run_body created.
  - apply str_truthy_true in Herror. rewrite Hbody. cbn [py_dot_get]. rewrite Herror.
    unfold mbind at 1. unfold M_bind at 1.
    unfold mbind at 1. unfold M_bind at 1. rewrite log_run.
    unfold after. cbn [w_trace w_provider w_futures].
    rewrite <- ?app_assoc. reflexivity.
  - destruct (response_text created) as [| | | | |d] eqn:Htext;
      [.. | by destruct (Hbody d)];
      cbn [py_dot_get]; unfold after; cbn [w_trace w_provider w_futures];
      rewrite <- ?app_assoc; reflexivity.
Qed.

Lemma sample_has_nothing_to_create (bodies : list Dict) :
  nothing_to_create Sample.constants (Sample.ready bodies) Sample.environment
    (Sample.world (Some 4)) (mkProject 1 "Demo" 1) 4.
Proof.
  unfold nothing_to_create. cbv zeta.
  split; [reflexivity|]. split; [vm_compute; reflexivity|].
  split; [compute; discriminate|]. split; [compute; discriminate|].
  split; [reflexivity|]. split; [discriminate|].
  split; intros tr; (split; [reflexivity | all_members]).
Qed.

Lemma sample_refusing_runs_has_nothing_to_create (body : PyVal) :
  nothing_to_create Sample.constants (Sample.refusing_runs body) Sample.environment
    (Sample.world (Some 4)) (mkProject 1 "Demo" 1) 4.
Proof.
  unfold nothing_to_create. cbv zeta.
  split; [reflexivity|]. split; [vm_compute; reflexivity|].
  split; [compute; discriminate|]. split; [compute; discriminate|].
  split; [reflexivity|]. split; [discriminate|].
  split; intros tr; (split; [reflexivity | all_members]).
Qed.

(** A run of it against [Sample.ready]: the run the server creates is 105,
    and three chunks of two results each go to it. *)
Lemma upload_with_nothing_to_create_witness :
  ∃ (events : list Event) (finals : list Future),
    upload_results Sample.constants (Sample.ready Sample.three_chunks) Sample.environment
      [] [Start 2] (Sample.world (Some 4))
    = (Ret tt,
       mkWorld
         ([EvGet get_projects; EvGet (get_suites 1); EvGet (get_sections 1 (Some 4));
           EvGet (get_cases 1 (Some 4))]
          ++ [EvLog (Text "Creating test run. ");
              EvPost (add_run_ep 1) {[ "name" := PStr "Nightly" ]};
              EvLog (Text "Done.")]
          ++ events ++ EvProgressDone :: closing_lines (PInt 105))
         (Sample.provider (Some 4)) finals)
    ∧ posts_of events ≡ₚ pair (add_results_for_cases (PInt 105)) <$> Sample.three_chunks
    ∧ sum_list (progress_of events) = 6%nat.
Proof.
  destruct (upload_with_nothing_to_create_returns Sample.constants
              (Sample.ready Sample.three_chunks) Sample.environment [] [Start 2]
              [2; 2; 2]%nat (Sample.world (Some 4))
              (mkProject 1 "Demo" 1) 4 (PInt 105) (sample_has_nothing_to_create _))
    as (events & finals & Hrun & Hposts & _ & Hsum).
  - split; [reflexivity|].
    exists (<["id" := PInt 105]>
              (<["suite_id" := PInt 4]>
                 (<["section_id" := PInt 7]> ({[ "name" := PStr "Nightly" ]} : Dict)))).
    split; vm_compute; reflexivity.
  - discriminate.
  - rewrite list_elem_of_In. simpl. intuition discriminate.
  - vm_compute. reflexivity.
  - intros tr chunk Hin.
    change (chunk ∈ [Sample.chunk "a"; Sample.chunk "b"; Sample.chunk "c"]) in Hin.
    rewrite list_elem_of_In in Hin. simpl in Hin.
    destruct Hin as [<-|[<-|[<-|[]]]]; vm_compute; reflexivity.
  - intros tr. vm_compute. reflexivity.
  - exists events, finals. split; [exact Hrun | split; [exact Hposts | exact Hsum]].
Defined.

(** Two runs of it: the server refuses the run with a dict as body, and
    with a string as body. *)
Lemma upload_ends_when_the_run_is_not_created_witness :
  upload_results Sample.constants
    (Sample.refusing_runs (PDict {[ "error" := PStr "No permission" ]}))
    Sample.environment [] [] (Sample.world (Some 4))
  = (Raise (SystemExit 1),
     after (reconciled (Sample.world (Some 4)) (mkProject 1 "Demo" 1) 4)
       [EvLog (Text "Creating test run. ");
        EvPost (add_run_ep 1) {[ "name" := PStr "Nightly" ]};
        EvLog (Text "No permission")])
  ∧ upload_results Sample.constants (Sample.refusing_runs (PStr "No permission"))
      Sample.environment [] [] (Sample.world (Some 4))
    = (Raise AttributeError,
       after (reconciled (Sample.world (Some 4)) (mkProject 1 "Demo" 1) 4)
         [EvLog (Text "Creating test run. ");
          EvPost (add_run_ep 1) {[ "name" := PStr "Nightly" ]}]).
Proof.
  split.
  - apply (proj1 (upload_ends_when_the_run_is_not_created Sample.constants
                    (Sample.refusing_runs (PDict {[ "error" := PStr "No permission" ]}))
                    Sample.environment [] [] (Sample.world (Some 4))
                    (mkProject 1 "Demo" 1) 4
                    (sample_refusing_runs_has_nothing_to_create _) eq_refl)
             {[ "error" := PStr "No permission" ]});
      [reflexivity | discriminate].
  - apply (proj2 (upload_ends_when_the_run_is_not_created Sample.constants
                    (Sample.refusing_runs (PStr "No permission"))
                    Sample.environment [] [] (Sample.world (Some 4))
                    (mkProject 1 "Demo" 1) 4
                    (sample_refusing_runs_has_nothing_to_create _) eq_refl)).
    discriminate.
Defined.

(** ** A batch in which a call is refused *)









(** ** An upload that fails at the results *)



(** ** An upload that fails at closing the run *)

(** When the run cannot be closed.  Nothing is to be created, the run is
    given or has been created, every call of the batch of results succeeds,
    the user does not interrupt, and the close_run call is refused whenever
    it is made.  Then every chunk has been posted, once, and the progress bar
    is at Done when [upload_results] asks to close the run; the error of that
    call is logged and the upload ends by [exit(1)], without its closing
    lines. *)
Theorem upload_ends_when_the_run_is_not_closed (K : Constants) (R : Runtime)
    (environment : Environment) (schedule_cases schedule_results : list PoolEvent)
    (amounts : list nat) (w : World) (found : Project) (suite : Z) (run : PyVal) :
  let chunks := add_results_for_cases_data R (w_provider w) (batch_size environment) in
  let start := reconciled w found suite in
  let run_body := add_run_data R (w_provider w) (title environment) in
  let announced := w_trace start ++ [EvLog (Text "Creating test run. ")] in
  let created := send_post R announced (add_run_ep (p_id found)) run_body in
  let creating :=
    if optint_truthy (run_id environment) then []
    else [EvLog (Text "Creating test run. "); EvPost (add_run_ep (p_id found)) run_body;
          EvLog (Text "Done.")] in
  let closing : Dict := {[ "run_id" := run ]} in
  nothing_to_create K R environment w found suite →
  (if optint_truthy (run_id environment) then run = optint_val (run_id environment)
   else error_message created = ""
        ∧ ∃ d, response_text created = PDict d ∧ run = py_get d "id") →
  MAX_WORKERS_ADD_RESULTS K ≠ 0%nat →
  Sigint ∉ schedule_results →
  mapM (λ results, r ← py_getitem (PDict results) "results"; py_len r) chunks
  = inr amounts →
  (∀ tr chunk, chunk ∈ chunks →
               error_message (send_post R tr (add_results_for_cases run) chunk) = "") →
  (∀ tr, error_message (send_post R tr (close_run_ep run) closing) ≠ "") →
  ∃ (events : list Event) (finals : list Future),
    let uploaded :=
      w_trace start ++ creating ++ events
      ++ [EvProgressDone; EvLog (Text "Closing test run. ")] in
    upload_results K R environment schedule_cases schedule_results w
    = (Raise (SystemExit 1),
       mkWorld
         (uploaded
          ++ [EvPost (close_run_ep run) closing;
              EvLog (Text (error_message (send_post R uploaded (close_run_ep run) closing)))])
         (w_provider w) finals)
    ∧ posts_of events ≡ₚ pair (add_results_for_cases run) <$> chunks
    ∧ Forall batch_event events.
Proof.
  intros chunks start run_body announced created creating closing
    Hnothing Hrun Hworkers Hschedule Hamounts Hcalls Hclose.
  rewrite (upload_reaches_the_results K R environment schedule_cases schedule_results
             w found suite run Hnothing Hrun).
  fold start run_body announced created creating.
  destruct (add_results_keeps_the_invariant K R environment run schedule_results amounts
              (mkWorld (w_trace start ++ creating) (w_provider w) (w_futures w))
              Hworkers Hschedule Hamounts Hcalls)
    as (events & finals & responses & Hbatch & Hinvariant & Hfinished & _).
  destruct Hinvariant as (Hunits & _ & _ & Hevents & Hposts & _).
  exists events, finals. cbv zeta.
  split; [|split; [by rewrite Hposts, all_started_when_finished, Hunits | exact Hevents]].
  unfold mbind at 1. unfold M_bind at 1. rewrite Hbatch.
  change (str_truthy "") with false. cbv iota.
  unfold mbind at 1. unfold M_bind at 1. unfold mret at 1. unfold M_ret at 1.
  unfold mbind at 1. unfold M_bind at 1. rewrite log_run.
  unfold mbind at 1. unfold M_bind at 1. rewrite close_run_run. cbv zeta.
  fold closing. cbn [after w_trace w_provider w_futures].
  rewrite <- !app_assoc. cbn [app].
  pose proof (Hclose (w_trace start ++ creating ++ events
                      ++ [EvProgressDone; EvLog (Text "Closing test run. ")])) as Herror.
  apply str_truthy_true in Herror. rewrite Herror.
  unfold mbind at 1. unfold M_bind at 1.
  unfold mbind at 1. unfold M_bind at 1. rewrite log_run.
  unfold after. cbn [w_trace w_provider w_futures].
  rewrite <- !app_assoc. reflexivity.
Qed.

Lemma sample_refusing_to_close_has_nothing_to_create :
  nothing_to_create Sample.constants Sample.refusing_to_close Sample.environment
    (Sample.world (Some 4)) (mkProject 1 "Demo" 1) 4.
Proof.
  unfold nothing_to_create. cbv zeta.
  split; [reflexivity|]. split; [vm_compute; reflexivity|].
  split; [compute; discriminate|]. split; [compute; discriminate|].
  split; [reflexivity|]. split; [discriminate|].
  split; intros tr; (split; [reflexivity | all_members]).
Qed.

(** A run of it against [Sample.refusing_to_close]. *)
Lemma upload_ends_when_the_run_is_not_closed_witness :
  ∃ (events : list Event) (finals : list Future),
    upload_results Sample.constants Sample.refusing_to_close Sample.environment
      [] [Start 2] (Sample.world (Some 4))
    = (Raise (SystemExit 1),
       mkWorld
         (([EvGet get_projects; EvGet (get_suites 1); EvGet (get_sections 1 (Some 4));
            EvGet (get_cases 1 (Some 4))]
           ++ [EvLog (Text "Creating test run. ");
               EvPost (add_run_ep 1) {[ "name" := PStr "Nightly" ]};
               EvLog (Text "Done.")]
           ++ events ++ [EvProgressDone; EvLog (Text "Closing test run. ")])
          ++ [EvPost (close_run_ep (PInt 105)) {[ "run_id" := PInt 105 ]};
              EvLog (Text "The run is locked")])
         (Sample.provider (Some 4)) finals)
    ∧ posts_of events ≡ₚ pair (add_results_for_cases (PInt 105)) <$> Sample.three_chunks.
Proof.
  destruct (upload_ends_when_the_run_is_not_closed Sample.constants
              Sample.refusing_to_close Sample.environment [] [Start 2]
              [2; 2; 2]%nat (Sample.world (Some 4))
              (mkProject 1 "Demo" 1) 4 (PInt 105)
              sample_refusing_to_close_has_nothing_to_create)
    as (events & finals & Hrun & Hposts & _).
  - split; [reflexivity|].
    exists (<["id" := PInt 105]>
              (<["suite_id" := PInt 4]>
                 (<["section_id" := PInt 7]> ({[ "name" := PStr "Nightly" ]} : Dict)))).
    split; vm_compute; reflexivity.
  - discriminate.
  - rewrite list_elem_of_In. simpl. intuition discriminate.
  - vm_compute. reflexivity.
  - intros tr chunk Hin.
    change (chunk ∈ [Sample.chunk "a"; Sample.chunk "b"; Sample.chunk "c"]) in Hin.
    rewrite list_elem_of_In in Hin. simpl in Hin.
    destruct Hin as [<-|[<-|[<-|[]]]]; vm_compute; reflexivity.
  - intros tr. discriminate.
  - exists events, finals. split; [exact Hrun | exact Hposts].
Defined.

(** ** The check of a pinned suite *)

(** [check_suite_id] itself answers as its docstring says: it asks for the
    suites of the project once; when the request fails it hands back [None]
    with the client's error, and otherwise [True] exactly when the listing
    holds a suite whose id is the one of the data provider, [False] when it
    does not (or when no suite is pinned), with an empty error. *)
Theorem check_suite_id_answers (R : Runtime) (project_id : Z) (w : World) :
  let response := send_get_suites R (w_trace w) project_id in
  ∃ answer : option bool * string,
    check_suite_id R project_id w = (Ret answer, after w [EvGet (get_suites project_id)])
    ∧ (error_message response ≠ "" → answer = (None, error_message response))
    ∧ (error_message response = "" →
       ∃ listed : bool,
         answer = (Some listed, "")
         ∧ (listed = true
            ↔ ∃ suite, suite ∈ response_text response
                       ∧ suite_id (w_provider w) = Some (s_id suite))).
Proof.
  intros response. unfold check_suite_id.
  unfold mbind at 1. unfold M_bind at 1. unfold get_provider.
  unfold mbind at 1. unfold M_bind at 1. rewrite send_get_run. fold response.
  destruct (str_truthy (error_message response)) eqn:Herror; cbn [negb].
  - apply str_truthy_true in Herror. eexists. split; [reflexivity|]. by split.
  - apply str_truthy_false in Herror.
    destruct (decide (suite_id (w_provider w) ∈ map Some (map s_id (response_text response))))
      as [Hin|Hout].
    + eexists. split; [reflexivity|]. split; [done|]. intros _.
      exists true. split; [reflexivity|]. split; [intros _|done].
      apply list_elem_of_fmap in Hin as (id & Hpinned & Hid).
      apply list_elem_of_fmap in Hid as (suite & -> & Hsuite). by exists suite.
    + eexists. split; [reflexivity|]. split; [done|]. intros _.
      exists false. split; [reflexivity|]. split; [discriminate|].
      intros (suite & Hsuite & Hpinned). destruct Hout. rewrite Hpinned.
      apply (list_elem_of_fmap_2 Some), (list_elem_of_fmap_2 s_id), Hsuite.
Qed.
